(** * doitlive: a shallow embedding of [doitlive.py] and its specification

    The development follows the source file top to bottom: the string
    primitives of Python that the program relies on, the few functions of
    [click] it calls, [TermString] and its modifiers, the directive
    grammar [OPTION_RE], the command executor [run_command], the typing
    simulator ([wait_for], [magictype]), the session player [run] and the
    recorder ([run_recorder], [record]).

    Conventions.
    - A Python [str] is a Rocq [string]; one [ascii] stands for one
      character.  The embedding follows Python 3 ([PY2 = False]) and is
      exact on ASCII text: characters above 127 are neither white space
      nor digits.
      The glyphs of the prompt symbols are written as they stand in the
      source and are only ever copied.
    - Python integers are [Z].
    - Effectful functions thread the pending keystrokes, the lines that
      the operator will enter and the state of the operating system
      explicitly, and return the events they emit, oldest first.  An
      exception is an outcome, [Raise]; [getchar] with no keystroke left
      is the outcome [Blocked].
    - What lies outside the file, the operating system, [subprocess] and
      [str.format], is the class [Platform]. *)

From Stdlib Require Import String Ascii List ZArith Lia Bool.
Import ListNotations.
Local Open Scope list_scope.
Local Open Scope string_scope.

(** ** Python string primitives *)

Module Py.

(** [str.isspace] on one character, ASCII range: TAB, LF, VT, FF, CR,
    FS, GS, RS, US and SPACE.  The same set is matched by [\s] in a
    Python 3 [str] pattern. *)
Definition is_space (c : ascii) : bool :=
  let n := nat_of_ascii c in
  ((9 <=? n)%nat && (n <=? 13)%nat) || ((28 <=? n)%nat && (n <=? 32)%nat).

Definition is_digit (c : ascii) : bool :=
  let n := nat_of_ascii c in (48 <=? n)%nat && (n <=? 57)%nat.

Definition is_alpha (c : ascii) : bool :=
  let n := nat_of_ascii c in
  ((65 <=? n)%nat && (n <=? 90)%nat) || ((97 <=? n)%nat && (n <=? 122)%nat).

(** [len(s)] *)
Definition len (s : string) : Z := Z.of_nat (String.length s).

(** Truth value of a string: [bool(s)]. *)
Definition truthy (s : string) : bool :=
  match s with EmptyString => false | String _ _ => true end.

(** [s.startswith(p)] *)
Definition startswith (p s : string) : bool := String.prefix p s.

(** [sub in s] *)
Fixpoint contains (sub s : string) : bool :=
  String.prefix sub s ||
  match s with
  | EmptyString => false
  | String _ s' => contains sub s'
  end.

Fixpoint drop (n : nat) (s : string) : string :=
  match n, s with
  | O, _ => s
  | S n', String _ s' => drop n' s'
  | S _, EmptyString => EmptyString
  end.

Fixpoint take (n : nat) (s : string) : string :=
  match n, s with
  | S n', String c s' => String c (take n' s')
  | _, _ => EmptyString
  end.

(** Normalisation of a slice bound, as [PySlice_AdjustIndices] does for
    step 1: a negative bound counts from the end, then the bound is
    clamped to [0, len]. *)
Definition adjust_index (length k : Z) : Z :=
  if (k <? 0)%Z then Z.max 0 (k + length) else Z.min k length.

(** [s[lo:hi]] *)
Definition slice (s : string) (lo hi : Z) : string :=
  let a := adjust_index (len s) lo in
  let b := adjust_index (len s) hi in
  take (Z.to_nat (b - a)) (drop (Z.to_nat a) s).

(** [s.lstrip()], [s.rstrip()], [s.strip()] *)
Fixpoint lstrip (s : string) : string :=
  match s with
  | String c s' => if is_space c then lstrip s' else s
  | EmptyString => EmptyString
  end.

Fixpoint rstrip (s : string) : string :=
  match s with
  | String c s' =>
      match rstrip s' with
      | EmptyString => if is_space c then EmptyString else String c EmptyString
      | r => String c r
      end
  | EmptyString => EmptyString
  end.

Definition strip (s : string) : string := lstrip (rstrip s).

(** [s.split()]: the maximal runs of characters that are not white
    space.  [word] is the run being read. *)
Fixpoint split_from (word : string) (s : string) : list string :=
  match s with
  | EmptyString =>
      match word with EmptyString => [] | _ => [word] end
  | String c s' =>
      if is_space c then
        match word with
        | EmptyString => split_from EmptyString s'
        | _ => word :: split_from EmptyString s'
        end
      else split_from (word ++ String c EmptyString) s'
  end.

Definition split (s : string) : list string := split_from EmptyString s.

(** [sep.join(l)] *)
Fixpoint join (sep : string) (l : list string) : string :=
  match l with
  | [] => EmptyString
  | [x] => x
  | x :: rest => x ++ sep ++ join sep rest
  end.

(** [s.replace(old, new)] for a non-empty [old]; [skip] counts the
    characters of the occurrence being replaced that are still to be
    dropped.  With an empty [old] Python puts [new] before every
    character and at the end. *)
Fixpoint replace_from (old new : string) (skip : nat) (s : string) : string :=
  match s with
  | EmptyString => EmptyString
  | String c s' =>
      match skip with
      | S k => replace_from old new k s'
      | O =>
          if String.prefix old s
          then new ++ replace_from old new (String.length old - 1) s'
          else String c (replace_from old new 0 s')
      end
  end.

Fixpoint intersperse_all (new : string) (s : string) : string :=
  match s with
  | EmptyString => new
  | String c s' => new ++ String c (intersperse_all new s')
  end.

Definition replace (old new s : string) : string :=
  match old with
  | EmptyString => intersperse_all new s
  | _ => replace_from old new 0 s
  end.

(** [int(s)]: optional white space, an optional sign, decimal digits
    that single underscores may separate, optional white space.
    [None] stands for [ValueError]. *)
Definition digit_val (c : ascii) : Z := Z.of_nat (nat_of_ascii c - 48).

(** [after_digit]: the previous character was a digit, so an
    underscore may follow. *)
Fixpoint digits_from (acc : Z) (after_digit : bool) (s : string) : option Z :=
  match s with
  | EmptyString => if after_digit then Some acc else None
  | String c s' =>
      if is_digit c then digits_from (10 * acc + digit_val c)%Z true s'
      else if Ascii.eqb c "_" then
        if after_digit then digits_from acc false s' else None
      else None
  end.

Definition int (s : string) : option Z :=
  match strip s with
  | String "-" d => option_map Z.opp (digits_from 0 false d)
  | String "+" d => digits_from 0 false d
  | d => digits_from 0 false d
  end.

End Py.

(** ** The functions of [click] that the program uses *)

Module Click.

Definition ESC : string := String (ascii_of_nat 27) EmptyString.

Inductive color :=
| black | red | green | yellow | blue | magenta | cyan | white | reset.

(** ['\033[%dm' % (_ansi_colors.index(fg) + 30)] *)
Definition fg_code (c : color) : string :=
  match c with
  | black => "30" | red => "31" | green => "32" | yellow => "33"
  | blue => "34" | magenta => "35" | cyan => "36" | white => "37"
  | reset => "38"
  end.

Definition sgr (code : string) : string := ESC ++ "[" ++ code ++ "m".

(** The keyword arguments of [click.style] that the program passes;
    [None] is an argument left out. *)
Record style_args := {
  fg : option color;
  bold : option bool;
  dim : option bool;
  underline : option bool;
  blink : option bool
}.

Definition attr (on off : string) (a : option bool) : string :=
  match a with
  | None => EmptyString
  | Some true => sgr on
  | Some false => sgr off
  end.

(** [click.style] with these keyword arguments and [reset=True]. *)
Definition style (text : string) (k : style_args) : string :=
  match fg k with Some c => sgr (fg_code c) | None => EmptyString end
  ++ attr "1" "22" (bold k)
  ++ attr "2" "22" (dim k)
  ++ attr "4" "24" (underline k)
  ++ attr "5" "25" (blink k)
  ++ text
  ++ sgr "0".

(** [_ansi_re]: ESC, an opening square bracket, any number of digits
    and semicolons, one ASCII letter.  [params_length] counts the digits
    and semicolons at the head of a text; [match_ansi] gives the length
    of the match at the head of [s], if there is one. *)
Fixpoint params_length (s : string) : nat :=
  match s with
  | String c s' =>
      if Py.is_digit c || Ascii.eqb c ";" then S (params_length s') else 0
  | EmptyString => 0
  end.

Definition match_ansi (s : string) : option nat :=
  match s with
  | String e (String "[" r) =>
      if Ascii.eqb e (ascii_of_nat 27) then
        match Py.drop (params_length r) r with
        | String c _ =>
            if Py.is_alpha c then Some (params_length r + 3) else None
        | EmptyString => None
        end
      else None
  | _ => None
  end.

(** [strip_ansi(value) = _ansi_re.sub('', value)]; [skip] counts the
    characters of the current match that are still to be dropped. *)
Fixpoint strip_ansi_from (skip : nat) (s : string) : string :=
  match s with
  | EmptyString => EmptyString
  | String c s' =>
      match skip with
      | S k => strip_ansi_from k s'
      | O =>
          match match_ansi s with
          | Some n => strip_ansi_from (n - 1) s'
          | None => String c (strip_ansi_from 0 s')
          end
      end
  end.

Definition strip_ansi (value : string) : string := strip_ansi_from 0 value.

End Click.

(** ** [TermString] *)

Module TermString.
Import Click.

(** [Style.__get__]: [click.style] applied to the instance with the
    keyword arguments of the descriptor. *)
Definition Style (k : style_args) (instance : string) : string :=
  style instance k.

(** The keyword arguments of the [Style] descriptors of the class. *)
Definition kw_fg (c : color) : style_args :=
  Build_style_args (Some c) None None None None.
Definition kw_bold : style_args :=
  Build_style_args None (Some true) None None None.
Definition kw_dim : style_args :=
  Build_style_args None None (Some true) None None.
Definition kw_underline : style_args :=
  Build_style_args None None None (Some true) None.
Definition kw_blink : style_args :=
  Build_style_args None None None None (Some true).

Definition blue := Style (kw_fg Click.blue).
Definition magenta := Style (kw_fg Click.magenta).
Definition red := Style (kw_fg Click.red).
Definition white := Style (kw_fg Click.white).
Definition green := Style (kw_fg Click.green).
Definition black := Style (kw_fg Click.black).
Definition yellow := Style (kw_fg Click.yellow).
Definition cyan := Style (kw_fg Click.cyan).
Definition reset := Style (kw_fg Click.reset).

Definition bold := Style kw_bold.
Definition blink := Style kw_blink.
Definition underlined := Style kw_underline.
Definition dim := Style kw_dim.

(** The backspace character, ['\b']. *)
Definition BS : string := String (ascii_of_nat 8) EmptyString.

Definition _bracketed (self left right : string) : string :=
  if Py.truthy (strip_ansi self)
  then left ++ self ++ right
  else BS.

Definition paren (self : string) : string := _bracketed self "(" ")".
Definition square (self : string) : string := _bracketed self "[" "]".
Definition curly (self : string) : string := _bracketed self "{" "}".

Definition git (self : string) : string :=
  if Py.truthy (strip_ansi self)
  then style "git" (kw_fg Click.blue) ++ ":" ++ self
  else BS.

End TermString.

(** ** The directive grammar, [OPTION_RE] *)

Module OptionRE.

Definition LF : ascii := ascii_of_nat 10.

(** [p] matched literally at the head of [s]: the text after it. *)
Definition literal (p s : string) : option string :=
  if String.prefix p s then Some (Py.drop (String.length p) s) else None.

(** [\s?]: what follows [doitlive] begins with a character that is not
    white space, so a white-space character at the head is taken. *)
Definition opt_space (s : string) : string :=
  match s with
  | String c s' => if Py.is_space c then s' else s
  | EmptyString => s
  end.

(** [\s+], greedy; the option names begin with a letter. *)
Definition spaces1 (s : string) : option string :=
  match s with
  | String c s' => if Py.is_space c then Some (Py.lstrip s') else None
  | EmptyString => None
  end.

(** [(?P<arg>.+)$]: one or more characters other than a newline, up to
    the end of the text or to a newline that ends the text. *)
Fixpoint dot_plus_end (s : string) : option string :=
  match s with
  | EmptyString => None
  | String c s' =>
      if Ascii.eqb c LF then None
      else
        match s' with
        | EmptyString => Some (String c EmptyString)
        | String d EmptyString =>
            if Ascii.eqb d LF then Some (String c EmptyString)
            else Some (String c (String d EmptyString))
        | _ => option_map (String c) (dot_plus_end s')
        end
  end.

(** [\s*(?P<arg>.+)$]: the white space is taken greedily and given
    back, one character at a time, while the rest does not match. *)
Fixpoint spaces_then_arg (s : string) : option string :=
  match s with
  | String c s' =>
      if Py.is_space c then
        match spaces_then_arg s' with
        | Some a => Some a
        | None => dot_plus_end s
        end
      else dot_plus_end s
  | EmptyString => None
  end.

(** [(?P<option>prompt|shell|alias|env|speed):] and the rest of the
    pattern, the alternatives tried from left to right. *)
Fixpoint alternatives (names : list string) (s : string) : option (string * string) :=
  match names with
  | [] => None
  | name :: rest =>
      match literal (name ++ ":") s with
      | Some r =>
          match spaces_then_arg r with
          | Some a => Some (name, a)
          | None => alternatives rest s
          end
      | None => alternatives rest s
      end
  end.

Definition option_names : list string :=
  ["prompt"; "shell"; "alias"; "env"; "speed"].

(** [OPTION_RE.match(command)]: the groups [option] and [arg] of a
    match, [None] when the text does not match. *)
Definition re_match (command : string) : option (string * string) :=
  match command with
  | String "#" r =>
      match literal "doitlive" (opt_space r) with
      | Some r1 =>
          match spaces1 r1 with
          | Some r2 => alternatives option_names r2
          | None => None
          end
      | None => None
      end
  | _ => None
  end.

End OptionRE.

(** ** Outcomes, events and the platform *)

Inductive exn :=
| Abort               (* click.Abort *)
| ValueError
| IndexError
| KeyError
| OSError
| CalledProcessError
| FormatError.        (* any error of str.format on a template *)

(** The outcome of a call: a value, an exception, or [Blocked] when
    [getchar] waits for a keystroke that never comes. *)
Inductive result (A : Type) :=
| Ret (a : A)
| Raise (e : exn)
| Blocked.
Arguments Ret {A} a.
Arguments Raise {A} e.
Arguments Blocked {A}.

Inductive event :=
| EvKey (k : string)                       (* getchar() returned k *)
| EvEcho (s : string) (nl : bool)          (* click.echo(s, nl=nl) *)
| EvPauseKey (k : string)                  (* the key that click.pause() read *)
| EvClear                                  (* click.clear() *)
| EvRunCommand (cmd shell : string) (aliases envvars : list string)
                                           (* run_command is entered *)
| EvChdir (path : string)                  (* os.chdir(path) succeeded *)
| EvSpawn (shell name script : string)     (* child process [shell, name] *)
| EvWriteFile (path content : string).     (* a file written and closed *)

(** The dictionary of [get_prompt_state]. *)
Record prompt_state := {
  ps_user : string;
  ps_cwd : string;
  ps_dir : string;
  ps_hostname : string;
  ps_git_branch : string;
  ps_r_angle : string;
  ps_r_angle_double : string;
  ps_r_arrow : string;
  ps_dollar : string;
  ps_percent : string;
  ps_now : Z
}.

(** What the program asks of the operating system and of the Python
    library.  [OS] is the state of the machine outside the process. *)
Class Platform := {
  OS : Type;
  (** [os.getcwd()] *)
  os_getcwd : OS -> string;
  (** [os.chdir(path)]: the new state, [None] for [OSError]. *)
  os_chdir : string -> OS -> option OS;
  (** [os.path.exists(path)] *)
  os_path_exists : string -> OS -> bool;
  (** [os.environ.get(name)] *)
  environ : OS -> string -> option string;
  (** [pwd.getpwnam(name).pw_dir]; [None] as the name is the current
      user, [None] as the result is [KeyError]. *)
  pw_dir : OS -> option string -> option string;
  (** [getpass.getuser()] *)
  getuser : OS -> result string;
  (** [socket.gethostname()] *)
  gethostname : OS -> string;
  (** [dt.datetime.now()] *)
  clock : OS -> Z;
  (** [Popen(command, stdout=PIPE, stderr=PIPE).communicate()[0]]: the
      standard output of the child, or the exception of [Popen]. *)
  popen_communicate : list string -> OS -> exn + string;
  (** A child process [shell name] on a script with the given text: its
      exit status and output, [None] for [OSError] when it cannot be
      started; and the state it leaves. *)
  spawn : string -> string -> string -> OS -> option (Z * string) * OS;
  (** The name that [NamedTemporaryFile] chooses. *)
  tmp_name : OS -> string;
  (** [isatty(sys.stdin) and isatty(sys.stdout)] *)
  isatty : OS -> bool;
  (** [template.format], the state given as keyword arguments: the
      text, or the exception raised. *)
  str_format : string -> prompt_state -> exn + string
}.

Section Monad.
Context {P : Platform}.

(** The state that the program threads: the keystrokes that [getchar]
    will return, the lines that the operator will enter at a prompt, the
    machine, and the temporary files that the process holds. *)
Record state := {
  keys : list string;
  stdin : list string;
  os : OS;
  tmpfiles : list string
}.

Definition set_keys (ks : list string) (s : state) : state :=
  {| keys := ks; stdin := stdin s; os := os s; tmpfiles := tmpfiles s |}.
Definition set_stdin (l : list string) (s : state) : state :=
  {| keys := keys s; stdin := l; os := os s; tmpfiles := tmpfiles s |}.
Definition set_os (o : OS) (s : state) : state :=
  {| keys := keys s; stdin := stdin s; os := o; tmpfiles := tmpfiles s |}.
Definition set_tmpfiles (l : list string) (s : state) : state :=
  {| keys := keys s; stdin := stdin s; os := os s; tmpfiles := l |}.

(** A computation: from a state to an outcome, the state it leaves and
    the events it emitted, oldest first. *)
Definition M (A : Type) : Type := state -> result A * state * list event.

Definition ret {A} (a : A) : M A := fun s => (Ret a, s, []).
Definition raise {A} (e : exn) : M A := fun s => (Raise e, s, []).
Definition emit (e : event) : M unit := fun s => (Ret tt, s, [e]).

Definition bind {A B} (m : M A) (k : A -> M B) : M B :=
  fun s =>
    match m s with
    | (Ret a, s1, ev1) =>
        match k a s1 with
        | (r, s2, ev2) => (r, s2, (ev1 ++ ev2)%list)
        end
    | (Raise e, s1, ev1) => (Raise e, s1, ev1)
    | (Blocked, s1, ev1) => (Blocked, s1, ev1)
    end.

(** [try: body finally: cleanup], for a cleanup that cannot fail. *)
Definition finally {A} (body : M A) (cleanup : state -> state) : M A :=
  fun s =>
    match body s with
    | (r, s1, ev) => (r, cleanup s1, ev)
    end.

End Monad.

Declare Scope prog_scope.
Delimit Scope prog_scope with prog.
Notation "x <- m ;; k" := (bind m (fun x => k))
  (at level 61, m at next level, right associativity) : prog_scope.
Notation "m ;;; k" := (bind m (fun _ => k))
  (at level 61, right associativity) : prog_scope.
Local Open Scope prog_scope.

(** ** The program *)

Section Program.
Context {P : Platform}.

Definition ESC : string := Click.ESC.
Definition CR : string := String (ascii_of_nat 13) EmptyString.
Definition NL : string := String OptionRE.LF EmptyString.
Definition RETURNS : list string := [CR; NL].

(** [x in chars] *)
Definition is_in (x : string) (chars : list string) : bool :=
  existsb (String.eqb x) chars.

Definition TESTING : bool := false.

(** [THEMES], in the order of the source. *)
Definition THEMES : list (string * string) :=
  [ ("default", "{user.cyan.bold}@{hostname.blue}:{dir.green} $");
    ("sorin", "{cwd.cyan} {git_branch.green.git} "
              ++ "{r_angle.red}{r_angle.yellow}{r_angle.green}");
    ("nicolauj", "{r_angle.white}");
    ("steeef", "{user.red} at {hostname.yellow} in {cwd.green} "
               ++ "{git_branch.cyan.paren}" ++ NL ++ "$");
    ("redhat", "[{user}@{hostname} {dir}]$");
    ("redhat_color", "[{user.red.bold}@{hostname.red} {dir.blue}]$");
    ("walters", "{user}@{hostname.underlined}>");
    ("walters_color", "{user.cyan.bold}@{hostname.blue.underlined}>");
    ("minimal", "{dir} {git_branch.square} »");
    ("minimal_color", "{dir.cyan} {git_branch.blue.square} »");
    ("osx", "{hostname}:{dir} {user}$");
    ("osx_color", "{hostname.blue}:{dir.green} {user.cyan}$");
    ("pws", "+{now:%I:%M}%");
    ("robbyrussell", "{r_arrow.red} {dir.cyan} {git_branch.red.paren.git}") ].

(** [THEMES.get(name)] *)
Fixpoint themes_get (table : list (string * string)) (name : string) : option string :=
  match table with
  | [] => None
  | (n, tpl) :: rest => if String.eqb n name then Some tpl else themes_get rest name
  end.

(** *** [get_current_git_branch] *)

Definition git_command : list string :=
  ["git"; "symbolic-ref"; "--short"; "-q"; "HEAD"].

(** The [try] block returns the stripped output; the [except] clause
    names [subprocess.CalledProcessError] and falls through to
    [return '']; any other exception leaves the function. *)
Definition get_current_git_branch (o : OS) : result string :=
  match popen_communicate git_command o with
  | inr out => Ret (Py.strip out)
  | inl CalledProcessError => Ret EmptyString
  | inl e => Raise e
  end.

(** *** [get_prompt_state], [format_prompt], [make_prompt_formatter] *)

Definition R_ANGLE : string := "❯".
Definition R_ANGLE_DOUBLE : string := "»".
Definition R_ARROW : string := "➔".
Definition DOLLAR : string := "$".
Definition PERCENT : string := "%".

(** [os.path.split(p)[-1]]: the text after the last slash. *)
Fixpoint basename_from (tail : string) (p : string) : string :=
  match p with
  | EmptyString => tail
  | String c p' =>
      if Ascii.eqb c "/" then basename_from EmptyString p'
      else basename_from (tail ++ String c EmptyString) p'
  end.
Definition basename (p : string) : string := basename_from EmptyString p.

Definition get_prompt_state (o : OS) : result prompt_state :=
  let full_cwd := os_getcwd o in
  match environ o "HOME" with
  | None => Raise KeyError
  | Some home =>
      let cwd_raw := Py.replace home "~" full_cwd in
      let dir_raw := if String.eqb full_cwd home then "~" else basename full_cwd in
      match getuser o with
      | Ret user =>
          match get_current_git_branch o with
          | Ret branch =>
              Ret {| ps_user := user;
                     ps_cwd := cwd_raw;
                     ps_dir := dir_raw;
                     ps_hostname := gethostname o;
                     ps_git_branch := branch;
                     ps_r_angle := R_ANGLE;
                     ps_r_angle_double := R_ANGLE_DOUBLE;
                     ps_r_arrow := R_ARROW;
                     ps_dollar := DOLLAR;
                     ps_percent := PERCENT;
                     ps_now := clock o |}
          | Raise e => Raise e
          | Blocked => Blocked
          end
      | Raise e => Raise e
      | Blocked => Blocked
      end
  end.

Definition format_prompt (prompt : string) : M string :=
  fun s =>
    match get_prompt_state (os s) with
    | Ret st =>
        match str_format prompt st with
        | inr text => (Ret text, s, [])
        | inl e => (Raise e, s, [])
        end
    | Raise e => (Raise e, s, [])
    | Blocked => (Blocked, s, [])
    end.

(** [tpl = THEMES.get(template) or template] *)
Definition make_prompt_formatter (template : string) : M string :=
  let tpl :=
    match themes_get THEMES template with
    | Some t => if Py.truthy t then t else template
    | None => template
    end in
  format_prompt tpl.

(** *** [write_commands], [write_directives], [run_command] *)

(** The text that the calls of [fp.write] add to the file. *)
Fixpoint write_commands (command : string) (args : list string) : string :=
  match args with
  | [] => EmptyString
  | arg :: rest =>
      (command ++ " " ++ arg ++ NL) ++ write_commands command rest
  end.

Fixpoint write_directives (directive : string) (args : list string) : string :=
  match args with
  | [] => EmptyString
  | arg :: rest =>
      ("#doitlive " ++ directive ++ ": " ++ arg ++ NL)
      ++ write_directives directive rest
  end.

(** [os.path.expanduser(path)] of [posixpath]. *)
Fixpoint find_slash (p : string) : nat :=
  match p with
  | EmptyString => 0
  | String c p' => if Ascii.eqb c "/" then 0 else S (find_slash p')
  end.

Fixpoint rstrip_slash (p : string) : string :=
  match p with
  | String c p' =>
      match rstrip_slash p' with
      | EmptyString => if Ascii.eqb c "/" then EmptyString else String c EmptyString
      | r => String c r
      end
  | EmptyString => EmptyString
  end.

Definition expanduser (o : OS) (path : string) : string :=
  match path with
  | String "~" rest =>
      let i := find_slash rest in
      let userhome :=
        match i with
        | O =>
            match environ o "HOME" with
            | Some h => Some h
            | None => pw_dir o None
            end
        | _ => pw_dir o (Some (Py.take i rest))
        end in
      match userhome with
      | None => path
      | Some h =>
          match rstrip_slash h ++ Py.drop i rest with
          | EmptyString => "/"
          | r => r
          end
      end
  | _ => path
  end.

(** The text of the temporary script of [run_command]. *)
Definition script_text (cmd shell : string) (aliases envvars : list string) : string :=
  ("#!" ++ shell ++ NL)
  ++ ("# -*- coding: utf-8 -*-" ++ NL)
  ++ (if Py.contains "bash" shell then "shopt -s expand_aliases" ++ NL else EmptyString)
  ++ write_commands "export" envvars
  ++ write_commands "alias" aliases
  ++ (cmd ++ NL).

(** [with NamedTemporaryFile('w') as fp: body]: the file exists while
    the body runs and is removed when the block is left, whatever the
    outcome of the body. *)
Fixpoint remove_first (name : string) (l : list string) : list string :=
  match l with
  | [] => []
  | x :: rest => if String.eqb x name then rest else x :: remove_first name rest
  end.

Definition with_NamedTemporaryFile {A} (body : string -> M A) : M A :=
  fun s =>
    let name := tmp_name (os s) in
    finally (body name)
            (fun s1 => set_tmpfiles (remove_first name (tmpfiles s1)) s1)
            (set_tmpfiles (name :: tmpfiles s) s).

(** [shell or env.get('DOITLIVE_INTERPRETER') or '/bin/bash'] *)
Definition resolve_shell (o : OS) (shell : string) : string :=
  if Py.truthy shell then shell
  else match environ o "DOITLIVE_INTERPRETER" with
       | Some i => if Py.truthy i then i else "/bin/bash"
       | None => "/bin/bash"
       end.

(** [subprocess.check_output] / [subprocess.call] on [shell, fp.name]. *)
Definition run_script (shell name script : string) (test_mode : bool) : M (option Z) :=
  fun s =>
    match spawn shell name script (os s) with
    | (None, o') => (Raise OSError, set_os o' s, [EvSpawn shell name script])
    | (Some (status, output), o') =>
        if test_mode then
          if (status =? 0)%Z
          then (Ret None, set_os o' s, [EvSpawn shell name script; EvEcho output true])
          else (Raise CalledProcessError, set_os o' s, [EvSpawn shell name script])
        else (Ret (Some status), set_os o' s, [EvSpawn shell name script])
    end.

(** [os.chdir(os.path.expanduser(directory))] under [except OSError]. *)
Definition change_directory (directory : string) : M (option Z) :=
  fun s =>
    let path := expanduser (os s) directory in
    match os_chdir path (os s) with
    | Some o' => (Ret None, set_os o' s, [EvChdir path])
    | None =>
        (Ret None, s, [EvEcho ("No such file or directory: " ++ directory) true])
    end.

(** The value returned is the exit status of [subprocess.call], [None]
    where the function returns nothing. *)
Definition run_command (cmd shell : string) (aliases envvars : list string)
    (test_mode : bool) : M (option Z) :=
  emit (EvRunCommand cmd shell aliases envvars) ;;;
  fun s =>
    let shell := resolve_shell (os s) shell in
    if Py.startswith "cd " cmd then
      match Py.split cmd with
      | _ :: directory :: _ => change_directory directory s
      | _ => (Raise IndexError, s, [])
      end
    else
      with_NamedTemporaryFile
        (fun name =>
           run_script shell name (script_text cmd shell aliases envvars) test_mode)
        s.

(** *** [wait_for] and [magictype] *)

(** The loop of [wait_for] over the keystrokes to come: the outcome, the
    keystrokes left and the events. *)
Fixpoint wait_for_keys (chars : list string) (ks : list string)
  : result string * list string * list event :=
  match ks with
  | [] => (Blocked, [], [])
  | in_char :: ks' =>
      if String.eqb in_char ESC then
        (Raise Abort, ks', [EvKey in_char; EvEcho EmptyString true])
      else if is_in in_char chars then
        (Ret in_char, ks', [EvKey in_char; EvEcho EmptyString true])
      else
        match wait_for_keys chars ks' with
        | (r, ks'', ev) => (r, ks'', EvKey in_char :: ev)
        end
  end.

Definition wait_for (chars : list string) : M string :=
  fun s =>
    match wait_for_keys chars (keys s) with
    | (r, ks, ev) => (r, set_keys ks s, ev)
    end.

(** The [while i < len(text)] loop of [magictype], from index [i]. *)
Fixpoint typing_keys (text : string) (speed : Z) (i : Z) (ks : list string)
  {struct ks} : result unit * list string * list event :=
  if (i <? Py.len text)%Z then
    match ks with
    | [] => (Blocked, [], [])
    | in_char :: ks' =>
        let char := Py.slice text i (i + speed) in
        if String.eqb in_char ESC then
          (Raise Abort, ks', [EvKey in_char; EvEcho EmptyString true])
        else
          match typing_keys text speed (i + speed) ks' with
          | (r, ks'', ev) => (r, ks'', EvKey in_char :: EvEcho char false :: ev)
          end
    end
  else (Ret tt, ks, []).

Definition typing (text : string) (speed : Z) : M unit :=
  fun s =>
    match typing_keys text speed 0 (keys s) with
    | (r, ks, ev) => (r, set_keys ks s, ev)
    end.

Definition magictype (text shell prompt_template : string)
    (aliases envvars : list string) (speed : Z) (test_mode : bool) : M unit :=
  prompt <- make_prompt_formatter prompt_template ;;
  emit (EvEcho (prompt ++ " ") false) ;;;
  typing text speed ;;;
  wait_for RETURNS ;;;
  run_command text shell aliases envvars test_mode ;;;
  ret tt.

(** *** [run] *)

(** The local variables of [run] that the directives change. *)
Record config := {
  cfg_shell : string;
  cfg_prompt_template : string;
  cfg_aliases : list string;
  cfg_envvars : list string;
  cfg_speed : Z
}.

Definition set_prompt_template (v : string) (c : config) : config :=
  {| cfg_shell := cfg_shell c; cfg_prompt_template := v;
     cfg_aliases := cfg_aliases c; cfg_envvars := cfg_envvars c;
     cfg_speed := cfg_speed c |}.
Definition set_shell (v : string) (c : config) : config :=
  {| cfg_shell := v; cfg_prompt_template := cfg_prompt_template c;
     cfg_aliases := cfg_aliases c; cfg_envvars := cfg_envvars c;
     cfg_speed := cfg_speed c |}.
Definition append_alias (v : string) (c : config) : config :=
  {| cfg_shell := cfg_shell c; cfg_prompt_template := cfg_prompt_template c;
     cfg_aliases := (cfg_aliases c ++ [v])%list; cfg_envvars := cfg_envvars c;
     cfg_speed := cfg_speed c |}.
Definition append_envvar (v : string) (c : config) : config :=
  {| cfg_shell := cfg_shell c; cfg_prompt_template := cfg_prompt_template c;
     cfg_aliases := cfg_aliases c; cfg_envvars := (cfg_envvars c ++ [v])%list;
     cfg_speed := cfg_speed c |}.
Definition set_speed (v : Z) (c : config) : config :=
  {| cfg_shell := cfg_shell c; cfg_prompt_template := cfg_prompt_template c;
     cfg_aliases := cfg_aliases c; cfg_envvars := cfg_envvars c;
     cfg_speed := v |}.

(** The [for line in commands] loop of [run]; the value is the local
    variables when the loop is left. *)
Fixpoint run_lines (commands : list string) (c : config) (test_mode : bool)
  : M config :=
  match commands with
  | [] => ret c
  | line :: rest =>
      let command := Py.strip line in
      if negb (Py.truthy command) then run_lines rest c test_mode
      else if Py.startswith "#" command then
        match OptionRE.re_match command with
        | Some (option, arg) =>
            if String.eqb option "prompt" then
              run_lines rest (set_prompt_template arg c) test_mode
            else if String.eqb option "shell" then
              run_lines rest (set_shell arg c) test_mode
            else if String.eqb option "alias" then
              run_lines rest (append_alias arg c) test_mode
            else if String.eqb option "env" then
              run_lines rest (append_envvar arg c) test_mode
            else if String.eqb option "speed" then
              match Py.int arg with
              | Some n => run_lines rest (set_speed n c) test_mode
              | None => raise ValueError
              end
            else run_lines rest c test_mode
        | None => run_lines rest c test_mode
        end
      else
        magictype command (cfg_shell c) (cfg_prompt_template c)
                  (cfg_aliases c) (cfg_envvars c) (cfg_speed c) test_mode ;;;
        run_lines rest c test_mode
  end.

(** [click.echo], [click.secho], [click.clear], [click.pause] *)
Definition echo (text : string) : M unit := emit (EvEcho text true).
Definition secho (text : string) (k : Click.style_args) : M unit :=
  echo (Click.style text k).
Definition clear : M unit := emit EvClear.

Definition pause : M unit :=
  fun s =>
    if isatty (os s) then
      match keys s with
      | [] => (Blocked, s, [EvEcho "Press any key to continue ..." false])
      | k :: ks =>
          (Ret tt, set_keys ks s,
           [EvEcho "Press any key to continue ..." false;
            EvPauseKey k; EvEcho EmptyString true])
      end
    else (Ret tt, s, []).

Definition kw_red_bold : Click.style_args :=
  Click.Build_style_args (Some Click.red) (Some true) None None None.
Definition kw_yellow_bold : Click.style_args :=
  Click.Build_style_args (Some Click.yellow) (Some true) None None None.

Definition run (commands : list string) (shell prompt_template : string)
    (speed : Z) (test_mode : bool) : M unit :=
  secho "We'll do it live!" kw_red_bold ;;;
  secho "STARTING SESSION: Press Ctrl-C at any time to exit." kw_yellow_bold ;;;
  pause ;;;
  clear ;;;
  c <- run_lines commands
         {| cfg_shell := shell; cfg_prompt_template := prompt_template;
            cfg_aliases := []; cfg_envvars := []; cfg_speed := speed |}
         test_mode ;;
  prompt <- make_prompt_formatter (cfg_prompt_template c) ;;
  emit (EvEcho (prompt ++ " ") false) ;;;
  wait_for RETURNS ;;;
  secho "FINISHED SESSION" kw_yellow_bold.

End Program.

(** ** The recorder and the commands of the command line *)

Section Recorder.
Context {P : Platform}.

(** The double quote character. *)
Definition DQ : string := String (ascii_of_nat 34) EmptyString.

Definition DEMO : list string :=
  [ "echo " ++ DQ ++ "Greetings" ++ DQ;
    "echo " ++ DQ ++ "This is just a demo session" ++ DQ;
    "echo " ++ DQ ++ "For more info, check out the home page..." ++ DQ;
    "echo " ++ DQ ++ "http://doitlive.rtfd.org" ++ DQ ].

(** [HEADER_TEMPLATE.format(shell=shell, prompt=prompt)] *)
Definition HEADER_TEMPLATE (shell prompt : string) : string :=
  ("# Recorded with the doitlive recorder" ++ NL)
  ++ ("#doitlive shell: " ++ shell ++ NL)
  ++ ("#doitlive prompt: " ++ prompt ++ NL).

Definition STOP_COMMAND : string := "stop".
Definition PREVIEW_COMMAND : string := "P".
Definition UNDO_COMMAND : string := "U".

Fixpoint echo_each (commands : list string) : M unit :=
  match commands with
  | [] => ret tt
  | cmd :: rest => echo ("  " ++ cmd) ;;; echo_each rest
  end.

Definition echo_rec_buffer (commands : list string) : M unit :=
  match commands with
  | [] => echo "No commands in buffer."
  | _ => echo ("Current commands in buffer:" ++ NL) ;;; echo_each commands
  end.

(** [click.prompt(text, prompt_suffix='')]: the prompt is shown and a
    line is read until the line is not empty; the end of the input is
    [click.Abort]. *)
Fixpoint prompt_lines (text : string) (input : list string)
  : result string * list string * list event :=
  match input with
  | [] => (Raise Abort, [], [EvEcho text false])
  | value :: rest =>
      if Py.truthy value then (Ret value, rest, [EvEcho text false])
      else
        match prompt_lines text rest with
        | (r, rest', ev) => (r, rest', EvEcho text false :: ev)
        end
  end.

Definition click_prompt (text : string) : M string :=
  fun s =>
    match prompt_lines text (stdin s) with
    | (r, rest, ev) => (r, set_stdin rest s, ev)
    end.

(** [str.lower] on ASCII letters. *)
Definition lower_char (c : ascii) : ascii :=
  let n := nat_of_ascii c in
  if ((65 <=? n)%nat && (n <=? 90)%nat)%bool then ascii_of_nat (n + 32) else c.

Fixpoint lower (s : string) : string :=
  match s with
  | EmptyString => EmptyString
  | String c s' => String (lower_char c) (lower s')
  end.

(** [click.confirm(text, default=False)]: the prompt ends in [[y/N]: ];
    an answer that is not understood is asked again. *)
Fixpoint confirm_lines (prompt : string) (input : list string)
  : result bool * list string * list event :=
  match input with
  | [] => (Raise Abort, [], [EvEcho prompt false])
  | line :: rest =>
      let value := Py.strip (lower line) in
      if String.eqb value "y" || String.eqb value "yes" then
        (Ret true, rest, [EvEcho prompt false])
      else if String.eqb value "n" || String.eqb value "no" then
        (Ret false, rest, [EvEcho prompt false])
      else if String.eqb value EmptyString then
        (Ret false, rest, [EvEcho prompt false])
      else
        match confirm_lines prompt rest with
        | (r, rest', ev) =>
            (r, rest', EvEcho prompt false :: EvEcho "Error: invalid input" true :: ev)
        end
  end.

Definition click_confirm (text : string) (abort : bool) : M bool :=
  fun s =>
    match confirm_lines (text ++ " [y/N]" ++ ": ") (stdin s) with
    | (Ret rv, rest, ev) =>
        if abort && negb rv then (Raise Abort, set_stdin rest s, ev)
        else (Ret rv, set_stdin rest s, ev)
    | (r, rest, ev) => (r, set_stdin rest s, ev)
    end.

(** The [while True] loop of [run_recorder].  Every iteration reads a
    line of the input, so [fuel] iterations are enough when [fuel]
    exceeds the number of lines to come; [run_recorder] starts the loop
    with that much. *)
Fixpoint run_recorder_loop (fuel : nat) (shell prompt : string)
    (aliases envvars : list string) (commands : list string)
  : M (list string) :=
  match fuel with
  | O => fun s => (Blocked, s, [])
  | S fuel' =>
      let prefix := "(" ++ Click.style "REC" (TermString.kw_fg Click.red) ++ ") " in
      match themes_get THEMES prompt with
      | None => raise KeyError
      | Some tpl =>
          p <- format_prompt tpl ;;
          let formatted_prompt := prefix ++ p ++ " " in
          line <- click_prompt formatted_prompt ;;
          let command := Py.strip line in
          if String.eqb command STOP_COMMAND then ret commands
          else if String.eqb command PREVIEW_COMMAND then
            echo_rec_buffer commands ;;;
            run_recorder_loop fuel' shell prompt aliases envvars commands
          else if String.eqb command UNDO_COMMAND then
            match commands with
            | [] =>
                echo "No commands in buffer. Doing nothing." ;;;
                run_recorder_loop fuel' shell prompt aliases envvars commands
            | _ =>
                yes <- click_confirm
                         ("Remove command? " ++ DQ ++ last commands EmptyString ++ DQ)
                         false ;;
                if (yes : bool) then
                  let commands' := removelast commands in
                  secho "Removed command." TermString.kw_bold ;;;
                  echo_rec_buffer commands' ;;;
                  run_recorder_loop fuel' shell prompt aliases envvars commands'
                else
                  echo "No commands in buffer. Doing nothing." ;;;
                  run_recorder_loop fuel' shell prompt aliases envvars commands
            end
          else
            let commands' := (commands ++ [command])%list in
            run_command command shell aliases envvars TESTING ;;;
            run_recorder_loop fuel' shell prompt aliases envvars commands'
      end
  end.

Definition run_recorder (shell prompt : string) (aliases envvars : list string)
  : M (list string) :=
  fun s =>
    run_recorder_loop (S (List.length (stdin s))) shell prompt aliases envvars [] s.

(** The text that [record] writes to the session file. *)
Definition session_text (shell prompt : string) (alias envvar : list string)
    (commands : list string) : string :=
  HEADER_TEMPLATE shell prompt
  ++ write_directives "alias" alias
  ++ write_directives "env" envvar
  ++ NL
  ++ Py.join (NL ++ NL) commands
  ++ NL.

Definition kw_cyan : Click.style_args := TermString.kw_fg Click.cyan.

(** [os.chdir(cwd)], not guarded. *)
Definition reset_cwd (cwd : string) : M unit :=
  fun s =>
    match os_chdir cwd (os s) with
    | Some o' => (Ret tt, set_os o' s, [EvChdir cwd])
    | None => (Raise OSError, s, [])
    end.

Definition record (session_file shell prompt : string) (alias envvar : list string)
  : M unit :=
  (fun s =>
     if os_path_exists session_file (os s) then
       (click_confirm
          ("File " ++ DQ ++ session_file ++ DQ ++ " already exists. Overwrite?")
          true ;;; ret tt) s
     else ret tt s) ;;;
  secho "We'll do it live!" kw_red_bold ;;;
  let filename := session_file in
  secho ("RECORDING SESSION: " ++ filename) kw_yellow_bold ;;;
  echo EmptyString ;;;
  echo "INSTRUCTIONS:" ;;;
  echo ("Enter " ++ Click.style STOP_COMMAND TermString.kw_bold
        ++ " when you are done recording.") ;;;
  echo ("To preview the commands in the buffer, enter "
        ++ Click.style PREVIEW_COMMAND TermString.kw_bold ++ ".") ;;;
  echo ("To undo the last command in the buffer, enter "
        ++ Click.style UNDO_COMMAND TermString.kw_bold ++ ".") ;;;
  echo EmptyString ;;;
  pause ;;;
  clear ;;;
  cwd <- (fun s => ret (os_getcwd (os s)) s) ;;
  commands <- run_recorder shell prompt alias envvar ;;
  reset_cwd cwd ;;;
  secho "FINISHED RECORDING SESSION" kw_yellow_bold ;;;
  secho ("Writing to " ++ filename ++ "...") kw_cyan ;;;
  emit (EvWriteFile session_file (session_text shell prompt alias envvar commands)) ;;;
  let play_cmd := Click.style ("doitlive play " ++ filename) TermString.kw_bold in
  echo ("Done. Run " ++ play_cmd ++ " to play back your session.").

(** [session_file.readlines()] of a text file: a line ends at LF, at
    CR LF or at CR, and ends in LF once read. *)
Fixpoint readlines_from (line : string) (text : string) : list string :=
  match text with
  | EmptyString =>
      match line with EmptyString => [] | _ => [line] end
  | String c text' =>
      if Ascii.eqb c OptionRE.LF then
        (line ++ NL) :: readlines_from EmptyString text'
      else if Ascii.eqb c (ascii_of_nat 13) then
        match text' with
        | String d text'' =>
            if Ascii.eqb d OptionRE.LF
            then (line ++ NL) :: readlines_from EmptyString text''
            else (line ++ NL) :: readlines_from EmptyString text'
        | EmptyString => [line ++ NL]
        end
      else readlines_from (line ++ String c EmptyString) text'
  end.

Definition readlines (text : string) : list string :=
  readlines_from EmptyString text.

(** [play], on the text of the session file. *)
Definition play (session_text : string) (shell : string) (speed : Z)
    (prompt : string) : M unit :=
  run (readlines session_text) shell prompt speed TESTING.

Definition demo (shell : string) (speed : Z) (prompt : string) : M unit :=
  run DEMO shell prompt speed TESTING.

End Recorder.

(** ** A platform to run the program on

    A machine with a few directories, a user, and a [git] that is either
    absent ([None]) or prints a fixed text.  Every child process exits
    with status 0 and prints nothing; a template is shown as it is. *)

Module Demo.

Record machine := {
m_cwd : string;
m_git : option string
}.

Definition directories : list string := ["/"; "/tmp"; "/home/demo"; "/home/demo/src"].

Definition chdir (path : string) (m : machine) : option machine :=
if existsb (String.eqb path) directories
then Some {| m_cwd := path; m_git := m_git m |}
else None.

Definition env (m : machine) (name : string) : option string :=
if String.eqb name "HOME" then Some "/home/demo" else None.

#[export] Instance platform : Platform := {|
OS := machine;
os_getcwd := m_cwd;
os_chdir := chdir;
os_path_exists := fun _ _ => false;
environ := env;
pw_dir := fun _ _ => None;
getuser := fun _ => Ret "demo";
gethostname := fun _ => "host";
clock := fun _ => 0%Z;
popen_communicate := fun _ m =>
  match m_git m with Some out => inr out | None => inl OSError end;
spawn := fun _ _ _ m => (Some (0%Z, EmptyString), m);
tmp_name := fun _ => "/tmp/tmpdoitlive";
isatty := fun _ => false;
str_format := fun tpl _ => inr tpl
|}.

Definition start_in (cwd : string) (ks input : list string) (git : option string)
  : state :=
{| keys := ks; stdin := input;
   os := {| m_cwd := cwd; m_git := git |};
   tmpfiles := [] |}.

Definition start : list string -> list string -> option string -> state :=
  start_in "/home/demo".

(** The defaults of the command line. *)
Definition defaults : config :=
{| cfg_shell := "/bin/bash"; cfg_prompt_template := "default";
   cfg_aliases := []; cfg_envvars := []; cfg_speed := 1 |}.

End Demo.

(** ** The vocabulary of the specification *)

Section Vocabulary.
Context {P : Platform}.

(** A zero-width result: a value whose underlying text, the text left
    when the styles are stripped, is empty. *)
Definition zero_width (v : string) : Prop := Click.strip_ansi v = EmptyString.

(** A character that cannot continue an escape sequence: neither a
    digit, nor a semicolon, nor a letter, nor an opening bracket. *)
Definition inert (c : ascii) : bool :=
  negb (Py.is_digit c || Ascii.eqb c ";" || Py.is_alpha c || Ascii.eqb c "[").

(** The lines of a script, each ended by a newline. *)
Fixpoint unlines (lines : list string) : string :=
  match lines with
  | [] => EmptyString
  | l :: rest => (l ++ NL) ++ unlines rest
  end.

Definition shebang_line (shell : string) : string := "#!" ++ shell.
Definition export_line (v : string) : string := "export " ++ v.
Definition alias_line (a : string) : string := "alias " ++ a.
Definition shopt_lines (shell : string) : list string :=
  if Py.contains "bash" shell then ["shopt -s expand_aliases"] else [].

(** The order of the lines of the temporary script that the
    specification gives: the shebang, the exports, the aliases, the line
    that enables alias expansion when the shell is bash, the command. *)
Definition script_in_specified_order (cmd shell : string)
    (aliases envvars : list string) : string :=
  unlines ([shebang_line shell]
           ++ map export_line envvars
           ++ map alias_line aliases
           ++ shopt_lines shell
           ++ [cmd])%list.

(** The order of the lines that the code writes. *)
Definition script_lines (cmd shell : string) (aliases envvars : list string)
  : list string :=
  ([shebang_line shell; "# -*- coding: utf-8 -*-"]
   ++ shopt_lines shell
   ++ map export_line envvars
   ++ map alias_line aliases
   ++ [cmd])%list.

(** A text made of white space only. *)
Fixpoint all_space (s : string) : bool :=
  match s with
  | EmptyString => true
  | String c s' => Py.is_space c && all_space s'
  end.

(** How [run] reads a line: the directive it holds, if any. *)
Definition directive_of (line : string) : option (string * string) :=
  let command := Py.strip line in
  if Py.truthy command && Py.startswith "#" command
  then OptionRE.re_match command
  else None.

(** A line that [run] types and executes. *)
Definition is_command (line : string) : bool :=
  let command := Py.strip line in
  Py.truthy command && negb (Py.startswith "#" command).

(** The values of the directives named [name], in the order of the file. *)
Definition directive_args (name : string) (lines : list string) : list string :=
  flat_map (fun line =>
              match directive_of line with
              | Some (o, a) => if String.eqb o name then [a] else []
              | None => []
              end) lines.

Definition speed_values (lines : list string) : list Z :=
  flat_map (fun a => match Py.int a with Some n => [n] | None => [] end)
           (directive_args "speed" lines).

(** The configuration that a script leaves, from the one it found. *)
Definition config_after (lines : list string) (c c1 : config) : Prop :=
  cfg_aliases c1 = (cfg_aliases c ++ directive_args "alias" lines)%list
  /\ cfg_envvars c1 = (cfg_envvars c ++ directive_args "env" lines)%list
  /\ cfg_prompt_template c1
     = last (directive_args "prompt" lines) (cfg_prompt_template c)
  /\ cfg_shell c1 = last (directive_args "shell" lines) (cfg_shell c)
  /\ cfg_speed c1 = last (speed_values lines) (cfg_speed c).

(** The effect of one directive on the configuration. *)
Definition apply_directive (option arg : string) (c : config) : config :=
  if String.eqb option "prompt" then set_prompt_template arg c
  else if String.eqb option "shell" then set_shell arg c
  else if String.eqb option "alias" then append_alias arg c
  else if String.eqb option "env" then append_envvar arg c
  else if String.eqb option "speed" then
    match Py.int arg with Some n => set_speed n c | None => c end
  else c.

(** The calls of the executor that a script asks for, in order, each
    with the configuration that the lines before it have built. *)
Fixpoint planned_commands (lines : list string) (c : config) : list event :=
  match lines with
  | [] => []
  | line :: rest =>
      if is_command line then
        EvRunCommand (Py.strip line) (cfg_shell c) (cfg_aliases c) (cfg_envvars c)
        :: planned_commands rest c
      else
        match directive_of line with
        | Some (o, a) => planned_commands rest (apply_directive o a c)
        | None => planned_commands rest c
        end
  end.

(** The number of keystrokes that reveal a text of length [l], [n]
    characters at a time: the ceiling of [l / n]. *)
Definition ceil_div (l n : Z) : Z := ((l + n - 1) / n)%Z.

(** [n] keystrokes reveal [remaining] characters, [speed] at a time,
    and no fewer do. *)
Definition reveals (remaining speed : Z) (n : nat) : Prop :=
  ((remaining <= 0)%Z /\ n = 0)
  \/ (0 < remaining /\ (Z.of_nat n - 1) * speed < remaining <= Z.of_nat n * speed)%Z.

(** The events of typing: each keystroke, then the characters it
    reveals. *)
Fixpoint keystroke_events (text : string) (speed : Z) (i : Z) (ks : list string)
  : list event :=
  match ks with
  | [] => []
  | k :: ks' =>
      EvKey k :: EvEcho (Py.slice text i (i + speed)) false
      :: keystroke_events text speed (i + speed) ks'
  end.

(** The text that a sequence of events has put on the line. *)
Fixpoint echoed (ev : list event) : string :=
  match ev with
  | [] => EmptyString
  | EvEcho s false :: rest => s ++ echoed rest
  | _ :: rest => echoed rest
  end.

Definition not_esc (k : string) : Prop := k <> ESC.
Definition not_esc_nor_return (k : string) : Prop :=
  k <> ESC /\ is_in k RETURNS = false.

(** Events of the command executor. *)
Definition is_exec (e : event) : bool :=
  match e with
  | EvRunCommand _ _ _ _ | EvChdir _ | EvSpawn _ _ _ => true
  | _ => false
  end.

Definition is_run_command (e : event) : bool :=
  match e with
  | EvRunCommand _ _ _ _ => true
  | _ => false
  end.

(** The events of one command shown in full and confirmed: the prompt,
    the keystrokes that reveal the whole text, the keystrokes ignored
    while a return is awaited, the return. *)
Definition shown_and_confirmed (cmd : string) (seg : list event) : Prop :=
  exists prompt speed typed waits r,
    seg = (EvEcho (prompt ++ " ") false
           :: keystroke_events cmd speed 0 typed
           ++ map EvKey waits
           ++ [EvKey r; EvEcho EmptyString true])%list
    /\ echoed (keystroke_events cmd speed 0 typed) = cmd
    /\ Forall not_esc typed
    /\ Forall not_esc_nor_return waits
    /\ is_in r RETURNS = true.

(** An escape keystroke read by [getchar]. *)
Definition is_esc_key (e : event) : bool :=
  match e with
  | EvKey k => String.eqb k ESC
  | _ => false
  end.

(** Events none of which satisfies [f]. *)
Definition without (f : event -> bool) (ev : list event) : Prop :=
  Forall (fun e => f e = false) ev.

(** The outcome of a computation in which an escape keystroke, where
    one is read, ends everything: the outcome is [click.Abort] and
    nothing but the newline of [echo()] follows the keystroke. *)
Definition aborts_at_escape {A} (out : result A * state * list event) : Prop :=
  match out with
  | (r, _, ev) =>
      forall pre post,
        ev = (pre ++ EvKey ESC :: post)%list ->
        r = Raise Abort /\ post = [EvEcho EmptyString true]
  end.

(** The outcome of a computation in which every command handed to the
    executor has just been shown in full and confirmed. *)
Definition executes_after_confirmation {A} (out : result A * state * list event)
  : Prop :=
  match out with
  | (_, _, ev) =>
      forall pre cmd sh al en post,
        ev = (pre ++ EvRunCommand cmd sh al en :: post)%list ->
        exists before seg,
          pre = (before ++ seg)%list /\ shown_and_confirmed cmd seg
  end.

(** The way out of [magictype] after [run_command]. *)
Definition discard {A} (r : result A) : result unit :=
  match r with
  | Ret _ => Ret tt
  | Raise e => Raise e
  | Blocked => Blocked
  end.

End Vocabulary.

(** ** The bundled decorators, [_compose] *)

Section Composition.
Variable A : Type.

(** The local function [inner] of [_compose]. *)
Definition inner (func1 func2 : A -> A) : A -> A :=
  fun x => func1 (func2 x).

(** [functools.reduce(function, sequence)] with no initial value:
    [None] stands for the [TypeError] of an empty sequence. *)
Definition reduce (function : (A -> A) -> (A -> A) -> A -> A)
    (sequence : list (A -> A)) : option (A -> A) :=
  match sequence with
  | [] => None
  | first :: rest => Some (fold_left function rest first)
  end.

Definition _compose (functions : list (A -> A)) : option (A -> A) :=
  reduce inner functions.

End Composition.

Arguments inner {A} func1 func2 x.
Arguments reduce {A} function sequence.
Arguments _compose {A} functions.

(** ** A second platform

    A machine on which [git] always answers, the terminal is
    interactive, [HOME] may be unset, some files exist and every child
    process exits with the status that the machine holds. *)

Module Lab.

Record machine := {
m_cwd : string;
m_home : option string;
m_files : list string;
m_status : Z
}.

Definition chdir (path : string) (m : machine) : option machine :=
if existsb (String.eqb path) Demo.directories
then Some {| m_cwd := path; m_home := m_home m; m_files := m_files m;
             m_status := m_status m |}
else None.

Definition env (m : machine) (name : string) : option string :=
if String.eqb name "HOME" then m_home m else None.

Definition platform : Platform := {|
OS := machine;
os_getcwd := m_cwd;
os_chdir := chdir;
os_path_exists := fun path m => existsb (String.eqb path) (m_files m);
environ := env;
pw_dir := fun _ _ => None;
getuser := fun _ => Ret "demo";
gethostname := fun _ => "host";
clock := fun _ => 0%Z;
popen_communicate := fun _ _ => inr ("master" ++ NL);
spawn := fun _ _ _ m => (Some (m_status m, "output"), m);
tmp_name := fun _ => "/tmp/tmpdoitlive";
isatty := fun _ => true;
str_format := fun tpl _ => inr tpl
|}.

Definition start (m : machine) (ks input : list string) : @state platform :=
@Build_state platform ks input m [].

(** Three machines: one whose commands fail, one on which [HOME] is
    not set, and one on which the session file is there already. *)
Definition failing : machine :=
{| m_cwd := "/home/demo"; m_home := Some "/home/demo"; m_files := [];
   m_status := 2 |}.

Definition homeless : machine :=
{| m_cwd := "/home/demo"; m_home := None; m_files := []; m_status := 0 |}.

Definition recorded : machine :=
{| m_cwd := "/home/demo"; m_home := Some "/home/demo";
   m_files := ["session.sh"]; m_status := 0 |}.

(** A configuration whose prompt is a dollar sign. *)
Definition dollar : config :=
{| cfg_shell := "/bin/bash"; cfg_prompt_template := "$";
   cfg_aliases := []; cfg_envvars := []; cfg_speed := 1 |}.

End Lab.

(** The machines of [Demo] on which [git] prints [master]. *)
Definition on_master (m : Demo.machine) : Prop := Demo.m_git m = Some "master".

(** The template of the theme [default]. *)
Definition default_theme : string :=
  "{user.cyan.bold}@{hostname.blue}:{dir.green} $".

(** ** The vocabulary of sessions and of the recorder *)

Section Sessions.
Context {P : Platform}.

(** A text in which the character [c] does not occur. *)
Fixpoint free_of (c : ascii) (s : string) : bool :=
  match s with
  | EmptyString => true
  | String x s' => negb (Ascii.eqb x c) && free_of c s'
  end.

(** A text that holds neither a line feed nor a carriage return. *)
Definition single_line (s : string) : bool :=
  free_of OptionRE.LF s && free_of (ascii_of_nat 13) s.

(** A text that [strip] leaves as it is. *)
Definition trimmed (s : string) : bool := String.eqb (Py.strip s) s.

(** A value that a directive line can carry: it is not empty, has no
    white space at either end and fits on a line. *)
Definition clean (v : string) : bool :=
  Py.truthy v && trimmed v && single_line v.

(** A clean text that [run] takes for a command. *)
Definition clean_command (cmd : string) : bool :=
  clean cmd && negb (Py.startswith "#" cmd).

(** The text that [\s?] may take: nothing, or one white-space
    character. *)
Definition at_most_one_space (g : string) : bool :=
  match g with
  | EmptyString => true
  | String c EmptyString => Py.is_space c
  | _ => false
  end.

(** The lines of the file that the commands occupy: a blank line
    between two commands, and a blank line alone when there is none. *)
Fixpoint spaced (commands : list string) : list string :=
  match commands with
  | [] => [EmptyString]
  | cmd :: rest =>
      match rest with
      | [] => [cmd]
      | _ => cmd :: EmptyString :: spaced rest
      end
  end.

(** A directive line, as [write_directives] and [HEADER_TEMPLATE]
    write it, without its newline. *)
Definition directive_line (name value : string) : string :=
  "#doitlive " ++ name ++ ": " ++ value.

(** The lines of the session file of [record]. *)
Definition session_lines (shell prompt : string) (alias envvar : list string)
    (commands : list string) : list string :=
  (["# Recorded with the doitlive recorder";
    directive_line "shell" shell;
    directive_line "prompt" prompt]
   ++ map (directive_line "alias") alias
   ++ map (directive_line "env") envvar
   ++ [EmptyString]
   ++ spaced commands)%list.

(** The calls of the executor for a list of commands under one
    configuration. *)
Definition calls (shell : string) (aliases envvars : list string)
    (commands : list string) : list event :=
  map (fun cmd => EvRunCommand cmd shell aliases envvars) commands.

(** A file written. *)
Definition is_write_file (e : event) : bool :=
  match e with
  | EvWriteFile _ _ => true
  | _ => false
  end.

(** A line of the operator that the recorder takes for a command to
    record: it is not empty and is none of [stop], [P] and [U]. *)
Definition recordable (line : string) : bool :=
  Py.truthy line
  && negb (String.eqb (Py.strip line) STOP_COMMAND)
  && negb (String.eqb (Py.strip line) PREVIEW_COMMAND)
  && negb (String.eqb (Py.strip line) UNDO_COMMAND).

(** A line that the recorder takes for [name], one of its own
    commands. *)
Definition enters (name line : string) : bool :=
  Py.truthy line && String.eqb (Py.strip line) name.

(** An answer that [click.confirm] takes for a yes, and one that it
    takes for a no; an empty answer is the default, no. *)
Definition says_yes (line : string) : bool :=
  let value := Py.strip (lower line) in
  String.eqb value "y" || String.eqb value "yes".

Definition says_no (line : string) : bool :=
  let value := Py.strip (lower line) in
  negb (says_yes line)
  && (String.eqb value "n" || String.eqb value "no"
      || String.eqb value EmptyString).

(** The text before the prompt of the recorder. *)
Definition rec_prefix : string :=
  "(" ++ Click.style "REC" (TermString.kw_fg Click.red) ++ ") ".

(** Something shown on the terminal, or a key read by [click.pause]. *)
Definition is_terminal (e : event) : bool :=
  match e with
  | EvEcho _ _ | EvPauseKey _ | EvClear => true
  | _ => false
  end.

(** Events of the terminal only. *)
Definition terminal_only (ev : list event) : Prop :=
  Forall (fun e => is_terminal e = true) ev.

(** A set of states of the machine that no command leaves, in which
    the prompt can be formatted and a child process can be started. *)
Definition cooperative (Inv : OS -> Prop) (tpl : string) : Prop :=
  (forall s : state, Inv (os s) -> exists p, format_prompt tpl s = (Ret p, s, []))
  /\ (forall sh name script o,
         Inv o ->
         exists status output o',
           spawn sh name script o = (Some (status, output), o') /\ Inv o')
  /\ (forall path o o', Inv o -> os_chdir path o = Some o' -> Inv o').

(** A key that [wait_for] passes over: it is not the escape key and
    is none of the keys awaited. *)
Definition passed_over (chars : list string) (x : string) : Prop :=
  x <> ESC /\ is_in x chars = false.

(** One list of events is the beginning of another. *)
Definition begins (part whole : list event) : Prop :=
  exists rest, whole = (part ++ rest)%list.

End Sessions.

(** * Properties *)

(** ** Strings *)

Section Strings.

Lemma sapp_assoc (a b c : string) : (a ++ b) ++ c = a ++ b ++ c.
Proof. induction a as [|x a IH]; simpl; [reflexivity | now rewrite IH]. Qed.

Lemma sapp_nil_r (a : string) : a ++ EmptyString = a.
Proof. induction a as [|x a IH]; simpl; [reflexivity | now rewrite IH]. Qed.

Lemma slength_app (a b : string) :
  String.length (a ++ b) = String.length a + String.length b.
Proof. induction a as [|x a IH]; simpl; [reflexivity | now rewrite IH]. Qed.

Lemma take_drop (n : nat) (s : string) : Py.take n s ++ Py.drop n s = s.
Proof.
  revert s; induction n as [|n IH]; intros [|c s]; simpl; try reflexivity.
  now rewrite IH.
Qed.

Lemma drop_drop (n m : nat) (s : string) :
  Py.drop n (Py.drop m s) = Py.drop (m + n) s.
Proof.
  revert s; induction m as [|m IH]; intros s; simpl; [reflexivity|].
  destruct s as [|c s]; [now destruct n | apply IH].
Qed.

Lemma drop_all (n : nat) (s : string) :
  String.length s <= n -> Py.drop n s = EmptyString.
Proof.
  revert s; induction n as [|n IH]; intros [|c s]; simpl; intros H;
    try reflexivity; try lia.
  apply IH; lia.
Qed.

Lemma length_drop (n : nat) (s : string) :
  String.length (Py.drop n s) = String.length s - n.
Proof.
  revert s; induction n as [|n IH]; intros [|c s]; simpl; try reflexivity.
  apply IH.
Qed.

Lemma take_all (n : nat) (s : string) :
  String.length s <= n -> Py.take n s = s.
Proof.
  revert s; induction n as [|n IH]; intros [|c s]; simpl; intros H;
    try reflexivity; try lia.
  rewrite IH; [reflexivity | lia].
Qed.

Lemma take_min (n : nat) (s : string) :
  Py.take (Nat.min n (String.length s)) s = Py.take n s.
Proof.
  revert s; induction n as [|n IH]; intros [|c s]; simpl; try reflexivity.
  now rewrite IH.
Qed.

Lemma unlines_app (a b : list string) :
  unlines (a ++ b)%list = unlines a ++ unlines b.
Proof.
  induction a as [|x a IH]; simpl; [reflexivity|].
  now rewrite IH, !sapp_assoc.
Qed.

Lemma last_cons {A} (a d : A) (l : list A) : last (a :: l) d = last l a.
Proof.
  revert a d; induction l as [|b l IH]; intros a d; [reflexivity|].
  change (last (a :: b :: l) d) with (last (b :: l) d).
  now rewrite (IH b d), (IH b a).
Qed.

End Strings.

(** ** Styled values *)

Section StyledValues.
Import TermString.

Lemma BS_length : String.length BS = 1.
Proof. reflexivity. Qed.

Lemma BS_underlying : Click.strip_ansi BS = BS.
Proof. reflexivity. Qed.

Lemma truthy_false_iff (s : string) : Py.truthy s = false <-> s = EmptyString.
Proof. destruct s; simpl; split; congruence. Qed.

Lemma truthy_true_iff (s : string) : Py.truthy s = true <-> s <> EmptyString.
Proof. destruct s; simpl; split; congruence. Qed.

Lemma bracketed_nonempty (self left right : string) :
  Click.strip_ansi self <> EmptyString ->
  _bracketed self left right = left ++ self ++ right.
Proof.
  intros H. unfold _bracketed.
  apply truthy_true_iff in H. now rewrite H.
Qed.

Lemma bracketed_empty (self left right : string) :
  Click.strip_ansi self = EmptyString ->
  _bracketed self left right = BS.
Proof.
  intros H. unfold _bracketed. now rewrite H.
Qed.

Lemma params_length_app (r b : string) (c : ascii) :
  inert c = true ->
  Click.params_length (r ++ String c b) = Click.params_length r.
Proof.
  intros Hc. induction r as [|x r IH]; cbn [append Click.params_length].
  - unfold inert in Hc.
    destruct (Py.is_digit c), (Ascii.eqb c ";"); try discriminate. reflexivity.
  - now rewrite IH.
Qed.

Lemma params_length_le (r : string) : Click.params_length r <= String.length r.
Proof.
  induction r as [|x r IH]; cbn [Click.params_length String.length]; [lia|].
  destruct (Py.is_digit x || Ascii.eqb x ";"); lia.
Qed.

Lemma drop_app_le (n : nat) (r b : string) :
  n <= String.length r -> Py.drop n (r ++ b) = Py.drop n r ++ b.
Proof.
  revert r. induction n as [|n IH]; intros r H; [reflexivity|].
  destruct r as [|x r]; cbn [String.length] in H; [lia|].
  cbn [append Py.drop]. apply IH. lia.
Qed.

Lemma match_ansi_two (e x : ascii) (r : string) :
  Click.match_ansi (String e (String x r))
  = if Ascii.eqb x "[" then
      if Ascii.eqb e (ascii_of_nat 27) then
        match Py.drop (Click.params_length r) r with
        | String c _ =>
            if Py.is_alpha c then Some (Click.params_length r + 3) else None
        | EmptyString => None
        end
      else None
    else None.
Proof.
  destruct x as [[] [] [] [] [] [] [] []]; reflexivity.
Qed.

Lemma match_ansi_one (e : ascii) : Click.match_ansi (String e EmptyString) = None.
Proof. reflexivity. Qed.

(** A match does not reach over an inert character, and a text before
    one has the same match with and without it. *)
Lemma match_ansi_app (a b : string) (c : ascii) :
  a <> EmptyString -> inert c = true ->
  Click.match_ansi (a ++ String c b) = Click.match_ansi a.
Proof.
  intros Ha Hc. destruct a as [|e [|x r]]; [congruence| |].
  - cbn [append]. rewrite match_ansi_two, match_ansi_one.
    unfold inert in Hc. destruct (Ascii.eqb c "["); [|reflexivity].
    rewrite !orb_true_r in Hc. discriminate.
  - cbn [append]. rewrite !match_ansi_two.
    destruct (Ascii.eqb x "["); [|reflexivity].
    destruct (Ascii.eqb e (ascii_of_nat 27)); [|reflexivity].
    rewrite params_length_app by assumption.
    rewrite drop_app_le by apply params_length_le.
    destruct (Py.drop (Click.params_length r) r) as [|y u]; [|reflexivity].
    cbn [append]. unfold inert in Hc.
    destruct (Py.is_alpha c); [|reflexivity].
    rewrite ?orb_true_r in Hc. cbn in Hc. rewrite ?orb_true_r in Hc.
    discriminate.
Qed.

Lemma match_ansi_bound (a : string) (n : nat) :
  Click.match_ansi a = Some n -> 1 <= n <= String.length a.
Proof.
  destruct a as [|e [|x r]]; try discriminate.
  rewrite match_ansi_two.
  destruct (Ascii.eqb x "["); [|discriminate].
  destruct (Ascii.eqb e (ascii_of_nat 27)); [|discriminate].
  destruct (Py.drop (Click.params_length r) r) as [|y u] eqn:E; [discriminate|].
  destruct (Py.is_alpha y); [|discriminate].
  intros H. injection H as <-.
  pose proof (length_drop (Click.params_length r) r) as Hl.
  rewrite E in Hl. cbn [String.length] in *. lia.
Qed.

Lemma strip_ansi_from_app (a b : string) (c : ascii) :
  inert c = true ->
  forall k,
    k <= String.length a ->
    Click.strip_ansi_from k (a ++ String c b)
    = Click.strip_ansi_from k a ++ Click.strip_ansi_from 0 (String c b).
Proof.
  intros Hc. induction a as [|x a IH]; intros k Hk.
  - cbn [String.length] in Hk. replace k with 0 by lia. reflexivity.
  - change (String x a ++ String c b) with (String x (a ++ String c b)).
    cbn [Click.strip_ansi_from String.length] in *.
    destruct k as [|k]; [|apply IH; lia].
    change (String x (a ++ String c b)) with (String x a ++ String c b).
    rewrite match_ansi_app by (assumption || discriminate).
    destruct (Click.match_ansi (String x a)) as [n|] eqn:E.
    + apply match_ansi_bound in E. cbn [String.length] in E. apply IH. lia.
    + cbn [append]. now rewrite IH by lia.
Qed.

Lemma match_ansi_plain (c : ascii) (rest : string) :
  c <> ascii_of_nat 27 -> Click.match_ansi (String c rest) = None.
Proof.
  intros Hc. destruct rest as [|x r]; [reflexivity|].
  rewrite match_ansi_two. apply Ascii.eqb_neq in Hc. rewrite Hc.
  now destruct (Ascii.eqb x "[").
Qed.

(** The underlying text of a text between two inert characters. *)
Lemma strip_ansi_between (left right : ascii) (self : string) :
  left <> ascii_of_nat 27 -> inert right = true ->
  Click.strip_ansi (String left self ++ String right EmptyString)
  = String left (Click.strip_ansi self) ++ String right EmptyString.
Proof.
  intros Hl Hr. unfold Click.strip_ansi.
  change (String left self ++ String right EmptyString)
    with (String left (self ++ String right EmptyString)).
  cbn [Click.strip_ansi_from].
  assert (Hm : Click.match_ansi (String left (self ++ String right EmptyString))
               = None) by (now apply match_ansi_plain).
  rewrite Hm, strip_ansi_from_app by (assumption || lia).
  assert (Hlast : Click.strip_ansi_from 0 (String right EmptyString)
                  = String right EmptyString) by reflexivity.
  rewrite Hlast. reflexivity.
Qed.

Lemma strip_ansi_from_skip (a b : string) :
  Click.strip_ansi_from (String.length a) (a ++ b) = Click.strip_ansi_from 0 b.
Proof. induction a as [|x a IH]; [reflexivity | exact IH]. Qed.

(** A whole escape sequence at the head of a text is dropped. *)
Lemma strip_ansi_from_sequence (seq rest : string) :
  Click.match_ansi (seq ++ rest) = Some (String.length seq) ->
  Click.strip_ansi_from 0 (seq ++ rest) = Click.strip_ansi_from 0 rest.
Proof.
  destruct seq as [|x seq]; intros H.
  - apply match_ansi_bound in H. cbn [String.length] in H. lia.
  - change (String x seq ++ rest) with (String x (seq ++ rest)) in *.
    cbn [Click.strip_ansi_from]. rewrite H.
    cbn [String.length Nat.sub]. rewrite ?Nat.sub_0_r. apply strip_ansi_from_skip.
Qed.

(** A character that begins no escape sequence is kept. *)
Lemma strip_ansi_from_plain (c : ascii) (rest : string) :
  Click.match_ansi (String c rest) = None ->
  Click.strip_ansi_from 0 (String c rest)
  = String c (Click.strip_ansi_from 0 rest).
Proof. intros H. cbn [Click.strip_ansi_from]. now rewrite H. Qed.

(** The underlying text of a labelled value. *)
Lemma strip_ansi_label (self : string) :
  Click.strip_ansi (Click.style "git" (kw_fg Click.blue) ++ ":" ++ self)
  = "git:" ++ Click.strip_ansi self.
Proof.
  unfold Click.strip_ansi.
  change (Click.style "git" (kw_fg Click.blue) ++ ":" ++ self)
    with (Click.sgr "34"
          ++ String "g" (String "i" (String "t"
               (Click.sgr "0" ++ String ":" self)))).
  rewrite strip_ansi_from_sequence by reflexivity.
  rewrite !strip_ansi_from_plain by (apply match_ansi_plain; discriminate).
  rewrite strip_ansi_from_sequence by reflexivity.
  rewrite strip_ansi_from_plain by (apply match_ansi_plain; discriminate).
  reflexivity.
Qed.

(** C1, as the code has it.  A bracket modifier wraps a value whose
    underlying text is not empty in one pair of matching delimiters, and
    [git] puts one blue [git] label and a colon before it; the
    underlying text of the result is that of the value between the
    delimiters, or after the label.  When the underlying text is empty
    each modifier gives the backspace character: one character, whose
    own underlying text is not empty, and never the empty brackets or
    the bare label. *)
Theorem modifiers_wrap_or_backspace (self : string) :
  (Click.strip_ansi self <> EmptyString ->
     paren self = "(" ++ self ++ ")"
     /\ square self = "[" ++ self ++ "]"
     /\ curly self = "{" ++ self ++ "}"
     /\ git self = Click.style "git" (kw_fg Click.blue) ++ ":" ++ self
     /\ Click.strip_ansi (paren self) = "(" ++ Click.strip_ansi self ++ ")"
     /\ Click.strip_ansi (square self) = "[" ++ Click.strip_ansi self ++ "]"
     /\ Click.strip_ansi (curly self) = "{" ++ Click.strip_ansi self ++ "}"
     /\ Click.strip_ansi (git self) = "git:" ++ Click.strip_ansi self)
  /\ (Click.strip_ansi self = EmptyString ->
        paren self = BS /\ square self = BS /\ curly self = BS /\ git self = BS
        /\ paren self <> "()" /\ square self <> "[]" /\ curly self <> "{}"
        /\ git self <> Click.style "git" (kw_fg Click.blue) ++ ":"
        /\ String.length BS = 1
        /\ ~ zero_width BS).
Proof.
  split; intros H.
  - assert (Hg : git self = Click.style "git" (kw_fg Click.blue) ++ ":" ++ self).
    { unfold git. apply truthy_true_iff in H. now rewrite H. }
    unfold paren, square, curly.
    rewrite !bracketed_nonempty, Hg by assumption.
    repeat split.
    + apply (strip_ansi_between "(" ")"); [discriminate | reflexivity].
    + apply (strip_ansi_between "[" "]"); [discriminate | reflexivity].
    + apply (strip_ansi_between "{" "}"); [discriminate | reflexivity].
    + apply strip_ansi_label.
  - unfold paren, square, curly.
    rewrite !bracketed_empty by assumption.
    assert (Hg : git self = BS) by (unfold git; now rewrite H).
    rewrite Hg. unfold zero_width.
    repeat split; try discriminate.
Qed.

Lemma modifiers_wrap_or_backspace_witness :
  Click.strip_ansi (green "master") <> EmptyString
  /\ paren (green "master") = "(" ++ green "master" ++ ")"
  /\ Click.strip_ansi (green EmptyString) = EmptyString
  /\ git (green EmptyString) = BS.
Proof.
  pose proof (modifiers_wrap_or_backspace (green "master")) as [Hw _].
  pose proof (modifiers_wrap_or_backspace (green EmptyString)) as [_ He].
  assert (H1 : Click.strip_ansi (green "master") <> EmptyString)
    by (vm_compute; discriminate).
  assert (H2 : Click.strip_ansi (green EmptyString) = EmptyString)
    by reflexivity.
  destruct (Hw H1) as (Hp & _).
  destruct (He H2) as (_ & _ & _ & Hg & _).
  repeat split; assumption.
Defined.

(** C1, as the specification states it, fails: the branch name is
    empty, its green styling has an empty underlying text, and the
    [git] label of it is not a zero-width value.  It is one backspace,
    which is text to the next modifier of a chain: in the theme
    [robbyrussell] an empty branch reaches [git] as the backspace that
    [paren] made of it, and gets the label. *)
Lemma empty_branch_label_not_zero_width :
  Click.strip_ansi (green EmptyString) = EmptyString
  /\ git (green EmptyString) = BS
  /\ paren (green EmptyString) = BS
  /\ ~ zero_width (git (green EmptyString))
  /\ ~ zero_width (paren (green EmptyString))
  /\ String.length (paren (green EmptyString)) = 1
  /\ git (paren (red EmptyString))
     = Click.style "git" (kw_fg Click.blue) ++ ":" ++ BS.
Proof.
  repeat split; unfold zero_width; vm_compute; discriminate.
Qed.

End StyledValues.

(** ** The command executor *)

Section Executor.
Context {P : Platform}.

Lemma write_commands_unlines (command : string) (args : list string) :
  write_commands command args
  = unlines (map (fun a => command ++ " " ++ a) args).
Proof.
  induction args as [|a args IH]; [reflexivity|].
  cbn [write_commands map unlines].
  rewrite IH, !sapp_assoc. reflexivity.
Qed.

(** The text of the temporary script, line by line. *)
Lemma script_text_lines (cmd shell : string) (aliases envvars : list string) :
  script_text cmd shell aliases envvars
  = unlines (script_lines cmd shell aliases envvars).
Proof.
  unfold script_text, script_lines, shopt_lines.
  rewrite !write_commands_unlines.
  change (fun a : string => "export" ++ " " ++ a) with export_line.
  change (fun a : string => "alias" ++ " " ++ a) with alias_line.
  destruct (Py.contains "bash" shell);
    simpl; rewrite !unlines_app; simpl;
    rewrite ?sapp_assoc, ?sapp_nil_r; reflexivity.
Qed.

Lemma remove_first_head (name : string) (l : list string) :
  remove_first name (name :: l) = l.
Proof. simpl. now rewrite String.eqb_refl. Qed.

(** C5, as the code has it.  For a command that is not a [cd], the
    executor starts one child process, the shell on a temporary script
    whose lines are, in this order: the shebang naming the shell, the
    coding comment, the line enabling alias expansion when the name of
    the shell contains [bash], one export line per environment variable
    in order, one alias line per alias in order, the command.  Whatever
    the outcome, the temporary file is gone when the executor is left. *)
Theorem run_command_script (cmd shell : string) (aliases envvars : list string)
    (test_mode : bool) (s : state) :
  Py.startswith "cd " cmd = false ->
  exists r s' tail,
    run_command cmd shell aliases envvars test_mode s
    = (r, s',
       EvRunCommand cmd shell aliases envvars
       :: EvSpawn (resolve_shell (os s) shell) (tmp_name (os s))
            (unlines (script_lines cmd (resolve_shell (os s) shell) aliases envvars))
       :: tail)
    /\ tmpfiles s' = tmpfiles s
    /\ keys s' = keys s
    /\ (tail = [] \/ exists output, tail = [EvEcho output true]).
Proof.
  intros Hcd.
  unfold run_command, bind, emit. rewrite Hcd.
  unfold with_NamedTemporaryFile, finally, run_script.
  rewrite script_text_lines. simpl.
  destruct (spawn _ _ _ (os s)) as [[[status output]|] o'].
  - destruct test_mode.
    + destruct (status =? 0)%Z; simpl; rewrite String.eqb_refl;
        do 3 eexists; (split; [reflexivity|]); repeat split; eauto.
    + simpl; rewrite String.eqb_refl.
      do 3 eexists; (split; [reflexivity|]); repeat split; eauto.
  - simpl; rewrite String.eqb_refl.
    do 3 eexists; (split; [reflexivity|]); repeat split; eauto.
Qed.

(** C5, as the specification states it, fails: with bash, one variable
    and one alias, the script that the code writes is not the script in
    the order that the specification gives. *)
Lemma script_order_differs :
  script_text "ls -l" "/bin/bash" ["ll=ls -l"] ["A=1"]
  = unlines ["#!/bin/bash"; "# -*- coding: utf-8 -*-";
             "shopt -s expand_aliases"; "export A=1";
             "alias ll=ls -l"; "ls -l"]
  /\ script_in_specified_order "ls -l" "/bin/bash" ["ll=ls -l"] ["A=1"]
     = unlines ["#!/bin/bash"; "export A=1"; "alias ll=ls -l";
                "shopt -s expand_aliases"; "ls -l"]
  /\ script_text "ls -l" "/bin/bash" ["ll=ls -l"] ["A=1"]
     <> script_in_specified_order "ls -l" "/bin/bash" ["ll=ls -l"] ["A=1"].
Proof.
  repeat split. vm_compute. discriminate.
Qed.

(** *** Changing directory *)

Lemma expanduser_home (o : OS) (home p : string) :
  environ o "HOME" = Some home ->
  expanduser o ("~/" ++ p) = rstrip_slash home ++ "/" ++ p.
Proof.
  intros H. unfold expanduser. simpl. rewrite H.
  destruct (rstrip_slash home); reflexivity.
Qed.

Lemma expanduser_plain (o : OS) (c : ascii) (p : string) :
  c <> "~"%char -> expanduser o (String c p) = String c p.
Proof.
  intros H. unfold expanduser.
  destruct (Ascii.eqb_spec c "~"); [contradiction|].
  destruct c as [[] [] [] [] [] [] [] []]; try reflexivity.
  exfalso; apply n; reflexivity.
Qed.

(** What the executor does with a [cd] that has a second word. *)
Lemma run_command_cd_outcome (cmd shell : string) (aliases envvars : list string)
    (test_mode : bool) (s : state) (word directory : string) (more : list string) :
  Py.startswith "cd " cmd = true ->
  Py.split cmd = word :: directory :: more ->
  run_command cmd shell aliases envvars test_mode s
  = match os_chdir (expanduser (os s) directory) (os s) with
    | Some o' =>
        (Ret None, set_os o' s,
         [EvRunCommand cmd shell aliases envvars;
          EvChdir (expanduser (os s) directory)])
    | None =>
        (Ret None, s,
         [EvRunCommand cmd shell aliases envvars;
          EvEcho ("No such file or directory: " ++ directory) true])
    end.
Proof.
  intros Hcd Hsplit.
  unfold run_command, bind, emit. rewrite Hcd, Hsplit.
  unfold change_directory.
  destruct (os_chdir _ (os s)); reflexivity.
Qed.

(** C4, as the code has it.  For a command that begins with [cd ] the
    executor takes the second word of the line as the directory, expands
    a leading home shorthand and changes to it.  When that fails a
    warning is printed, the state of the process, its current directory
    included, is what it was, no exception is raised and whatever
    follows the call runs next. *)
Theorem run_command_cd (cmd shell : string) (aliases envvars : list string)
    (test_mode : bool) (s : state) (word directory : string) (more : list string) :
  Py.startswith "cd " cmd = true ->
  Py.split cmd = word :: directory :: more ->
  (forall o',
      os_chdir (expanduser (os s) directory) (os s) = Some o' ->
      run_command cmd shell aliases envvars test_mode s
      = (Ret None, set_os o' s,
         [EvRunCommand cmd shell aliases envvars;
          EvChdir (expanduser (os s) directory)]))
  /\ (os_chdir (expanduser (os s) directory) (os s) = None ->
      run_command cmd shell aliases envvars test_mode s
      = (Ret None, s,
         [EvRunCommand cmd shell aliases envvars;
          EvEcho ("No such file or directory: " ++ directory) true])
      /\ forall (B : Type) (next : M B),
          bind (run_command cmd shell aliases envvars test_mode) (fun _ => next) s
          = match next s with
            | (r, s', ev) =>
                (r, s',
                 EvRunCommand cmd shell aliases envvars
                 :: EvEcho ("No such file or directory: " ++ directory) true
                 :: ev)
            end).
Proof.
  intros Hcd Hsplit.
  pose proof (run_command_cd_outcome cmd shell aliases envvars test_mode s
                word directory more Hcd Hsplit) as Hrun.
  split.
  - intros o' Ho. now rewrite Hrun, Ho.
  - intros Ho. rewrite Ho in Hrun. split; [exact Hrun|].
    intros B next. unfold bind at 1. rewrite Hrun.
    destruct (next s) as [[r s'] ev]. reflexivity.
Qed.

(** *** The branch lookup *)

(** The child process ran: the function returns its output, stripped,
    whatever the exit status was. *)
Lemma git_branch_of_output (o : OS) (out : string) :
  popen_communicate git_command o = inr out ->
  get_current_git_branch o = Ret (Py.strip out).
Proof. intros H. unfold get_current_git_branch. now rewrite H. Qed.

(** [Popen] failed with an exception that the [except] clause does not
    name: the exception leaves the function. *)
Lemma git_branch_exception_propagates (o : OS) (e : exn) :
  e <> CalledProcessError ->
  popen_communicate git_command o = inl e ->
  get_current_git_branch o = Raise e.
Proof.
  intros He H. unfold get_current_git_branch. rewrite H.
  destruct e; congruence.
Qed.

End Executor.

(** ** The computations *)

Section Computations.
Context {P : Platform}.

Lemma bind_assoc {A B C} (m : M A) (f : A -> M B) (g : B -> M C) (s : state) :
  bind (bind m f) g s = bind m (fun a => bind (f a) g) s.
Proof.
  unfold bind.
  destruct (m s) as [[[a | e |] s1] ev1]; try reflexivity.
  destruct (f a s1) as [[[b | e |] s2] ev2]; try reflexivity.
  destruct (g b s2) as [[r s3] ev3].
  now rewrite app_assoc.
Qed.

Lemma bind_ext {A B} (m : M A) (f g : A -> M B) (s : state) :
  (forall a s', f a s' = g a s') -> bind m f s = bind m g s.
Proof.
  intros H. unfold bind.
  destruct (m s) as [[[a | e |] s1] ev1]; try reflexivity.
  now rewrite H.
Qed.

Lemma bind_ret_l {A B} (a : A) (k : A -> M B) (s : state) :
  bind (ret a) k s = k a s.
Proof.
  unfold bind, ret. destruct (k a s) as [[r s'] ev]. reflexivity.
Qed.

(** What a sequence returns when its first part returns a value. *)
Lemma bind_Ret {A B} (m : M A) (k : A -> M B) (s s1 : state) (a : A)
    (ev1 : list event) :
  m s = (Ret a, s1, ev1) ->
  bind m k s = match k a s1 with (r, s2, ev2) => (r, s2, (ev1 ++ ev2)%list) end.
Proof. intros H. unfold bind. now rewrite H. Qed.

(** A sequence returns a value only when both parts do. *)
Lemma bind_inv_Ret {A B} (m : M A) (k : A -> M B) (s s2 : state) (b : B)
    (ev : list event) :
  bind m k s = (Ret b, s2, ev) ->
  exists a s1 ev1 ev2,
    m s = (Ret a, s1, ev1) /\ k a s1 = (Ret b, s2, ev2) /\ ev = (ev1 ++ ev2)%list.
Proof.
  unfold bind. intros H.
  destruct (m s) as [[[a | e |] s1] ev1]; try discriminate.
  destruct (k a s1) as [[r s2'] ev2] eqn:Hk.
  inversion H; subst.
  exists a, s1, ev1, ev2. auto.
Qed.

End Computations.

(** ** Directives *)

Section Directives.
Context {P : Platform}.

Lemma is_command_no_directive (line : string) :
  is_command line = true -> directive_of line = None.
Proof.
  unfold is_command, directive_of.
  destruct (Py.truthy (Py.strip line)), (Py.startswith "#" (Py.strip line));
    cbn [andb negb]; congruence.
Qed.

(** The three ways in which [run] reads a line. *)
Lemma run_lines_command (line : string) (rest : list string) (c : config)
    (t : bool) :
  is_command line = true ->
  run_lines (line :: rest) c t
  = bind (magictype (Py.strip line) (cfg_shell c) (cfg_prompt_template c)
                    (cfg_aliases c) (cfg_envvars c) (cfg_speed c) t)
         (fun _ => run_lines rest c t).
Proof.
  unfold is_command. cbn [run_lines].
  destruct (Py.truthy (Py.strip line)), (Py.startswith "#" (Py.strip line));
    cbn [andb negb]; congruence.
Qed.

Lemma run_lines_ignored (line : string) (rest : list string) (c : config)
    (t : bool) :
  is_command line = false ->
  directive_of line = None ->
  run_lines (line :: rest) c t = run_lines rest c t.
Proof.
  unfold is_command, directive_of. cbn [run_lines].
  destruct (Py.truthy (Py.strip line)), (Py.startswith "#" (Py.strip line));
    cbn [andb negb]; try congruence.
  intros _ H. now rewrite H.
Qed.

Lemma run_lines_directive (line : string) (rest : list string) (c : config)
    (t : bool) (o a : string) :
  directive_of line = Some (o, a) ->
  run_lines (line :: rest) c t
  = if String.eqb o "prompt" then run_lines rest (set_prompt_template a c) t
    else if String.eqb o "shell" then run_lines rest (set_shell a c) t
    else if String.eqb o "alias" then run_lines rest (append_alias a c) t
    else if String.eqb o "env" then run_lines rest (append_envvar a c) t
    else if String.eqb o "speed" then
      match Py.int a with
      | Some n => run_lines rest (set_speed n c) t
      | None => raise ValueError
      end
    else run_lines rest c t.
Proof.
  unfold directive_of. cbn [run_lines].
  destruct (Py.truthy (Py.strip line)), (Py.startswith "#" (Py.strip line));
    cbn [andb negb]; try congruence.
  intros H. now rewrite H.
Qed.

Lemma directive_not_command (line : string) (oa : string * string) :
  directive_of line = Some oa -> is_command line = false.
Proof.
  intros H. destruct (is_command line) eqn:E; [|reflexivity].
  apply is_command_no_directive in E. congruence.
Qed.

Lemma directive_args_cons (name line : string) (rest : list string) :
  directive_args name (line :: rest)
  = (match directive_of line with
     | Some (o, a) => if String.eqb o name then [a] else []
     | None => []
     end ++ directive_args name rest)%list.
Proof. reflexivity. Qed.

Lemma speed_values_cons (line : string) (rest : list string) :
  speed_values (line :: rest)
  = (match directive_of line with
     | Some (o, a) =>
         if String.eqb o "speed"
         then match Py.int a with Some n => [n] | None => [] end
         else []
     | None => []
     end ++ speed_values rest)%list.
Proof.
  unfold speed_values. rewrite directive_args_cons, flat_map_app.
  destruct (directive_of line) as [[o a]|]; [|reflexivity].
  destruct (String.eqb o "speed"); [|reflexivity].
  cbn [flat_map]. now rewrite app_nil_r.
Qed.

Lemma config_after_ignored (line : string) (rest : list string) (c c1 : config) :
  directive_of line = None ->
  config_after rest c c1 -> config_after (line :: rest) c c1.
Proof.
  unfold config_after. intros H.
  rewrite !directive_args_cons, speed_values_cons, H. exact (fun x => x).
Qed.

(** Tests on the names of the options, decided by computation. *)
Ltac decide_names :=
  repeat match goal with
         | |- context [String.eqb ?x ?y] =>
             let v := eval vm_compute in (String.eqb x y) in
             match v with
             | true => change (String.eqb x y) with true
             | false => change (String.eqb x y) with false
             end
         end.

Ltac fields H :=
  destruct H as (?H1 & ?H2 & ?H3 & ?H4 & ?H5);
  cbn [cfg_aliases cfg_envvars cfg_prompt_template cfg_shell cfg_speed
       set_prompt_template set_shell append_alias append_envvar set_speed] in *;
  decide_names; cbn [app];
  rewrite ?last_cons, ?app_nil_r;
  repeat split; try assumption.

Lemma run_lines_config (lines : list string) :
  forall (c : config) (t : bool) (s s1 : state) (c1 : config) (ev : list event),
    run_lines lines c t s = (Ret c1, s1, ev) ->
    config_after lines c c1.
Proof.
  induction lines as [|line rest IH]; intros c t s s1 c1 ev H.
  - inversion H; subst. unfold config_after. cbn.
    rewrite !app_nil_r. repeat split.
  - destruct (is_command line) eqn:Hc.
    + rewrite run_lines_command in H by assumption.
      apply bind_inv_Ret in H as (a & s' & e1 & e2 & _ & H & _).
      apply config_after_ignored; [now apply is_command_no_directive|].
      eapply IH; eassumption.
    + destruct (directive_of line) as [[o a]|] eqn:Hd.
      * rewrite (run_lines_directive _ _ _ _ _ _ Hd) in H.
        unfold config_after.
        rewrite !directive_args_cons, speed_values_cons, Hd.
        destruct (String.eqb_spec o "prompt") as [->|N1];
          [apply IH in H; fields H|].
        destruct (String.eqb_spec o "shell") as [->|N2];
          [apply IH in H; fields H|].
        destruct (String.eqb_spec o "alias") as [->|N3];
          [apply IH in H; fields H;
           match goal with
           | Hx : _ = ((_ ++ [_]) ++ _)%list |- _ =>
               rewrite Hx, <- app_assoc; reflexivity
           end|].
        destruct (String.eqb_spec o "env") as [->|N4];
          [apply IH in H; fields H;
           match goal with
           | Hx : _ = ((_ ++ [_]) ++ _)%list |- _ =>
               rewrite Hx, <- app_assoc; reflexivity
           end|].
        destruct (String.eqb_spec o "speed") as [->|N5].
        -- destruct (Py.int a) as [n|]; [|discriminate].
           apply IH in H; fields H.
        -- apply IH in H. cbn [app]. exact H.
      * rewrite run_lines_ignored in H by assumption.
        apply config_after_ignored; [assumption|].
        eapply IH; eassumption.
Qed.

(** The lines of a script are processed from left to right: what the
    first lines do does not depend on the lines after them. *)
Lemma run_lines_app (pre post : list string) :
  forall (c : config) (t : bool) (s : state),
    run_lines (pre ++ post) c t s
    = bind (run_lines pre c t) (fun c1 => run_lines post c1 t) s.
Proof.
  induction pre as [|line pre IH]; intros c t s.
  - cbn [app run_lines]. now rewrite bind_ret_l.
  - rewrite <- app_comm_cons.
    destruct (is_command line) eqn:Hc.
    + rewrite !run_lines_command by assumption.
      rewrite bind_assoc. apply bind_ext. intros _ s'. apply IH.
    + destruct (directive_of line) as [[o a]|] eqn:Hd.
      * rewrite !(run_lines_directive _ _ _ _ _ _ Hd).
        repeat match goal with
               | |- context [String.eqb o ?n] => destruct (String.eqb o n)
               end; try apply IH.
        destruct (Py.int a); [apply IH | reflexivity].
      * rewrite !run_lines_ignored by assumption. apply IH.
Qed.

(** C6.  While a script is played, the alias and the environment
    directives are appended to their lists in the order of the file,
    none dropped, moved or merged; the prompt, the shell and the speed
    are those of the last directive that names them; and the lines after
    a point, a command among them, are run with the configuration that
    the lines before the point have built, after the events of those
    lines. *)
Theorem directives_apply_left_to_right (pre post : list string) (c c1 : config)
    (t : bool) (s s1 : state) (ev1 : list event) :
  run_lines pre c t s = (Ret c1, s1, ev1) ->
  (cfg_aliases c1 = (cfg_aliases c ++ directive_args "alias" pre)%list
   /\ cfg_envvars c1 = (cfg_envvars c ++ directive_args "env" pre)%list
   /\ cfg_prompt_template c1
      = last (directive_args "prompt" pre) (cfg_prompt_template c)
   /\ cfg_shell c1 = last (directive_args "shell" pre) (cfg_shell c)
   /\ cfg_speed c1 = last (speed_values pre) (cfg_speed c))
  /\ run_lines (pre ++ post) c t s
     = match run_lines post c1 t s1 with
       | (r, s2, ev2) => (r, s2, (ev1 ++ ev2)%list)
       end
  /\ forall line rest,
      is_command line = true ->
      run_lines (pre ++ line :: rest) c t s
      = match
          bind (magictype (Py.strip line) (cfg_shell c1) (cfg_prompt_template c1)
                          (cfg_aliases c1) (cfg_envvars c1) (cfg_speed c1) t)
               (fun _ => run_lines rest c1 t) s1
        with
        | (r, s2, ev2) => (r, s2, (ev1 ++ ev2)%list)
        end.
Proof.
  intros H. split; [exact (run_lines_config _ _ _ _ _ _ _ H)|].
  split.
  - rewrite run_lines_app.
    exact (bind_Ret (run_lines pre c t) (fun c' => run_lines post c' t)
                    s s1 c1 ev1 H).
  - intros line rest Hc.
    rewrite run_lines_app.
    rewrite (bind_Ret (run_lines pre c t) (fun c' => run_lines (line :: rest) c' t)
                      s s1 c1 ev1 H).
    now rewrite run_lines_command.
Qed.

(** C7, as the code has it.  A speed directive whose value [int] reads
    sets the speed to the integer read, whatever its sign; one whose
    value [int] rejects ends the playback with [ValueError]. *)
Theorem speed_directive_sets_integer (line arg : string) (c : config) (t : bool)
    (s : state) :
  directive_of line = Some ("speed", arg) ->
  (forall n, Py.int arg = Some n ->
             run_lines [line] c t s = (Ret (set_speed n c), s, [])
             /\ cfg_speed (set_speed n c) = n)
  /\ (Py.int arg = None -> run_lines [line] c t s = (Raise ValueError, s, [])).
Proof.
  intros Hd. rewrite (run_lines_directive _ _ _ _ _ _ Hd). cbn.
  split.
  - intros n Hn. rewrite Hn. split; reflexivity.
  - intros Hn. rewrite Hn. reflexivity.
Qed.

End Directives.

(** ** The grammar of directives *)

Section Grammar.
Context {P : Platform}.

Lemma lstrip_all_space_app (lead s : string) :
  all_space lead = true -> Py.lstrip (lead ++ s) = Py.lstrip s.
Proof.
  induction lead as [|c lead IH]; cbn [all_space append Py.lstrip];
    [reflexivity|].
  intros H. apply andb_prop in H as [Hc Hl]. rewrite Hc. now apply IH.
Qed.

Lemma lstrip_head (c : ascii) (s : string) :
  Py.is_space c = false -> Py.lstrip (String c s) = String c s.
Proof. intros H. cbn [Py.lstrip]. now rewrite H. Qed.

Lemma rstrip_all_space (t : string) :
  all_space t = true -> Py.rstrip t = EmptyString.
Proof.
  induction t as [|c t IH]; cbn [all_space Py.rstrip]; [reflexivity|].
  intros H. apply andb_prop in H as [Hc Ht]. now rewrite IH, Hc.
Qed.

Lemma rstrip_app_all_space (a t : string) :
  all_space t = true -> Py.rstrip (a ++ t) = Py.rstrip a.
Proof.
  intros H. induction a as [|c a IH]; cbn [append Py.rstrip].
  - now apply rstrip_all_space.
  - now rewrite IH.
Qed.

Lemma rstrip_last (a : string) (c : ascii) :
  Py.is_space c = false ->
  Py.rstrip (a ++ String c EmptyString) = a ++ String c EmptyString.
Proof.
  intros H. induction a as [|x a IH]; cbn [append Py.rstrip].
  - now rewrite H.
  - rewrite IH. destruct a; reflexivity.
Qed.

(** [strip] takes the white space around a text that begins and ends
    with other characters, and nothing else. *)
Lemma strip_padded (lead trail mid : string) (first final : ascii) :
  all_space lead = true ->
  all_space trail = true ->
  Py.is_space first = false ->
  Py.is_space final = false ->
  Py.strip (lead ++ (String first mid ++ String final EmptyString) ++ trail)
  = String first mid ++ String final EmptyString.
Proof.
  intros Hl Ht Hf Hz. unfold Py.strip.
  rewrite <- sapp_assoc, rstrip_app_all_space by assumption.
  change (String first mid ++ String final EmptyString)
    with (String first (mid ++ String final EmptyString)).
  replace (lead ++ String first (mid ++ String final EmptyString))
    with ((lead ++ String first mid) ++ String final EmptyString)
    by (now rewrite sapp_assoc).
  rewrite rstrip_last by assumption.
  rewrite sapp_assoc, lstrip_all_space_app by assumption.
  now apply lstrip_head.
Qed.

Lemma option_name_cases (name : string) :
  In name OptionRE.option_names ->
  name = "prompt" \/ name = "shell" \/ name = "alias" \/ name = "env"
  \/ name = "speed".
Proof.
  cbn. intros [H|[H|[H|[H|[H|[]]]]]]; auto.
Qed.

Lemma prefix_app (p x : string) : String.prefix p (p ++ x) = true.
Proof.
  induction p as [|a p IH]; cbn [append String.prefix].
  - now destruct x.
  - destruct (ascii_dec a a); [exact IH | contradiction].
Qed.

Lemma drop_app (p x : string) : Py.drop (String.length p) (p ++ x) = x.
Proof. induction p as [|a p IH]; [reflexivity | exact IH]. Qed.

Lemma literal_app (p x : string) : OptionRE.literal p (p ++ x) = Some x.
Proof. unfold OptionRE.literal. now rewrite prefix_app, drop_app. Qed.

Lemma re_match_hash (r : string) :
  OptionRE.re_match (String "#" r)
  = match OptionRE.literal "doitlive" (OptionRE.opt_space r) with
    | Some r1 =>
        match OptionRE.spaces1 r1 with
        | Some r2 => OptionRE.alternatives OptionRE.option_names r2
        | None => None
        end
    | None => None
    end.
Proof. reflexivity. Qed.

(** A directive that ends at its colon is not in the grammar. *)
Lemma re_match_no_value (name gap0 gap1 : string) :
  In name OptionRE.option_names ->
  (gap0 = EmptyString
   \/ exists c, Py.is_space c = true /\ gap0 = String c EmptyString) ->
  all_space gap1 = true -> gap1 <> EmptyString ->
  OptionRE.re_match
    (String "#" (gap0 ++ "doitlive" ++ gap1 ++ name) ++ ":") = None.
Proof.
  intros Hn H0 H1 Hne.
  change (String "#" (gap0 ++ "doitlive" ++ gap1 ++ name) ++ ":")
    with (String "#" ((gap0 ++ "doitlive" ++ gap1 ++ name) ++ ":")).
  rewrite !sapp_assoc.
  rewrite re_match_hash.
  assert (Hopt : OptionRE.opt_space (gap0 ++ "doitlive" ++ gap1 ++ name ++ ":")
                 = "doitlive" ++ gap1 ++ name ++ ":").
  { destruct H0 as [->|(c & Hc & ->)]; [reflexivity|].
    change (String c EmptyString ++ "doitlive" ++ gap1 ++ name ++ ":")
      with (String c ("doitlive" ++ gap1 ++ name ++ ":")).
    unfold OptionRE.opt_space. now rewrite Hc. }
  rewrite Hopt, literal_app.
  assert (Hsp : OptionRE.spaces1 (gap1 ++ name ++ ":") = Some (name ++ ":")).
  { destruct gap1 as [|g gap1]; [congruence|].
    cbn [all_space] in H1. apply andb_prop in H1 as [Hg H1].
    change (String g gap1 ++ name ++ ":") with (String g (gap1 ++ name ++ ":")).
    unfold OptionRE.spaces1. rewrite Hg.
    rewrite lstrip_all_space_app by assumption.
    apply option_name_cases in Hn.
    destruct Hn as [->|[->|[->|[->| ->]]]]; reflexivity. }
  rewrite Hsp.
  apply option_name_cases in Hn.
  destruct Hn as [->|[->|[->|[->| ->]]]]; reflexivity.
Qed.

(** C10.  A line that holds the directive prefix and the name of an
    option up to the colon, with nothing but white space after it, does
    not match the grammar: [run] passes over it as over a comment, the
    configuration and the state are untouched and nothing is raised. *)
Theorem directive_without_value_is_comment
    (name lead gap0 gap1 trail : string) (rest : list string) (c : config)
    (t : bool) :
  In name OptionRE.option_names ->
  all_space lead = true ->
  all_space trail = true ->
  (gap0 = EmptyString
   \/ exists c, Py.is_space c = true /\ gap0 = String c EmptyString) ->
  all_space gap1 = true -> gap1 <> EmptyString ->
  OptionRE.re_match
    (Py.strip (lead ++ ("#" ++ gap0 ++ "doitlive" ++ gap1 ++ name ++ ":") ++ trail))
  = None
  /\ run_lines
       ((lead ++ ("#" ++ gap0 ++ "doitlive" ++ gap1 ++ name ++ ":") ++ trail) :: rest)
       c t
     = run_lines rest c t.
Proof.
  intros Hn Hl Ht H0 H1 Hne.
  assert (Hcore : "#" ++ gap0 ++ "doitlive" ++ gap1 ++ name ++ ":"
                  = String "#" (gap0 ++ "doitlive" ++ gap1 ++ name) ++ ":").
  { change (String "#" (gap0 ++ "doitlive" ++ gap1 ++ name) ++ ":")
      with ("#" ++ (gap0 ++ "doitlive" ++ gap1 ++ name) ++ ":").
    now rewrite !sapp_assoc. }
  rewrite Hcore.
  assert (Hstrip :
            Py.strip (lead ++ (String "#" (gap0 ++ "doitlive" ++ gap1 ++ name) ++ ":")
                      ++ trail)
            = String "#" (gap0 ++ "doitlive" ++ gap1 ++ name) ++ ":")
    by (apply strip_padded; auto).
  assert (Hm : OptionRE.re_match
                 (String "#" (gap0 ++ "doitlive" ++ gap1 ++ name) ++ ":") = None)
    by (now apply re_match_no_value).
  split; [now rewrite Hstrip|].
  assert (Hs : Py.startswith "#"
                 (String "#" (gap0 ++ "doitlive" ++ gap1 ++ name) ++ ":") = true)
    by (apply (prefix_app "#")).
  apply run_lines_ignored.
  - unfold is_command. now rewrite Hstrip, Hs.
  - unfold directive_of. now rewrite Hstrip, Hs.
Qed.

End Grammar.

(** ** The typing simulator *)

Section Typing.
Context {P : Platform}.

(** A slice of [speed] characters from a position inside the text. *)
Lemma slice_chunk (text : string) (i speed : Z) :
  (0 <= i)%Z -> (0 <= speed)%Z ->
  Py.slice text i (i + speed)
  = Py.take (Z.to_nat speed) (Py.drop (Z.to_nat i) text).
Proof.
  intros Hi Hn. unfold Py.slice, Py.adjust_index, Py.len.
  destruct (Z.ltb_spec i 0); [lia|].
  destruct (Z.ltb_spec (i + speed) 0); [lia|].
  set (L := String.length text).
  destruct (Z_lt_ge_dec i (Z.of_nat L)) as [Hlt|Hge].
  - replace (Z.to_nat (Z.min i (Z.of_nat L))) with (Z.to_nat i) by lia.
    replace (Z.to_nat (Z.min (i + speed) (Z.of_nat L) - Z.min i (Z.of_nat L)))
      with (Nat.min (Z.to_nat speed) (String.length (Py.drop (Z.to_nat i) text)))
      by (rewrite length_drop; fold L; lia).
    apply take_min.
  - rewrite (drop_all (Z.to_nat i)) by (fold L; lia).
    replace (Z.to_nat (Z.min (i + speed) (Z.of_nat L) - Z.min i (Z.of_nat L)))
      with 0 by lia.
    now destruct (Z.to_nat speed).
Qed.

Lemma reveals_ceil_div (l speed : Z) (n : nat) :
  (0 <= l)%Z -> (1 <= speed)%Z ->
  Z.of_nat n = ceil_div l speed -> reveals l speed n.
Proof.
  intros Hl Hs Hn. unfold ceil_div in Hn. unfold reveals.
  pose proof (Z.div_mod (l + speed - 1) speed ltac:(lia)) as Hdm.
  pose proof (Z.mod_pos_bound (l + speed - 1) speed ltac:(lia)) as Hb.
  rewrite <- Hn in Hdm.
  destruct (Z.eq_dec l 0) as [->|Hne].
  - left. split; [lia|]. nia.
  - right. split; [lia|]. nia.
Qed.

Lemma reveals_step (remaining speed : Z) (n : nat) :
  (1 <= speed)%Z -> (0 < remaining)%Z ->
  reveals remaining speed (S n) -> reveals (remaining - speed) speed n.
Proof.
  intros Hs Hr [[H _]|[_ H]]; [lia|].
  unfold reveals.
  destruct (Z_le_gt_dec (remaining - speed) 0).
  - left. split; [assumption|]. nia.
  - right. split; [lia|]. nia.
Qed.

(** Exactly the needed number of keystrokes, none of them an escape,
    reveals the rest of the text and ends the loop. *)
Lemma typing_keys_complete (text : string) (speed : Z) (rest : list string) :
  (1 <= speed)%Z ->
  forall (typed : list string) (i : Z),
    (0 <= i)%Z ->
    Forall not_esc typed ->
    reveals (Py.len text - i) speed (List.length typed) ->
    typing_keys text speed i (typed ++ rest)
    = (Ret tt, rest, keystroke_events text speed i typed)
    /\ echoed (keystroke_events text speed i typed) = Py.drop (Z.to_nat i) text.
Proof.
  intros Hs. induction typed as [|k typed IH]; intros i Hi Hk Hr.
  - destruct Hr as [[Hr _]|[Hpos Hr]]; [|cbn [List.length] in Hr; lia].
    cbn [app keystroke_events echoed List.length].
    split.
    + destruct rest; cbn [typing_keys];
        destruct (Z.ltb_spec i (Py.len text)); try lia; reflexivity.
    + symmetry. apply drop_all. unfold Py.len in Hr. lia.
  - inversion Hk as [|? ? Hne Hk']; subst.
    assert (Hlt : (i < Py.len text)%Z).
    { destruct Hr as [[_ Hr]|[Hr _]]; [discriminate | lia]. }
    destruct (IH (i + speed)%Z ltac:(lia) Hk') as [IH1 IH2].
    { replace (Py.len text - (i + speed))%Z with (Py.len text - i - speed)%Z by lia.
      apply reveals_step; [assumption | lia | exact Hr]. }
    cbn [app typing_keys keystroke_events echoed].
    destruct (Z.ltb_spec i (Py.len text)); [|lia].
    apply String.eqb_neq in Hne. rewrite Hne, IH1. split; [reflexivity|].
    rewrite IH2, slice_chunk by lia.
    replace (Z.to_nat (i + speed)) with (Z.to_nat i + Z.to_nat speed) by lia.
    rewrite <- drop_drop. apply take_drop.
Qed.

(** Fewer keystrokes leave the loop waiting, with less than the text
    shown. *)
Lemma typing_keys_starved (text : string) (speed : Z) :
  (1 <= speed)%Z ->
  forall (ks : list string) (i : Z),
    (0 <= i)%Z ->
    Forall not_esc ks ->
    (Z.of_nat (List.length ks) * speed < Py.len text - i)%Z ->
    typing_keys text speed i ks
    = (Blocked, [], keystroke_events text speed i ks)
    /\ (String.length (echoed (keystroke_events text speed i ks))
        < String.length (Py.drop (Z.to_nat i) text)).
Proof.
  intros Hs. induction ks as [|k ks IH]; intros i Hi Hk Hlen.
  - cbn [typing_keys keystroke_events echoed List.length] in *.
    destruct (Z.ltb_spec i (Py.len text)); [|lia].
    split; [reflexivity|]. rewrite length_drop. unfold Py.len in *. cbn. lia.
  - inversion Hk as [|? ? Hne Hk']; subst.
    cbn [List.length] in Hlen.
    destruct (IH (i + speed)%Z ltac:(lia) Hk' ltac:(lia)) as [IH1 IH2].
    cbn [typing_keys keystroke_events echoed].
    destruct (Z.ltb_spec i (Py.len text)); [|lia].
    apply String.eqb_neq in Hne. rewrite Hne, IH1. split; [reflexivity|].
    rewrite slength_app, slice_chunk by lia.
    rewrite length_drop in *.
    assert (Hc : String.length
                   (Py.take (Z.to_nat speed) (Py.drop (Z.to_nat i) text))
                 <= Z.to_nat speed).
    { clear. generalize (Py.drop (Z.to_nat i) text) as u.
      induction (Z.to_nat speed) as [|n IHn]; intros [|c u]; cbn; try lia.
      specialize (IHn u). lia. }
    unfold Py.len in *. lia.
Qed.

(** With a speed that is not positive the loop never ends by itself. *)
Lemma typing_never_completes (text : string) (speed : Z) :
  (speed <= 0)%Z ->
  forall (ks : list string) (i : Z),
    (i < Py.len text)%Z ->
    fst (fst (typing_keys text speed i ks)) <> Ret tt.
Proof.
  intros Hs. induction ks as [|k ks IH]; intros i Hi; cbn [typing_keys];
    destruct (Z.ltb_spec i (Py.len text)); try lia.
  - discriminate.
  - destruct (String.eqb k ESC); [discriminate|].
    specialize (IH (i + speed)%Z ltac:(lia)).
    destruct (typing_keys text speed (i + speed) ks) as [[r ks'] ev].
    exact IH.
Qed.

End Typing.

(** ** One command: prompt, typing, confirmation, execution *)

Section Magictype.
Context {P : Platform}.

Lemma format_prompt_pure (tpl : string) (s : state) :
  exists r, format_prompt tpl s = (r, s, []).
Proof.
  unfold format_prompt.
  destruct (get_prompt_state (os s)) as [st|e|]; eauto.
  destruct (str_format tpl st); eauto.
Qed.

Lemma make_prompt_formatter_pure (template : string) (s : state) :
  exists r, make_prompt_formatter template s = (r, s, []).
Proof. unfold make_prompt_formatter. apply format_prompt_pure. Qed.

Lemma return_not_esc (r : string) : is_in r RETURNS = true -> r <> ESC.
Proof.
  unfold is_in, RETURNS. cbn [existsb]. intros H ->. discriminate.
Qed.

Lemma wait_for_keys_return (waits : list string) (r : string) (rest : list string) :
  Forall not_esc_nor_return waits ->
  is_in r RETURNS = true ->
  wait_for_keys RETURNS (waits ++ r :: rest)
  = (Ret r, rest, (map EvKey waits ++ [EvKey r; EvEcho EmptyString true])%list).
Proof.
  intros Hw Hr. induction Hw as [|k waits [Hk1 Hk2] _ IH];
    cbn [app wait_for_keys map].
  - pose proof (return_not_esc r Hr) as Hne.
    apply String.eqb_neq in Hne. now rewrite Hne, Hr.
  - apply String.eqb_neq in Hk1. now rewrite Hk1, Hk2, IH.
Qed.

Lemma wait_for_keys_starved (waits : list string) :
  Forall not_esc_nor_return waits ->
  wait_for_keys RETURNS waits = (Blocked, [], map EvKey waits).
Proof.
  intros Hw. induction Hw as [|k waits [Hk1 Hk2] _ IH];
    cbn [wait_for_keys map]; [reflexivity|].
  apply String.eqb_neq in Hk1. now rewrite Hk1, Hk2, IH.
Qed.

(** [magictype] once the prompt is rendered. *)
Lemma magictype_after_prompt (text shell template : string)
    (aliases envvars : list string) (speed : Z) (t : bool) (s : state)
    (prompt : string) :
  make_prompt_formatter template s = (Ret prompt, s, []) ->
  magictype text shell template aliases envvars speed t s
  = match typing_keys text speed 0 (keys s) with
    | (Ret _, ks1, ev1) =>
        match wait_for_keys RETURNS ks1 with
        | (Ret _, ks2, ev2) =>
            match run_command text shell aliases envvars t (set_keys ks2 s) with
            | (r, s', ev3) =>
                (discard r, s',
                 (EvEcho (prompt ++ " ") false :: ev1 ++ ev2 ++ ev3)%list)
            end
        | (Raise e, ks2, ev2) =>
            (Raise e, set_keys ks2 s,
             (EvEcho (prompt ++ " ") false :: ev1 ++ ev2)%list)
        | (Blocked, ks2, ev2) =>
            (Blocked, set_keys ks2 s,
             (EvEcho (prompt ++ " ") false :: ev1 ++ ev2)%list)
        end
    | (Raise e, ks1, ev1) =>
        (Raise e, set_keys ks1 s, EvEcho (prompt ++ " ") false :: ev1)
    | (Blocked, ks1, ev1) =>
        (Blocked, set_keys ks1 s, EvEcho (prompt ++ " ") false :: ev1)
    end.
Proof.
  intros Hp. unfold magictype, bind at 1. rewrite Hp.
  unfold bind at 1, emit at 1. cbn [app].
  unfold bind at 1, typing.
  destruct (typing_keys text speed 0 (keys s)) as [[[[] | e |] ks1] ev1];
    try reflexivity.
  unfold bind at 1, wait_for. cbn [keys set_keys].
  destruct (wait_for_keys RETURNS ks1) as [[[k | e |] ks2] ev2];
    try reflexivity.
  unfold bind at 1.
  change (set_keys ks2 (set_keys ks1 s)) with (set_keys ks2 s).
  destruct (run_command text shell aliases envvars t (set_keys ks2 s))
    as [[[v | e |] s'] ev3]; cbn [discard]; try reflexivity.
  unfold ret. now rewrite app_nil_r.
Qed.

(** The needed number of keystrokes, counted from the start. *)
Lemma typing_keys_full (text : string) (speed : Z) (typed rest : list string) :
  (1 <= speed)%Z ->
  Forall not_esc typed ->
  Z.of_nat (List.length typed) = ceil_div (Py.len text) speed ->
  typing_keys text speed 0 (typed ++ rest)
  = (Ret tt, rest, keystroke_events text speed 0 typed)
  /\ echoed (keystroke_events text speed 0 typed) = text.
Proof.
  intros Hs Hk Hn.
  assert (Hlen : (0 <= Py.len text)%Z) by (unfold Py.len; lia).
  apply (typing_keys_complete text speed rest Hs typed 0%Z); try lia; auto.
  rewrite Z.sub_0_r. now apply reveals_ceil_div.
Qed.

Lemma typing_keys_short (text : string) (speed : Z) (ks : list string) :
  (1 <= speed)%Z ->
  Forall not_esc ks ->
  (Z.of_nat (List.length ks) < ceil_div (Py.len text) speed)%Z ->
  typing_keys text speed 0 ks
  = (Blocked, [], keystroke_events text speed 0 ks)
  /\ String.length (echoed (keystroke_events text speed 0 ks))
     < String.length text.
Proof.
  intros Hs Hk Hn.
  assert (Hlen : (0 <= Py.len text)%Z) by (unfold Py.len; lia).
  assert (Hshort : (Z.of_nat (List.length ks) * speed < Py.len text - 0)%Z).
  { unfold ceil_div in Hn.
    pose proof (Z.div_mod (Py.len text + speed - 1) speed ltac:(lia)) as Hdm.
    pose proof (Z.mod_pos_bound (Py.len text + speed - 1) speed ltac:(lia)).
    nia. }
  exact (typing_keys_starved text speed Hs ks 0%Z (Z.le_refl 0) Hk Hshort).
Qed.

(** The text is shown and no return has come: [magictype] waits, and
    the executor has not been called. *)
Lemma magictype_awaits_return (text shell template : string)
    (aliases envvars : list string) (speed : Z) (t : bool) (s : state)
    (prompt : string) (typed waits : list string) :
  (1 <= speed)%Z ->
  make_prompt_formatter template s = (Ret prompt, s, []) ->
  Forall not_esc typed ->
  Z.of_nat (List.length typed) = ceil_div (Py.len text) speed ->
  Forall not_esc_nor_return waits ->
  keys s = (typed ++ waits)%list ->
  magictype text shell template aliases envvars speed t s
  = (Blocked, set_keys [] s,
     (EvEcho (prompt ++ " ") false
      :: keystroke_events text speed 0 typed ++ map EvKey waits)%list).
Proof.
  intros Hs Hp Hk Hn Hw Hkeys.
  rewrite (magictype_after_prompt _ _ _ _ _ _ _ _ _ Hp), Hkeys.
  destruct (typing_keys_full text speed typed waits Hs Hk Hn) as [-> _].
  now rewrite wait_for_keys_starved.
Qed.

(** The text is shown and a return comes: the executor is called next,
    in the state in which only the keys read are gone. *)
Lemma magictype_confirmed (text shell template : string)
    (aliases envvars : list string) (speed : Z) (t : bool) (s : state)
    (prompt : string) (typed waits : list string) (r : string)
    (rest : list string) :
  (1 <= speed)%Z ->
  make_prompt_formatter template s = (Ret prompt, s, []) ->
  Forall not_esc typed ->
  Z.of_nat (List.length typed) = ceil_div (Py.len text) speed ->
  Forall not_esc_nor_return waits ->
  is_in r RETURNS = true ->
  keys s = (typed ++ waits ++ r :: rest)%list ->
  magictype text shell template aliases envvars speed t s
  = match run_command text shell aliases envvars t (set_keys rest s) with
    | (res, s', ev) =>
        (discard res, s',
         (EvEcho (prompt ++ " ") false
          :: keystroke_events text speed 0 typed
          ++ (map EvKey waits ++ [EvKey r; EvEcho EmptyString true])
          ++ ev)%list)
    end.
Proof.
  intros Hs Hp Hk Hn Hw Hr Hkeys.
  rewrite (magictype_after_prompt _ _ _ _ _ _ _ _ _ Hp), Hkeys.
  destruct (typing_keys_full text speed typed (waits ++ r :: rest)%list Hs Hk Hn)
    as [-> _].
  rewrite wait_for_keys_return by assumption.
  reflexivity.
Qed.

(** C2.  With a speed of at least one, a text of length [L] is shown in
    full after exactly [ceil (L / speed)] keystrokes other than escape,
    each revealing the next [speed] characters: with fewer the loop is
    still waiting and less than the text is on the line.  [magictype]
    then waits for a return, passing over any other key, and hands the
    command to the executor once the return has been read, never
    before. *)
Theorem typing_takes_ceil_keystrokes (text : string) (speed : Z) :
  (1 <= speed)%Z ->
  (forall ks,
      Forall not_esc ks ->
      (Z.of_nat (List.length ks) < ceil_div (Py.len text) speed)%Z ->
      typing_keys text speed 0 ks
      = (Blocked, [], keystroke_events text speed 0 ks)
      /\ String.length (echoed (keystroke_events text speed 0 ks))
         < String.length text)
  /\ (forall typed rest,
        Forall not_esc typed ->
        Z.of_nat (List.length typed) = ceil_div (Py.len text) speed ->
        typing_keys text speed 0 (typed ++ rest)
        = (Ret tt, rest, keystroke_events text speed 0 typed)
        /\ echoed (keystroke_events text speed 0 typed) = text)
  /\ (forall shell template aliases envvars t s prompt typed waits,
        make_prompt_formatter template s = (Ret prompt, s, []) ->
        Forall not_esc typed ->
        Z.of_nat (List.length typed) = ceil_div (Py.len text) speed ->
        Forall not_esc_nor_return waits ->
        (keys s = (typed ++ waits)%list ->
         magictype text shell template aliases envvars speed t s
         = (Blocked, set_keys [] s,
            (EvEcho (prompt ++ " ") false
             :: keystroke_events text speed 0 typed ++ map EvKey waits)%list))
        /\ (forall r rest,
              is_in r RETURNS = true ->
              keys s = (typed ++ waits ++ r :: rest)%list ->
              magictype text shell template aliases envvars speed t s
              = match run_command text shell aliases envvars t (set_keys rest s) with
                | (res, s', ev) =>
                    (discard res, s',
                     (EvEcho (prompt ++ " ") false
                      :: keystroke_events text speed 0 typed
                      ++ (map EvKey waits ++ [EvKey r; EvEcho EmptyString true])
                      ++ ev)%list)
                end)).
Proof.
  intros Hs. split; [|split].
  - intros ks Hk Hn. now apply typing_keys_short.
  - intros typed rest Hk Hn. now apply typing_keys_full.
  - intros shell template aliases envvars t s prompt typed waits Hp Hk Hn Hw.
    split.
    + intros Hkeys. now apply magictype_awaits_return.
    + intros r rest Hr Hkeys. now apply magictype_confirmed.
Qed.

End Magictype.

(** ** The order of events in a playback *)

Section Traces.
Context {P : Platform}.

Lemma without_app (f : event -> bool) (a b : list event) :
  without f a -> without f b -> without f (a ++ b)%list.
Proof. unfold without. intros. apply Forall_app. auto. Qed.

Lemma without_not_in (f : event -> bool) (ev pre post : list event) (x : event) :
  without f ev -> f x = true -> ev <> (pre ++ x :: post)%list.
Proof.
  intros Hw Hx ->. unfold without in Hw.
  rewrite Forall_forall in Hw.
  specialize (Hw x ltac:(apply in_or_app; right; left; reflexivity)).
  congruence.
Qed.

(** The first event that satisfies [f] is where it is. *)
Lemma first_occurrence (f : event -> bool) (a b pre post : list event)
    (x y : event) :
  without f a -> without f b -> f x = true -> f y = true ->
  (a ++ x :: b)%list = (pre ++ y :: post)%list ->
  pre = a /\ y = x /\ post = b.
Proof.
  intros Ha Hb Hx Hy. revert pre.
  induction a as [|e a IH]; intros pre H.
  - destruct pre as [|e' pre]; cbn [app] in H.
    + injection H as Hxy Hb'. auto.
    + injection H as _ Hb'. exfalso.
      exact (without_not_in f b pre post y Hb Hy Hb').
  - inversion Ha as [|? ? He Ha']; subst.
    destruct pre as [|e' pre]; cbn [app] in H.
    + injection H as Hey _. congruence.
    + injection H as Hee H2.
      destruct (IH Ha' pre H2) as (Hp & Hyx & Hpost).
      subst. auto.
Qed.

Lemma app_eq_middle (l1 l2 pre post : list event) (x : event) :
  (l1 ++ l2)%list = (pre ++ x :: post)%list ->
  (exists l, l1 = (pre ++ x :: l)%list /\ post = (l ++ l2)%list)
  \/ (exists l, pre = (l1 ++ l)%list /\ l2 = (l ++ x :: post)%list).
Proof.
  intros H. apply app_eq_app in H as [l [[H1 H2]|[H1 H2]]].
  - destruct l as [|e l]; cbn [app] in H2.
    + right. exists []. rewrite app_nil_r in *. cbn [app]. auto.
    + injection H2 as He Hp. left. exists l. subst. auto.
  - right. exists l. auto.
Qed.

Lemma without_executes {A} (r : result A) (s : state) (ev : list event) :
  without is_run_command ev -> executes_after_confirmation (r, s, ev).
Proof.
  intros Hw pre cmd sh al en post H. exfalso.
  eapply (without_not_in is_run_command); eauto. reflexivity.
Qed.

Lemma without_aborts {A} (r : result A) (s : state) (ev : list event) :
  without is_esc_key ev -> aborts_at_escape (r, s, ev).
Proof.
  intros Hw pre post H. exfalso.
  eapply (without_not_in is_esc_key); eauto. reflexivity.
Qed.

Lemma executes_bind {A B} (m : M A) (k : A -> M B) (s : state) :
  executes_after_confirmation (m s) ->
  (forall a s1 ev1, m s = (Ret a, s1, ev1) ->
                    executes_after_confirmation (k a s1)) ->
  executes_after_confirmation (bind m k s).
Proof.
  unfold bind. intros Hm Hk.
  destruct (m s) as [[[a | e |] s1] ev1]; try exact Hm.
  specialize (Hk a s1 ev1 eq_refl).
  destruct (k a s1) as [[r s2] ev2].
  intros pre cmd sh al en post H.
  apply app_eq_middle in H as [(l & H1 & H2)|(l & H1 & H2)].
  - exact (Hm pre cmd sh al en l H1).
  - destruct (Hk l cmd sh al en post H2) as (before & seg & Hl & Hseg).
    exists (ev1 ++ before)%list, seg. subst. now rewrite app_assoc.
Qed.

Lemma aborts_bind {A B} (m : M A) (k : A -> M B) (s : state) :
  aborts_at_escape (m s) ->
  (forall a s1 ev1, m s = (Ret a, s1, ev1) -> aborts_at_escape (k a s1)) ->
  aborts_at_escape (bind m k s).
Proof.
  unfold bind. intros Hm Hk.
  destruct (m s) as [[[a | e |] s1] ev1].
  2: { intros pre post H. destruct (Hm pre post H) as [Hr Hpost].
       injection Hr as ->. auto. }
  2: { intros pre post H. destruct (Hm pre post H) as [Hr _]. discriminate. }
  specialize (Hk a s1 ev1 eq_refl).
  destruct (k a s1) as [[r s2] ev2].
  intros pre post H.
  apply app_eq_middle in H as [(l & H1 & H2)|(l & H1 & H2)].
  - destruct (Hm pre l H1) as [Habs _]. discriminate.
  - exact (Hk l post H2).
Qed.

(** *** The events of the parts of [magictype] *)

Lemma keystroke_events_no_command (text : string) (speed : Z) (ks : list string) :
  forall i, without is_run_command (keystroke_events text speed i ks).
Proof.
  induction ks as [|k ks IH]; intros i; cbn [keystroke_events].
  - constructor.
  - repeat constructor. apply IH.
Qed.

Lemma keystroke_events_no_escape (text : string) (speed : Z) (ks : list string) :
  Forall not_esc ks ->
  forall i, without is_esc_key (keystroke_events text speed i ks).
Proof.
  induction 1 as [|k ks Hk _ IH]; intros i; cbn [keystroke_events].
  - constructor.
  - constructor; [now apply String.eqb_neq|].
    constructor; [reflexivity | apply IH].
Qed.

Lemma key_events_no_command (ks : list string) :
  without is_run_command (map EvKey ks).
Proof. induction ks; cbn [map]; constructor; auto. Qed.

Lemma key_events_no_escape (ks : list string) :
  Forall not_esc_nor_return ks -> without is_esc_key (map EvKey ks).
Proof.
  induction 1 as [|k ks [Hk _] _ IH]; cbn [map]; constructor; auto.
  now apply String.eqb_neq.
Qed.

(** How the typing loop can end. *)
Lemma typing_keys_inv (text : string) (speed : Z) (ks : list string) :
  forall i,
    match typing_keys text speed i ks with
    | (r, ks', ev) =>
        exists typed,
          Forall not_esc typed
          /\ ((r = Ret tt /\ ev = keystroke_events text speed i typed)
              \/ (r = Blocked /\ ev = keystroke_events text speed i typed)
              \/ (r = Raise Abort
                  /\ ev = (keystroke_events text speed i typed
                           ++ [EvKey ESC; EvEcho EmptyString true])%list))
    end.
Proof.
  induction ks as [|k ks IH]; intros i; cbn [typing_keys];
    destruct (i <? Py.len text)%Z.
  - exists []. split; [constructor|]. right. left. auto.
  - exists []. split; [constructor|]. left. auto.
  - destruct (String.eqb_spec k ESC) as [->|Hne].
    + exists []. split; [constructor|]. right. right. auto.
    + specialize (IH (i + speed)%Z).
      destruct (typing_keys text speed (i + speed) ks) as [[r ks'] ev].
      destruct IH as (typed & Ht & H).
      exists (k :: typed). split; [constructor; assumption|].
      cbn [keystroke_events app].
      destruct H as [[-> ->]|[[-> ->]|[-> ->]]]; auto.
  - exists []. split; [constructor|]. left. auto.
Qed.

(** A loop that ended by itself has shown the rest of the text. *)
Lemma typing_keys_Ret_echoed (text : string) (speed : Z) (ks : list string) :
  forall i ks' ev,
    (0 <= i)%Z ->
    typing_keys text speed i ks = (Ret tt, ks', ev) ->
    echoed ev = Py.drop (Z.to_nat i) text.
Proof.
  destruct (Z_le_gt_dec 1 speed) as [Hs|Hs].
  - induction ks as [|k ks IH]; intros i ks' ev Hi H; cbn [typing_keys] in H;
      destruct (Z.ltb_spec i (Py.len text)); try discriminate.
    + inversion H; subst. symmetry. apply drop_all. unfold Py.len in *. lia.
    + destruct (String.eqb k ESC); [discriminate|].
      destruct (typing_keys text speed (i + speed) ks) as [[r ks1] ev1] eqn:E.
      injection H as Hr Hk He. subst r ks' ev.
      assert (Hi' : (0 <= i + speed)%Z) by lia.
      cbn [echoed]. rewrite (IH (i + speed)%Z ks1 ev1 Hi' E), slice_chunk by lia.
      replace (Z.to_nat (i + speed)) with (Z.to_nat i + Z.to_nat speed) by lia.
      rewrite <- drop_drop. apply take_drop.
    + inversion H; subst. symmetry. apply drop_all. unfold Py.len in *. lia.
  - intros i ks' ev Hi H.
    destruct (Z_lt_ge_dec i (Py.len text)) as [Hlt|Hge].
    + exfalso.
      apply (typing_never_completes text speed ltac:(lia) ks i Hlt).
      now rewrite H.
    + assert (ev = []).
      { destruct ks; cbn [typing_keys] in H;
          destruct (Z.ltb_spec i (Py.len text)); try lia;
          inversion H; reflexivity. }
      subst. symmetry. apply drop_all. unfold Py.len in *. lia.
Qed.

(** How the wait for a return can end. *)
Lemma wait_for_keys_inv (ks : list string) :
  match wait_for_keys RETURNS ks with
  | (r, ks', ev) =>
      exists waits,
        Forall not_esc_nor_return waits
        /\ ((exists k, r = Ret k /\ is_in k RETURNS = true
                       /\ ev = (map EvKey waits
                                ++ [EvKey k; EvEcho EmptyString true])%list)
            \/ (r = Blocked /\ ev = map EvKey waits)
            \/ (r = Raise Abort
                /\ ev = (map EvKey waits
                         ++ [EvKey ESC; EvEcho EmptyString true])%list))
  end.
Proof.
  induction ks as [|k ks IH]; cbn [wait_for_keys].
  - exists []. split; [constructor|]. right. left. auto.
  - destruct (String.eqb_spec k ESC) as [->|Hne].
    + exists []. split; [constructor|]. right. right. auto.
    + destruct (is_in k RETURNS) eqn:Hin.
      * exists []. split; [constructor|]. left. exists k. auto.
      * destruct (wait_for_keys RETURNS ks) as [[r ks'] ev].
        destruct IH as (waits & Hw & H).
        exists (k :: waits). split; [constructor; [split|]; assumption|].
        cbn [map app].
        destruct H as [(k' & -> & Hk' & ->)|[[-> ->]|[-> ->]]]; eauto 6.
Qed.

(** The executor announces itself once, first, and reads no key. *)
Lemma run_command_events (cmd shell : string) (aliases envvars : list string)
    (t : bool) (s : state) :
  match run_command cmd shell aliases envvars t s with
  | (r, s', ev) =>
      exists tail,
        ev = EvRunCommand cmd shell aliases envvars :: tail
        /\ without is_run_command tail
        /\ without is_esc_key tail
  end.
Proof.
  unfold run_command, bind, emit.
  destruct (Py.startswith "cd " cmd).
  - destruct (Py.split cmd) as [|w [|d more]].
    + exists []. repeat split; constructor.
    + exists []. repeat split; constructor.
    + unfold change_directory.
      destruct (os_chdir _ (os s)); eexists; (split; [reflexivity|]);
        split; repeat constructor.
  - unfold with_NamedTemporaryFile, finally, run_script. cbn [os set_tmpfiles].
    destruct (spawn _ _ _ (os s)) as [[[status output]|] o'].
    + destruct t; [destruct (status =? 0)%Z|];
        eexists; (split; [reflexivity|]); split; repeat constructor.
    + eexists; (split; [reflexivity|]); split; repeat constructor.
Qed.

End Traces.

(** *** [magictype], [run_lines] and [run] *)

Section Playback.
Context {P : Platform}.

Lemma magictype_without_prompt (text shell template : string)
    (aliases envvars : list string) (speed : Z) (t : bool) (s : state)
    (r : result string) :
  make_prompt_formatter template s = (r, s, []) ->
  (forall p, r <> Ret p) ->
  exists r', magictype text shell template aliases envvars speed t s = (r', s, [])
             /\ forall v, r' <> Ret v.
Proof.
  intros Hp Hr. unfold magictype, bind at 1. rewrite Hp.
  destruct r as [p|e|].
  - now destruct (Hr p).
  - exists (Raise e). split; [reflexivity | discriminate].
  - exists Blocked. split; [reflexivity | discriminate].
Qed.

(** The events of one command, whatever its outcome. *)
Lemma magictype_events (text shell template : string)
    (aliases envvars : list string) (speed : Z) (t : bool) (s : state) :
  match magictype text shell template aliases envvars speed t s with
  | (r, s', ev) =>
      (ev = [] /\ forall v, r <> Ret v)
      \/ exists prompt typed,
          Forall not_esc typed
          /\ ((r = Blocked
               /\ ev = EvEcho (prompt ++ " ") false
                       :: keystroke_events text speed 0 typed)
              \/ (r = Raise Abort
                  /\ ev = (EvEcho (prompt ++ " ") false
                           :: keystroke_events text speed 0 typed
                           ++ [EvKey ESC; EvEcho EmptyString true])%list)
              \/ exists waits,
                  Forall not_esc_nor_return waits
                  /\ echoed (keystroke_events text speed 0 typed) = text
                  /\ ((r = Blocked
                       /\ ev = (EvEcho (prompt ++ " ") false
                                :: keystroke_events text speed 0 typed
                                ++ map EvKey waits)%list)
                      \/ (r = Raise Abort
                          /\ ev = (EvEcho (prompt ++ " ") false
                                   :: keystroke_events text speed 0 typed
                                   ++ map EvKey waits
                                   ++ [EvKey ESC; EvEcho EmptyString true])%list)
                      \/ exists k tail,
                          is_in k RETURNS = true
                          /\ without is_run_command tail
                          /\ without is_esc_key tail
                          /\ ev = ((EvEcho (prompt ++ " ") false
                                    :: keystroke_events text speed 0 typed
                                    ++ map EvKey waits
                                    ++ [EvKey k; EvEcho EmptyString true])
                                   ++ EvRunCommand text shell aliases envvars
                                   :: tail)%list))
  end.
Proof.
  destruct (make_prompt_formatter_pure template s) as [[p|e|] Hp].
  2: { destruct (magictype_without_prompt text shell template aliases envvars
                   speed t s _ Hp ltac:(discriminate)) as (r' & -> & Hr').
       left. auto. }
  2: { destruct (magictype_without_prompt text shell template aliases envvars
                   speed t s _ Hp ltac:(discriminate)) as (r' & -> & Hr').
       left. auto. }
  rewrite (magictype_after_prompt _ _ _ _ _ _ _ _ _ Hp).
  pose proof (typing_keys_inv text speed (keys s) 0) as Ht.
  destruct (typing_keys text speed 0 (keys s)) as [[r1 ks1] ev1] eqn:Et.
  destruct Ht as (typed & Hty & [[-> ->]|[[-> ->]|[-> ->]]]).
  2: { right. exists p, typed. auto. }
  2: { right. exists p, typed. auto. }
  pose proof (typing_keys_Ret_echoed text speed (keys s) 0 ks1 _ (Z.le_refl 0) Et)
    as Hecho.
  cbn [Z.to_nat Py.drop] in Hecho.
  pose proof (wait_for_keys_inv ks1) as Hw.
  destruct (wait_for_keys RETURNS ks1) as [[r2 ks2] ev2].
  destruct Hw as (waits & Hws & [(k & -> & Hk & ->)|[[-> ->]|[-> ->]]]).
  2: { right. exists p, typed. split; [assumption|]. right. right.
       exists waits. auto. }
  2: { right. exists p, typed. split; [assumption|]. right. right.
       exists waits. auto 6. }
  pose proof (run_command_events text shell aliases envvars t (set_keys ks2 s))
    as Hc.
  destruct (run_command text shell aliases envvars t (set_keys ks2 s))
    as [[r3 s3] ev3].
  destruct Hc as (tail & -> & Hn & He).
  right. exists p, typed. split; [assumption|]. right. right.
  exists waits. split; [assumption|]. split; [assumption|]. right. right.
  exists k, tail. repeat (split; [assumption|]).
  cbn [app]. now rewrite <- !app_assoc.
Qed.

Lemma magictype_executes (text shell template : string)
    (aliases envvars : list string) (speed : Z) (t : bool) (s : state) :
  executes_after_confirmation
    (magictype text shell template aliases envvars speed t s).
Proof.
  pose proof (magictype_events text shell template aliases envvars speed t s) as H.
  destruct (magictype text shell template aliases envvars speed t s)
    as [[r s'] ev].
  destruct H as [[-> _]|(p & typed & Hty & H)].
  { apply without_executes. constructor. }
  assert (Hk : without is_run_command
                 (EvEcho (p ++ " ") false :: keystroke_events text speed 0 typed))
    by (constructor; [reflexivity | apply keystroke_events_no_command]).
  destruct H as [[-> ->]|[[-> ->]|(waits & Hws & Hecho & H)]].
  { now apply without_executes. }
  { apply without_executes. rewrite app_comm_cons.
    apply without_app; [assumption | repeat constructor]. }
  assert (Hw : without is_run_command
                 (EvEcho (p ++ " ") false :: keystroke_events text speed 0 typed
                  ++ map EvKey waits)%list).
  { rewrite app_comm_cons. apply without_app; [assumption|].
    apply key_events_no_command. }
  destruct H as [[-> ->]|[[-> ->]|(k & tail & Hk' & Hn & He & ->)]].
  { now apply without_executes. }
  { apply without_executes. rewrite app_comm_cons, app_assoc.
    apply without_app; [assumption | repeat constructor]. }
  intros pre cmd sh al en post H.
  apply first_occurrence with (f := is_run_command) in H
      as (-> & Hcmd & _); try reflexivity; try assumption.
  - injection Hcmd as -> _ _ _.
    exists [], (EvEcho (p ++ " ") false :: keystroke_events text speed 0 typed
                ++ map EvKey waits ++ [EvKey k; EvEcho EmptyString true])%list.
    split; [reflexivity|].
    exists p, speed, typed, waits, k. auto.
  - rewrite app_comm_cons, app_assoc.
    apply without_app; [assumption | repeat constructor].
Qed.

Lemma magictype_aborts (text shell template : string)
    (aliases envvars : list string) (speed : Z) (t : bool) (s : state) :
  aborts_at_escape (magictype text shell template aliases envvars speed t s).
Proof.
  pose proof (magictype_events text shell template aliases envvars speed t s) as H.
  destruct (magictype text shell template aliases envvars speed t s)
    as [[r s'] ev].
  destruct H as [[-> _]|(p & typed & Hty & H)].
  { apply without_aborts. constructor. }
  assert (Hk : without is_esc_key
                 (EvEcho (p ++ " ") false :: keystroke_events text speed 0 typed))
    by (constructor; [reflexivity | now apply keystroke_events_no_escape]).
  assert (Hnl : without is_esc_key [EvEcho EmptyString true])
    by (repeat constructor).
  destruct H as [[-> ->]|[[-> ->]|(waits & Hws & Hecho & H)]].
  { now apply without_aborts. }
  { intros pre post H. rewrite app_comm_cons in H.
    apply first_occurrence with (f := is_esc_key) in H
        as (_ & _ & ->); auto. }
  assert (Hw : without is_esc_key
                 (EvEcho (p ++ " ") false :: keystroke_events text speed 0 typed
                  ++ map EvKey waits)%list).
  { rewrite app_comm_cons. apply without_app; [assumption|].
    now apply key_events_no_escape. }
  destruct H as [[-> ->]|[[-> ->]|(k & tail & Hk' & Hn & He & ->)]].
  { now apply without_aborts. }
  { intros pre post H. rewrite app_comm_cons, app_assoc in H.
    apply first_occurrence with (f := is_esc_key) in H
        as (_ & _ & ->); auto. }
  apply without_aborts.
  apply without_app; [|constructor; [reflexivity | assumption]].
  rewrite app_comm_cons, app_assoc.
  apply without_app; [assumption|].
  constructor; [|repeat constructor].
  cbn [is_esc_key]. apply String.eqb_neq. now apply return_not_esc.
Qed.

Lemma run_lines_executes (commands : list string) :
  forall (c : config) (t : bool) (s : state),
    executes_after_confirmation (run_lines commands c t s).
Proof.
  induction commands as [|line rest IH]; intros c t s.
  - apply without_executes. constructor.
  - destruct (is_command line) eqn:Hc.
    + rewrite run_lines_command by assumption.
      apply executes_bind; [apply magictype_executes | intros; apply IH].
    + destruct (directive_of line) as [[o a]|] eqn:Hd.
      * rewrite (run_lines_directive _ _ _ _ _ _ Hd).
        repeat match goal with
               | |- context [String.eqb o ?n] => destruct (String.eqb o n)
               end; try apply IH.
        destruct (Py.int a); [apply IH|].
        apply without_executes. constructor.
      * rewrite run_lines_ignored by assumption. apply IH.
Qed.

Lemma run_lines_aborts (commands : list string) :
  forall (c : config) (t : bool) (s : state),
    aborts_at_escape (run_lines commands c t s).
Proof.
  induction commands as [|line rest IH]; intros c t s.
  - apply without_aborts. constructor.
  - destruct (is_command line) eqn:Hc.
    + rewrite run_lines_command by assumption.
      apply aborts_bind; [apply magictype_aborts | intros; apply IH].
    + destruct (directive_of line) as [[o a]|] eqn:Hd.
      * rewrite (run_lines_directive _ _ _ _ _ _ Hd).
        repeat match goal with
               | |- context [String.eqb o ?n] => destruct (String.eqb o n)
               end; try apply IH.
        destruct (Py.int a); [apply IH|].
        apply without_aborts. constructor.
      * rewrite run_lines_ignored by assumption. apply IH.
Qed.

Lemma wait_for_executes (s : state) :
  executes_after_confirmation (wait_for RETURNS s).
Proof.
  unfold wait_for. pose proof (wait_for_keys_inv (keys s)) as H.
  destruct (wait_for_keys RETURNS (keys s)) as [[r ks] ev].
  destruct H as (waits & _ & [(k & _ & _ & ->)|[[_ ->]|[_ ->]]]);
    apply without_executes;
    try (apply without_app; [|repeat constructor]);
    apply key_events_no_command.
Qed.

Lemma wait_for_aborts (s : state) : aborts_at_escape (wait_for RETURNS s).
Proof.
  unfold wait_for. pose proof (wait_for_keys_inv (keys s)) as H.
  destruct (wait_for_keys RETURNS (keys s)) as [[r ks] ev].
  destruct H as (waits & Hw & [(k & -> & Hk & ->)|[[-> ->]|[-> ->]]]).
  - apply without_aborts. apply without_app; [now apply key_events_no_escape|].
    constructor; [|repeat constructor].
    cbn [is_esc_key]. apply String.eqb_neq. now apply return_not_esc.
  - apply without_aborts. now apply key_events_no_escape.
  - intros pre post H.
    apply first_occurrence with (f := is_esc_key) in H as (_ & _ & ->);
      auto; try (now apply key_events_no_escape); repeat constructor.
Qed.

(** The steps of [run] that neither read a key of the session nor call
    the executor. *)
Ltac quiet_step :=
  match goal with
  | |- _ (make_prompt_formatter ?t ?s) =>
      let r := fresh "r" in
      let H := fresh "H" in
      destruct (make_prompt_formatter_pure t s) as [r H]; rewrite H
  | |- _ (pause ?s) =>
      unfold pause; destruct (isatty (os s)); [destruct (keys s)|]
  | _ => unfold secho, echo, clear, emit
  end;
  first [ apply without_executes | apply without_aborts ];
  repeat constructor.

Lemma run_executes (commands : list string) (shell template : string)
    (speed : Z) (t : bool) (s : state) :
  executes_after_confirmation (run commands shell template speed t s).
Proof.
  unfold run.
  do 4 (apply executes_bind; [quiet_step | intros _ ? _ _]).
  apply executes_bind; [apply run_lines_executes | intros c ? _ _].
  apply executes_bind; [quiet_step | intros p ? _ _].
  apply executes_bind; [quiet_step | intros _ ? _ _].
  apply executes_bind; [apply wait_for_executes | intros _ ? _ _].
  quiet_step.
Qed.

Lemma run_aborts (commands : list string) (shell template : string)
    (speed : Z) (t : bool) (s : state) :
  aborts_at_escape (run commands shell template speed t s).
Proof.
  unfold run.
  do 4 (apply aborts_bind; [quiet_step | intros _ ? _ _]).
  apply aborts_bind; [apply run_lines_aborts | intros c ? _ _].
  apply aborts_bind; [quiet_step | intros p ? _ _].
  apply aborts_bind; [quiet_step | intros _ ? _ _].
  apply aborts_bind; [apply wait_for_aborts | intros _ ? _ _].
  quiet_step.
Qed.

(** C3.  In every playback, a command reaches the executor only at the
    end of a stretch of events in which its prompt was shown, its whole
    text was revealed by keystrokes and a return was read.  An escape
    read by the typing loop or while a return is awaited ends the
    playback with [click.Abort]: only the newline of [echo()] follows
    it, so neither that command nor any later instruction is executed. *)
Theorem playback_confirms_then_executes (commands : list string)
    (shell template : string) (speed : Z) (t : bool) (s s' : state)
    (r : result unit) (ev : list event) :
  run commands shell template speed t s = (r, s', ev) ->
  (forall pre cmd sh al en post,
      ev = (pre ++ EvRunCommand cmd sh al en :: post)%list ->
      exists before seg,
        pre = (before ++ seg)%list /\ shown_and_confirmed cmd seg)
  /\ (forall pre post,
        ev = (pre ++ EvKey ESC :: post)%list ->
        r = Raise Abort
        /\ post = [EvEcho EmptyString true]
        /\ without is_exec post).
Proof.
  intros H. split.
  - pose proof (run_executes commands shell template speed t s) as He.
    rewrite H in He. exact He.
  - pose proof (run_aborts commands shell template speed t s) as Ha.
    rewrite H in Ha. intros pre post Hev.
    destruct (Ha pre post Hev) as [-> ->].
    repeat split. repeat constructor.
Qed.

End Playback.

(** ** A script that is played to its end *)

Section Completed.
Context {P : Platform}.

Lemma filter_without (f : event -> bool) (ev : list event) :
  without f ev -> filter f ev = [].
Proof.
  induction 1 as [|e ev He _ IH]; cbn [filter]; [reflexivity|].
  now rewrite He.
Qed.

(** A command that was played to its end was handed to the executor
    once. *)
Lemma magictype_Ret_commands (text shell template : string)
    (aliases envvars : list string) (speed : Z) (t : bool) (s s' : state)
    (ev : list event) :
  magictype text shell template aliases envvars speed t s = (Ret tt, s', ev) ->
  filter is_run_command ev = [EvRunCommand text shell aliases envvars].
Proof.
  intros H.
  pose proof (magictype_events text shell template aliases envvars speed t s) as He.
  rewrite H in He.
  destruct He as [[_ Hr]|(p & typed & Hty & He)]; [now destruct (Hr tt)|].
  destruct He as [[? _]|[[? _]|(waits & Hws & _ & He)]]; try discriminate.
  destruct He as [[? _]|[[? _]|(k & tail & _ & Hn & _ & ->)]]; try discriminate.
  rewrite filter_app. cbn [filter is_run_command].
  rewrite (filter_without _ tail Hn).
  rewrite filter_without; [reflexivity|].
  apply without_app; [apply keystroke_events_no_command|].
  apply without_app; [apply key_events_no_command | repeat constructor].
Qed.

Lemma run_lines_Ret_commands (lines : list string) :
  forall (c c1 : config) (t : bool) (s s1 : state) (ev : list event),
    run_lines lines c t s = (Ret c1, s1, ev) ->
    filter is_run_command ev = planned_commands lines c.
Proof.
  induction lines as [|line rest IH]; intros c c1 t s s1 ev H;
    cbn [planned_commands].
  - inversion H. reflexivity.
  - destruct (is_command line) eqn:Hc.
    + rewrite run_lines_command in H by assumption.
      apply bind_inv_Ret in H as ([] & s2 & e1 & e2 & Hm & Hr & ->).
      rewrite filter_app, (magictype_Ret_commands _ _ _ _ _ _ _ _ _ _ Hm).
      cbn [app]. f_equal. eapply IH; eassumption.
    + destruct (directive_of line) as [[o a]|] eqn:Hd.
      * rewrite (run_lines_directive _ _ _ _ _ _ Hd) in H.
        unfold apply_directive.
        repeat match goal with
               | |- context [String.eqb o ?n] => destruct (String.eqb o n)
               end; try (eapply IH; eassumption).
        destruct (Py.int a); [eapply IH; eassumption | discriminate].
      * rewrite run_lines_ignored in H by assumption.
        eapply IH; eassumption.
Qed.

(** The steps of [run] and of [record] that do not call the executor. *)
Lemma emit_quiet (e : event) (s s' : state) (r : result unit) (ev : list event) :
  is_run_command e = false ->
  emit e s = (r, s', ev) -> without is_run_command ev.
Proof. intros He H. inversion H; subst. repeat constructor. exact He. Qed.

Lemma secho_quiet (text : string) (k : Click.style_args) (s s' : state)
    (r : result unit) (ev : list event) :
  secho text k s = (r, s', ev) -> without is_run_command ev.
Proof. apply emit_quiet. reflexivity. Qed.

Lemma echo_quiet (text : string) (s s' : state) (r : result unit)
    (ev : list event) :
  echo text s = (r, s', ev) -> without is_run_command ev.
Proof. apply emit_quiet. reflexivity. Qed.

Lemma clear_quiet (s s' : state) (r : result unit) (ev : list event) :
  clear s = (r, s', ev) -> without is_run_command ev.
Proof. apply emit_quiet. reflexivity. Qed.

Lemma pause_quiet (s s' : state) (r : result unit) (ev : list event) :
  pause s = (r, s', ev) -> without is_run_command ev.
Proof.
  unfold pause. destruct (isatty (os s)); [destruct (keys s)|];
    intros H; inversion H; repeat constructor.
Qed.

Lemma prompt_quiet (template : string) (s s' : state) (r : result string)
    (ev : list event) :
  make_prompt_formatter template s = (r, s', ev) -> without is_run_command ev.
Proof.
  destruct (make_prompt_formatter_pure template s) as [r0 ->].
  intros H. inversion H. constructor.
Qed.

Lemma wait_for_quiet (s s' : state) (r : result string) (ev : list event) :
  wait_for RETURNS s = (r, s', ev) -> without is_run_command ev.
Proof.
  unfold wait_for. pose proof (wait_for_keys_inv (keys s)) as H.
  destruct (wait_for_keys RETURNS (keys s)) as [[r0 ks] ev0].
  intros Heq. injection Heq as _ _ <-.
  destruct H as (waits & _ & [(k & _ & _ & ->)|[[_ ->]|[_ ->]]]);
    try (apply without_app; [|repeat constructor]);
    apply key_events_no_command.
Qed.

Ltac quiet_lemma :=
  first [ eapply secho_quiet; eassumption
        | eapply echo_quiet; eassumption
        | eapply clear_quiet; eassumption
        | eapply pause_quiet; eassumption
        | eapply prompt_quiet; eassumption
        | eapply wait_for_quiet; eassumption
        | eapply emit_quiet; [| eassumption]; reflexivity ].

(** Splits a sequence that returned a value at its first step, a step
    that does not call the executor. *)
Ltac skip_quiet H :=
  let Hq := fresh "Hq" in
  apply bind_inv_Ret in H as (? & ? & ? & ? & Hq & H & ->);
  rewrite filter_app;
  erewrite (filter_without is_run_command) by quiet_lemma;
  cbn [app].

Lemma run_Ret_commands (commands : list string) (shell template : string)
    (speed : Z) (t : bool) (s s' : state) (ev : list event) :
  run commands shell template speed t s = (Ret tt, s', ev) ->
  filter is_run_command ev
  = planned_commands commands
      {| cfg_shell := shell; cfg_prompt_template := template;
         cfg_aliases := []; cfg_envvars := []; cfg_speed := speed |}.
Proof.
  intros H. unfold run in H.
  do 4 skip_quiet H.
  apply bind_inv_Ret in H as (c & s5 & e1 & e2 & Hl & H & ->).
  rewrite filter_app, (run_lines_Ret_commands _ _ _ _ _ _ _ Hl).
  do 3 skip_quiet H.
  erewrite (filter_without is_run_command) by quiet_lemma.
  now rewrite app_nil_r.
Qed.

End Completed.

(** ** Recording, then playing *)

Section RoundTrip.
Context {P : Platform}.

Lemma emit_inv (e : event) (s s' : state) (r : result unit) (ev : list event) :
  emit e s = (r, s', ev) -> r = Ret tt /\ s' = s /\ ev = [e].
Proof. intros H. inversion H. auto. Qed.

Lemma pause_stdin (s s' : state) (r : result unit) (ev : list event) :
  pause s = (r, s', ev) -> stdin s' = stdin s.
Proof.
  unfold pause. destruct (isatty (os s)); [destruct (keys s)|];
    intros H; inversion H; reflexivity.
Qed.

(** The executor reads nothing: neither keys nor lines. *)
Lemma run_command_input (cmd shell : string) (aliases envvars : list string)
    (t : bool) (s s' : state) (r : result (option Z)) (ev : list event) :
  run_command cmd shell aliases envvars t s = (r, s', ev) ->
  stdin s' = stdin s /\ keys s' = keys s.
Proof.
  unfold run_command, bind, emit.
  destruct (Py.startswith "cd " cmd).
  - destruct (Py.split cmd) as [|w [|d more]];
      try (intros H; inversion H; auto).
    unfold change_directory in *.
    destruct (os_chdir _ (os s)); inversion H1; auto.
  - unfold with_NamedTemporaryFile, finally, run_script. cbn [os set_tmpfiles].
    destruct (spawn _ _ _ (os s)) as [[[status output]|] o'];
      [destruct t; [destruct (status =? 0)%Z|]|];
      intros H; inversion H; auto.
Qed.

(** One turn of the recorder on a line that is a command. *)
Lemma recorder_turn_command (fuel : nat) (shell prompt : string)
    (aliases envvars acc : list string) (s s' : state) (line : string)
    (rest cmds : list string) (ev : list event) :
  stdin s = line :: rest ->
  Py.truthy line = true ->
  String.eqb (Py.strip line) STOP_COMMAND = false ->
  String.eqb (Py.strip line) PREVIEW_COMMAND = false ->
  String.eqb (Py.strip line) UNDO_COMMAND = false ->
  run_recorder_loop (S fuel) shell prompt aliases envvars acc s
  = (Ret cmds, s', ev) ->
  exists s2 ev2,
    stdin s2 = rest
    /\ run_recorder_loop fuel shell prompt aliases envvars
         (acc ++ [Py.strip line])%list s2
       = (Ret cmds, s', ev2).
Proof.
  intros Hin Hline H1 H2 H3 H. cbn [run_recorder_loop] in H.
  destruct (themes_get THEMES prompt) as [tpl|]; [|discriminate].
  apply bind_inv_Ret in H as (p & s1 & e1 & e2 & Hp & H & ->).
  destruct (format_prompt_pure tpl s) as [r Hr]. rewrite Hr in Hp.
  injection Hp as _ <- _.
  apply bind_inv_Ret in H as (l & s2 & e3 & e4 & Hl & H & ->).
  unfold click_prompt in Hl. rewrite Hin in Hl.
  cbn [prompt_lines] in Hl. rewrite Hline in Hl.
  injection Hl as <- <- _.
  rewrite H1, H2, H3 in H.
  apply bind_inv_Ret in H as (v & s3 & e5 & e6 & Hc & H & ->).
  apply run_command_input in Hc as [Hc _].
  exists s3, e6. split; [now rewrite Hc | exact H].
Qed.

(** The turn of the recorder on the stop command. *)
Lemma recorder_turn_stop (fuel : nat) (shell prompt : string)
    (aliases envvars acc : list string) (s s' : state) (line : string)
    (rest cmds : list string) (ev : list event) :
  stdin s = line :: rest ->
  Py.truthy line = true ->
  String.eqb (Py.strip line) STOP_COMMAND = true ->
  run_recorder_loop (S fuel) shell prompt aliases envvars acc s
  = (Ret cmds, s', ev) ->
  cmds = acc.
Proof.
  intros Hin Hline H1 H. cbn [run_recorder_loop] in H.
  destruct (themes_get THEMES prompt) as [tpl|]; [|discriminate].
  apply bind_inv_Ret in H as (p & s1 & e1 & e2 & Hp & H & ->).
  destruct (format_prompt_pure tpl s) as [r Hr]. rewrite Hr in Hp.
  injection Hp as _ <- _.
  apply bind_inv_Ret in H as (l & s2 & e3 & e4 & Hl & H & ->).
  unfold click_prompt in Hl. rewrite Hin in Hl.
  cbn [prompt_lines] in Hl. rewrite Hline in Hl.
  injection Hl as <- <- _.
  rewrite H1 in H. inversion H. reflexivity.
Qed.

(** A step of [record] that returns and leaves the lines to come. *)
Ltac pass_step H Hin :=
  let Hq := fresh "Hq" in
  let Hs := fresh "Hs" in
  apply bind_inv_Ret in H as (? & ? & ? & ? & Hq & H & ->);
  apply in_or_app; right;
  first [ apply emit_inv in Hq as (_ & Hs & _); subst
        | apply pause_stdin in Hq as Hs; rewrite <- Hs in Hin ].

(** C8.  The operator records [ls], [pwd] and stops, with the shell
    [/bin/bash] and the prompt [default], into a file that did not
    exist.  Then the file that [record] writes holds the header and the
    two commands; and every playback of that text that reaches its end,
    whatever shell, prompt and speed the player is started with, hands
    to the executor exactly [ls] and then [pwd], both with the shell
    [/bin/bash] that the header names. *)
Theorem record_then_play_ls_pwd (session_file : string) (more : list string)
    (s0 s1 : state) (ev : list event) :
  os_path_exists session_file (os s0) = false ->
  stdin s0 = "ls" :: "pwd" :: "stop" :: more ->
  record session_file "/bin/bash" "default" [] [] s0 = (Ret tt, s1, ev) ->
  In (EvWriteFile session_file
        (session_text "/bin/bash" "default" [] [] ["ls"; "pwd"])) ev
  /\ readlines (session_text "/bin/bash" "default" [] [] ["ls"; "pwd"])
     = [ "# Recorded with the doitlive recorder" ++ NL;
         "#doitlive shell: /bin/bash" ++ NL;
         "#doitlive prompt: default" ++ NL;
         NL; "ls" ++ NL; NL; "pwd" ++ NL ]
  /\ forall shell speed prompt s s' ev',
      play (session_text "/bin/bash" "default" [] [] ["ls"; "pwd"])
           shell speed prompt s = (Ret tt, s', ev') ->
      filter is_run_command ev'
      = [ EvRunCommand "ls" "/bin/bash" [] [];
          EvRunCommand "pwd" "/bin/bash" [] [] ].
Proof.
  intros Hnew Hin H. split; [|split; [reflexivity|]].
  - unfold record in H.
    apply bind_inv_Ret in H as (? & ? & ? & ? & Hq & H & ->).
    rewrite Hnew in Hq. injection Hq as _ <- _.
    apply in_or_app; right.
    do 10 pass_step H Hin.
    apply bind_inv_Ret in H as (cwd & ? & ? & ? & Hcwd & H & ->).
    injection Hcwd as _ <- _. apply in_or_app; right.
    apply bind_inv_Ret in H as (commands & s2 & e1 & e2 & Hr & H & ->).
    apply in_or_app; right.
    assert (Hc : commands = ["ls"; "pwd"]).
    { unfold run_recorder in Hr. rewrite Hin in Hr.
      cbn [List.length] in Hr.
      apply recorder_turn_command with (line := "ls") (rest := "pwd" :: "stop" :: more)
        in Hr as (s3 & e3 & Hin3 & Hr); try reflexivity; try assumption.
      apply recorder_turn_command with (line := "pwd") (rest := "stop" :: more)
        in Hr as (s4 & e4 & Hin4 & Hr); try reflexivity; try assumption.
      apply recorder_turn_stop with (line := "stop") (rest := more) in Hr;
        try reflexivity; try assumption. }
    subst commands.
    apply bind_inv_Ret in H as (? & ? & ? & ? & _ & H & ->).
    apply in_or_app; right.
    apply bind_inv_Ret in H as (? & ? & ? & ? & _ & H & ->).
    apply in_or_app; right.
    apply bind_inv_Ret in H as (? & ? & ? & ? & _ & H & ->).
    apply in_or_app; right.
    apply bind_inv_Ret in H as (? & ? & ? & ? & Hw & H & ->).
    apply emit_inv in Hw as (_ & _ & ->). now left.
  - intros shell speed prompt s s' ev' Hplay. unfold play in Hplay.
    rewrite (run_Ret_commands _ _ _ _ _ _ _ _ Hplay). reflexivity.
Qed.

End RoundTrip.

(** ** Changing directory during a playback *)

Section DirectoryChange.
Context {P : Platform}.

Lemma rstrip_cons (c : ascii) (s : string) :
  Py.rstrip (String c s)
  = match Py.rstrip s with
    | EmptyString =>
        if Py.is_space c then EmptyString else String c EmptyString
    | r => String c r
    end.
Proof. reflexivity. Qed.

Lemma rstrip_idempotent (s : string) : Py.rstrip (Py.rstrip s) = Py.rstrip s.
Proof.
  induction s as [|c s IH]; [reflexivity|].
  rewrite rstrip_cons.
  destruct (Py.rstrip s) as [|d r] eqn:E.
  - destruct (Py.is_space c) eqn:Hc; [reflexivity|].
    rewrite rstrip_cons. cbn [Py.rstrip]. now rewrite Hc.
  - rewrite rstrip_cons, IH. reflexivity.
Qed.

Lemma rstrip_suffix (a b : string) :
  Py.rstrip (a ++ b) = a ++ b -> Py.rstrip b = b.
Proof.
  induction a as [|c a IH]; [exact (fun H => H)|].
  change (String c a ++ b) with (String c (a ++ b)). rewrite rstrip_cons.
  destruct (Py.rstrip (a ++ b)) as [|d r] eqn:E.
  - destruct (Py.is_space c); [discriminate|].
    intros H. injection H as H.
    destruct a; [|discriminate]. cbn [append] in *. now subst.
  - intros H. injection H as H. apply IH. exact H.
Qed.

Lemma lstrip_suffix (s : string) : exists a, s = a ++ Py.lstrip s.
Proof.
  induction s as [|c s [a IH]]; cbn [Py.lstrip].
  - now exists EmptyString.
  - destruct (Py.is_space c).
    + exists (String c a). cbn [append]. now rewrite <- IH.
    + now exists EmptyString.
Qed.

(** A stripped text does not end in white space. *)
Lemma strip_rstrip (s : string) : Py.rstrip (Py.strip s) = Py.strip s.
Proof.
  unfold Py.strip.
  destruct (lstrip_suffix (Py.rstrip s)) as [a Ha].
  apply (rstrip_suffix a). rewrite <- Ha. apply rstrip_idempotent.
Qed.

Lemma prefix_inv (p s : string) :
  String.prefix p s = true -> exists r, s = p ++ r.
Proof.
  revert s. induction p as [|c p IH]; intros s H.
  - now exists s.
  - destruct s as [|d s]; cbn [String.prefix] in H; [discriminate|].
    destruct (ascii_dec c d) as [->|]; [|discriminate].
    destruct (IH s H) as [r ->]. now exists r.
Qed.

Lemma split_from_word (w r : string) :
  w <> EmptyString -> Py.split_from w r <> [].
Proof.
  revert w. induction r as [|c r IH]; intros w Hw; cbn [Py.split_from].
  - destruct w; [congruence | discriminate].
  - destruct (Py.is_space c).
    + destruct w; [congruence | discriminate].
    + apply IH. now destruct w.
Qed.

Lemma split_from_text (r : string) :
  all_space r = false -> forall w, Py.split_from w r <> [].
Proof.
  induction r as [|c r IH]; cbn [all_space Py.split_from]; [discriminate|].
  intros H w. destruct (Py.is_space c); cbn [andb] in H.
  - destruct w; [now apply IH | discriminate].
  - apply split_from_word. now destruct w.
Qed.

(** The lines that [run] and the recorder hand to the executor are
    stripped, so a [cd] among them has a second word: [IndexError] is
    not raised there. *)
Lemma stripped_cd_has_directory (line : string) :
  Py.startswith "cd " (Py.strip line) = true ->
  exists directory more, Py.split (Py.strip line) = "cd" :: directory :: more.
Proof.
  intros H. pose proof (strip_rstrip line) as Hr.
  apply prefix_inv in H as [r Ht]. rewrite Ht in *.
  assert (Hs : all_space r = false).
  { destruct (all_space r) eqn:E; [|reflexivity].
    change ("cd " ++ r) with ("cd" ++ String " " r) in Hr.
    rewrite rstrip_app_all_space in Hr by (cbn [all_space]; now rewrite E).
    discriminate Hr. }
  unfold Py.split. cbn.
  destruct (Py.split_from EmptyString r) as [|d more] eqn:E.
  - now destruct (split_from_text r Hs EmptyString).
  - now exists d, more.
Qed.

(** A [cd] that fails during a playback: the warning is printed and the
    next line is played in the state in which only the keys read are
    gone. *)
Lemma playback_continues_after_failed_cd (line : string) (rest : list string)
    (c : config) (t : bool) (s : state) (prompt : string)
    (typed waits : list string) (r : string) (ks : list string)
    (word directory : string) (more : list string) :
  Py.startswith "cd " (Py.strip line) = true ->
  Py.split (Py.strip line) = word :: directory :: more ->
  os_chdir (expanduser (os s) directory) (os s) = None ->
  (1 <= cfg_speed c)%Z ->
  make_prompt_formatter (cfg_prompt_template c) s = (Ret prompt, s, []) ->
  Forall not_esc typed ->
  Z.of_nat (List.length typed) = ceil_div (Py.len (Py.strip line)) (cfg_speed c) ->
  Forall not_esc_nor_return waits ->
  is_in r RETURNS = true ->
  keys s = (typed ++ waits ++ r :: ks)%list ->
  run_lines (line :: rest) c t s
  = match run_lines rest c t (set_keys ks s) with
    | (res, s', ev) =>
        (res, s',
         ((EvEcho (prompt ++ " ") false
           :: keystroke_events (Py.strip line) (cfg_speed c) 0 typed
           ++ (map EvKey waits ++ [EvKey r; EvEcho EmptyString true])
           ++ [EvRunCommand (Py.strip line) (cfg_shell c) (cfg_aliases c)
                 (cfg_envvars c);
               EvEcho ("No such file or directory: " ++ directory) true])
          ++ ev)%list)
    end.
Proof.
  intros Hcd Hsplit Hfail Hs Hp Hk Hn Hw Hr Hkeys.
  assert (Hc : is_command line = true).
  { unfold is_command. apply prefix_inv in Hcd as [x ->]. reflexivity. }
  rewrite run_lines_command by assumption.
  unfold bind at 1.
  rewrite (magictype_confirmed _ _ _ _ _ _ _ _ _ _ _ _ _ Hs Hp Hk Hn Hw Hr Hkeys).
  rewrite (run_command_cd_outcome _ _ _ _ _ _ _ _ _ Hcd Hsplit).
  cbn [os set_keys]. rewrite Hfail. cbn [discard].
  destruct (run_lines rest c t (set_keys ks s)) as [[res s'] ev].
  reflexivity.
Qed.

End DirectoryChange.

(** ** The shape of a directive *)

Section DirectiveShape.
Context {P : Platform}.

Lemma literal_inv (p s r : string) :
  OptionRE.literal p s = Some r -> s = p ++ r.
Proof.
  unfold OptionRE.literal. destruct (String.prefix p s) eqn:E; [|discriminate].
  intros [= <-]. apply prefix_inv in E as [x ->]. now rewrite drop_app.
Qed.

Lemma opt_space_split (r : string) :
  exists g, r = g ++ OptionRE.opt_space r /\ at_most_one_space g = true.
Proof.
  destruct r as [|c r]; [now exists EmptyString|].
  cbn [OptionRE.opt_space]. destruct (Py.is_space c) eqn:E.
  - exists (String c EmptyString). split; [reflexivity | exact E].
  - now exists EmptyString.
Qed.

Lemma lstrip_split (s : string) :
  exists a, s = a ++ Py.lstrip s /\ all_space a = true.
Proof.
  induction s as [|c s (a & Ha & Hs)]; [now exists EmptyString|].
  cbn [Py.lstrip]. destruct (Py.is_space c) eqn:E.
  - exists (String c a). cbn [append all_space]. rewrite E, Hs.
    split; [now rewrite <- Ha | reflexivity].
  - now exists EmptyString.
Qed.

Lemma spaces1_inv (s r : string) :
  OptionRE.spaces1 s = Some r ->
  exists g, s = g ++ r /\ all_space g = true /\ g <> EmptyString.
Proof.
  destruct s as [|c s]; [discriminate|]. cbn [OptionRE.spaces1].
  destruct (Py.is_space c) eqn:E; [|discriminate]. intros [= <-].
  destruct (lstrip_split s) as (a & Ha & Hs).
  exists (String c a). cbn [append all_space]. rewrite E, Hs.
  repeat split; [now rewrite <- Ha | discriminate].
Qed.

Lemma dot_plus_end_inv (s : string) :
  forall a,
    OptionRE.dot_plus_end s = Some a ->
    a <> EmptyString /\ free_of OptionRE.LF a = true /\ (s = a \/ s = a ++ NL).
Proof.
  induction s as [|c s IH]; intros a; [discriminate|].
  cbn [OptionRE.dot_plus_end].
  destruct (Ascii.eqb c OptionRE.LF) eqn:Ec; [discriminate|].
  destruct s as [|d s].
  - intros [= <-]. cbn [free_of]. rewrite Ec. repeat split; [discriminate | now left].
  - destruct s as [|e s].
    + destruct (Ascii.eqb d OptionRE.LF) eqn:Ed; intros [= <-];
        cbn [free_of]; rewrite Ec, ?Ed;
        (repeat split; [discriminate|]).
      * right. apply Ascii.eqb_eq in Ed. now subst d.
      * now left.
    + destruct (OptionRE.dot_plus_end (String d (String e s))) as [a'|] eqn:E;
        [|discriminate].
      cbn [option_map]. intros [= <-].
      destruct (IH a' eq_refl) as (_ & Hf & Hs).
      cbn [free_of]. rewrite Ec, Hf.
      repeat split; [discriminate|].
      destruct Hs as [Hs|Hs]; rewrite Hs; [now left | now right].
Qed.

Lemma dot_plus_end_cons (c : ascii) (s : string) :
  OptionRE.dot_plus_end (String c s)
  = if Ascii.eqb c OptionRE.LF then None
    else match s with
         | EmptyString => Some (String c EmptyString)
         | String d EmptyString =>
             if Ascii.eqb d OptionRE.LF then Some (String c EmptyString)
             else Some (String c (String d EmptyString))
         | _ => option_map (String c) (OptionRE.dot_plus_end s)
         end.
Proof. destruct s as [|d [|e s]]; reflexivity. Qed.

Lemma dot_plus_end_line (a : string) :
  a <> EmptyString -> free_of OptionRE.LF a = true ->
  OptionRE.dot_plus_end a = Some a /\ OptionRE.dot_plus_end (a ++ NL) = Some a.
Proof.
  induction a as [|c a IH]; [congruence|]. intros _ Hf.
  cbn [free_of] in Hf. apply andb_prop in Hf as [Hc Hf].
  apply negb_true_iff in Hc.
  destruct a as [|d a].
  - split; [rewrite dot_plus_end_cons, Hc; reflexivity|].
    change (String c EmptyString ++ NL)
      with (String c (String OptionRE.LF EmptyString)).
    rewrite dot_plus_end_cons, Hc. reflexivity.
  - destruct (IH ltac:(discriminate) Hf) as [IH1 IH2].
    assert (Hd : Ascii.eqb d OptionRE.LF = false).
    { cbn [free_of] in Hf. apply andb_prop in Hf as [Hd _].
      now apply negb_true_iff in Hd. }
    split.
    + rewrite dot_plus_end_cons, Hc.
      destruct a as [|e a]; [now rewrite Hd|]. now rewrite IH1.
    + change (String c (String d a) ++ NL) with (String c (String d a ++ NL)).
      rewrite dot_plus_end_cons, Hc, IH2.
      destruct a; reflexivity.
Qed.

Lemma spaces_then_arg_inv (s : string) :
  forall a,
    OptionRE.spaces_then_arg s = Some a ->
    exists ws tail,
      s = ws ++ a ++ tail /\ all_space ws = true
      /\ (tail = EmptyString \/ tail = NL)
      /\ a <> EmptyString /\ free_of OptionRE.LF a = true.
Proof.
  assert (Hdot : forall s a,
             OptionRE.dot_plus_end s = Some a ->
             exists ws tail,
               s = ws ++ a ++ tail /\ all_space ws = true
               /\ (tail = EmptyString \/ tail = NL)
               /\ a <> EmptyString /\ free_of OptionRE.LF a = true).
  { intros s0 a H. apply dot_plus_end_inv in H as (Hne & Hf & [->| ->]).
    - exists EmptyString, EmptyString. rewrite sapp_nil_r. auto.
    - exists EmptyString, NL. auto. }
  induction s as [|c s IH]; intros a; [discriminate|].
  cbn [OptionRE.spaces_then_arg].
  destruct (Py.is_space c) eqn:E; [|apply Hdot].
  destruct (OptionRE.spaces_then_arg s) as [a'|] eqn:Es; [|apply Hdot].
  intros [= <-]. destruct (IH a' eq_refl) as (ws & tail & -> & Hw & Ht & Hne & Hf).
  exists (String c ws), tail. cbn [append all_space]. rewrite E, Hw. auto.
Qed.

Lemma alternatives_inv (names : list string) (s o a : string) :
  OptionRE.alternatives names s = Some (o, a) ->
  In o names
  /\ exists r, s = o ++ ":" ++ r /\ OptionRE.spaces_then_arg r = Some a.
Proof.
  induction names as [|name names IH]; [discriminate|].
  cbn [OptionRE.alternatives].
  destruct (OptionRE.literal (name ++ ":") s) as [r|] eqn:El.
  - destruct (OptionRE.spaces_then_arg r) as [a'|] eqn:Ea.
    + intros [= <- <-]. split; [now left|].
      exists r. split; [|exact Ea].
      apply literal_inv in El. now rewrite El, sapp_assoc.
    + intros H. destruct (IH H) as [Hin Hr]. split; [now right | exact Hr].
  - intros H. destruct (IH H) as [Hin Hr]. split; [now right | exact Hr].
Qed.

Lemma re_match_head (c : ascii) (r : string) (oa : string * string) :
  OptionRE.re_match (String c r) = Some oa -> c = "#"%char.
Proof.
  destruct c as [[] [] [] [] [] [] [] []]; intros H;
    try reflexivity; discriminate H.
Qed.

(** The parts of a text that matches [OPTION_RE]. *)
Lemma re_match_inv (command o a : string) :
  OptionRE.re_match command = Some (o, a) ->
  exists gap0 gap1 r,
    command = "#" ++ gap0 ++ "doitlive" ++ gap1 ++ o ++ ":" ++ r
    /\ at_most_one_space gap0 = true
    /\ all_space gap1 = true /\ gap1 <> EmptyString
    /\ In o OptionRE.option_names
    /\ OptionRE.spaces_then_arg r = Some a.
Proof.
  destruct command as [|c r]; [discriminate|]. intros H.
  pose proof (re_match_head _ _ _ H) as ->.
  rewrite re_match_hash in H.
  destruct (OptionRE.literal "doitlive" (OptionRE.opt_space r)) as [r1|] eqn:E1;
    [|discriminate].
  destruct (OptionRE.spaces1 r1) as [r2|] eqn:E2; [|discriminate].
  apply alternatives_inv in H as (Hin & r3 & -> & Ha).
  apply spaces1_inv in E2 as (g1 & -> & Hg1 & Hne).
  apply literal_inv in E1.
  destruct (opt_space_split r) as (g0 & Hr & Hg0).
  exists g0, g1, r3. repeat split; try assumption.
  rewrite Hr, E1. reflexivity.
Qed.

Lemma spaces_then_arg_app (ws x a : string) :
  all_space ws = true ->
  OptionRE.spaces_then_arg x = Some a ->
  OptionRE.spaces_then_arg (ws ++ x) = Some a.
Proof.
  intros Hw Hx. induction ws as [|c ws IH]; [exact Hx|].
  cbn [all_space] in Hw. apply andb_prop in Hw as [Hc Hw].
  cbn [append OptionRE.spaces_then_arg]. now rewrite Hc, (IH Hw).
Qed.

Lemma spaces_then_arg_None (s : string) :
  OptionRE.spaces_then_arg s = None -> OptionRE.dot_plus_end s = None.
Proof.
  destruct s as [|c s]; [reflexivity|]. cbn [OptionRE.spaces_then_arg].
  destruct (Py.is_space c); [|trivial].
  now destruct (OptionRE.spaces_then_arg s).
Qed.

Lemma rstrip_kept_cons (c : ascii) (s : string) :
  Py.rstrip (String c s) = String c s ->
  Py.rstrip s = s /\ (s = EmptyString -> Py.is_space c = false).
Proof.
  rewrite rstrip_cons. destruct (Py.rstrip s) as [|x r] eqn:E.
  - destruct (Py.is_space c); [discriminate|]. intros [= <-]. now split.
  - intros [= <-]. split; [reflexivity | discriminate].
Qed.

(** A text that does not match [.+$] and ends in a character that is
    not white space holds a newline before its end, so no longer text
    that ends in it matches either. *)
Lemma dot_plus_end_None_cons (c : ascii) (s : string) :
  s <> EmptyString -> Py.rstrip s = s ->
  OptionRE.dot_plus_end s = None ->
  OptionRE.dot_plus_end (String c s) = None.
Proof.
  intros Hne Hr Hn. rewrite dot_plus_end_cons.
  destruct (Ascii.eqb c OptionRE.LF); [reflexivity|].
  destruct s as [|d s]; [congruence|].
  destruct s as [|e s]; [|now rewrite Hn].
  rewrite dot_plus_end_cons in Hn.
  destruct (Ascii.eqb d OptionRE.LF) eqn:Ed; [|discriminate].
  apply Ascii.eqb_eq in Ed. subst d. discriminate Hr.
Qed.

(** On a text with no white space at its end, the value that
    [OPTION_RE] reads is all that follows the white space at the
    head. *)
Lemma spaces_then_arg_greedy (r : string) :
  forall a,
    Py.rstrip r = r ->
    OptionRE.spaces_then_arg r = Some a -> a = Py.lstrip r.
Proof.
  induction r as [|c r IH]; intros a Hr; [discriminate|].
  cbn [OptionRE.spaces_then_arg Py.lstrip].
  destruct (rstrip_kept_cons _ _ Hr) as [Hr' Hlast].
  destruct (Py.is_space c) eqn:E.
  - destruct (OptionRE.spaces_then_arg r) as [a'|] eqn:Ea.
    + intros [= <-]. now apply IH.
    + intros H. exfalso.
      assert (Hne : r <> EmptyString) by (intros ->; now specialize (Hlast eq_refl)).
      apply spaces_then_arg_None in Ea.
      rewrite (dot_plus_end_None_cons c r Hne Hr' Ea) in H. discriminate.
  - intros H. apply dot_plus_end_inv in H as (_ & _ & [H|H]); [congruence|].
    exfalso. rewrite H in Hr. apply rstrip_suffix in Hr. discriminate Hr.
Qed.

Lemma lstrip_idempotent (s : string) : Py.lstrip (Py.lstrip s) = Py.lstrip s.
Proof.
  induction s as [|c s IH]; [reflexivity|]. cbn [Py.lstrip].
  destruct (Py.is_space c) eqn:E; [exact IH|]. cbn [Py.lstrip]. now rewrite E.
Qed.

Lemma rstrip_lstrip (s : string) :
  Py.rstrip s = s -> Py.rstrip (Py.lstrip s) = Py.lstrip s.
Proof.
  intros H. destruct (lstrip_suffix s) as [a Ha].
  rewrite Ha in H at 1. rewrite Ha in H at 2. now apply rstrip_suffix in H.
Qed.

Lemma option_name_head (o : string) (x : string) :
  In o OptionRE.option_names ->
  exists c rest, o ++ x = String c rest /\ Py.is_space c = false.
Proof.
  intros H. apply option_name_cases in H.
  destruct H as [->|[->|[->|[->| ->]]]]; eexists _, _; split; reflexivity.
Qed.

Lemma alternatives_hit (o r a : string) :
  In o OptionRE.option_names ->
  OptionRE.spaces_then_arg r = Some a ->
  OptionRE.alternatives OptionRE.option_names (o ++ ":" ++ r) = Some (o, a).
Proof.
  intros H Ha. apply option_name_cases in H.
  assert (Hhit : forall name rest,
             OptionRE.alternatives (name :: rest) ((name ++ ":") ++ r)
             = Some (name, a)).
  { intros name rest. cbn [OptionRE.alternatives].
    now rewrite literal_app, Ha. }
  assert (Hmiss : forall name rest x,
             String.prefix (name ++ ":") x = false ->
             OptionRE.alternatives (name :: rest) x
             = OptionRE.alternatives rest x).
  { intros name rest x Hx. cbn [OptionRE.alternatives].
    unfold OptionRE.literal. now rewrite Hx. }
  unfold OptionRE.option_names.
  destruct H as [->|[->|[->|[->| ->]]]].
  - exact (Hhit "prompt" _).
  - rewrite Hmiss by reflexivity. exact (Hhit "shell" _).
  - rewrite !Hmiss by reflexivity. exact (Hhit "alias" _).
  - rewrite !Hmiss by reflexivity. exact (Hhit "env" _).
  - rewrite !Hmiss by reflexivity. exact (Hhit "speed" _).
Qed.

Lemma rstrip_split (s : string) :
  exists t, s = Py.rstrip s ++ t /\ all_space t = true.
Proof.
  induction s as [|c s (t & Ht & Hs)]; [now exists EmptyString|].
  rewrite rstrip_cons. destruct (Py.rstrip s) as [|x r] eqn:E.
  - cbn [append] in Ht. subst t. destruct (Py.is_space c) eqn:Ec.
    + exists (String c s). cbn [append all_space]. now rewrite Ec, Hs.
    + now exists s.
  - exists t. split; [|exact Hs]. cbn [append]. now rewrite Ht at 1.
Qed.

Lemma empty_of_length (s : string) : String.length s = 0 -> s = EmptyString.
Proof. now destruct s. Qed.

(** A text that [strip] leaves as it is has no white space at either
    end. *)
Lemma trimmed_inv (v : string) :
  trimmed v = true -> Py.lstrip v = v /\ Py.rstrip v = v.
Proof.
  unfold trimmed, Py.strip. intros H. apply String.eqb_eq in H.
  destruct (rstrip_split v) as (t & Ht & _).
  destruct (lstrip_suffix (Py.rstrip v)) as (a & Ha).
  rewrite H in Ha.
  assert (Hlen : String.length v
                 = String.length a + String.length v + String.length t).
  { rewrite Ht at 1. rewrite Ha at 1. now rewrite !slength_app. }
  assert (Ht0 : t = EmptyString) by (apply empty_of_length; lia).
  rewrite Ht0, sapp_nil_r in Ht.
  split; [|now symmetry]. now rewrite <- Ht in H.
Qed.

Lemma trimmed_of (v : string) :
  Py.lstrip v = v -> Py.rstrip v = v -> trimmed v = true.
Proof.
  intros Hl Hr. unfold trimmed, Py.strip. rewrite Hr, Hl. apply String.eqb_refl.
Qed.

Lemma lstrip_kept_head (c : ascii) (s : string) :
  Py.lstrip (String c s) = String c s -> Py.is_space c = false.
Proof.
  destruct (Py.is_space c) eqn:E; [|reflexivity]. cbn [Py.lstrip].
  rewrite E. intros H. exfalso.
  destruct (lstrip_suffix s) as (a & Ha).
  rewrite H in Ha. apply (f_equal String.length) in Ha.
  rewrite slength_app in Ha. cbn [String.length] in Ha. lia.
Qed.

Lemma rstrip_app_kept (a b : string) :
  b <> EmptyString -> Py.rstrip b = b -> Py.rstrip (a ++ b) = a ++ b.
Proof.
  intros Hne Hb. induction a as [|c a IH]; [exact Hb|].
  cbn [append]. rewrite rstrip_cons, IH.
  destruct (a ++ b) eqn:E; [|reflexivity].
  destruct a; [cbn [append] in E; congruence | discriminate E].
Qed.

(** X1.  Soundness of the directive grammar [OPTION_RE]: a text that
    matches is a hash sign, at most one white-space character, the word
    [doitlive], white space, one of the five option names, a colon,
    white space, the value, and at most a final newline; the value is
    not empty and holds no newline. *)
Theorem option_re_match_shape (command option arg : string) :
  OptionRE.re_match command = Some (option, arg) ->
  In option OptionRE.option_names
  /\ arg <> EmptyString
  /\ free_of OptionRE.LF arg = true
  /\ exists gap0 gap1 gap2 tail,
      command = "#" ++ gap0 ++ "doitlive" ++ gap1 ++ option ++ ":"
                ++ gap2 ++ arg ++ tail
      /\ at_most_one_space gap0 = true
      /\ all_space gap1 = true /\ gap1 <> EmptyString
      /\ all_space gap2 = true
      /\ (tail = EmptyString \/ tail = NL).
Proof.
  intros H.
  apply re_match_inv in H as (g0 & g1 & r & -> & H0 & H1 & Hne & Hin & Ha).
  apply spaces_then_arg_inv in Ha as (ws & tail & -> & Hw & Ht & Hane & Hf).
  repeat split; try assumption.
  exists g0, g1, ws, tail. repeat split; assumption.
Qed.

(** The text that [OPTION_RE] reads after the colon. *)
Lemma spaces_then_arg_value (gap2 arg tail : string) :
  all_space gap2 = true ->
  arg <> EmptyString -> Py.lstrip arg = arg ->
  free_of OptionRE.LF arg = true ->
  (tail = EmptyString \/ tail = NL) ->
  OptionRE.spaces_then_arg (gap2 ++ arg ++ tail) = Some arg.
Proof.
  intros H2 Hne Hl Hf Ht. apply spaces_then_arg_app; [exact H2|].
  destruct (dot_plus_end_line arg Hne Hf) as [Hd1 Hd2].
  destruct arg as [|c arg]; [congruence|].
  apply lstrip_kept_head in Hl.
  cbn [append OptionRE.spaces_then_arg]. rewrite Hl.
  destruct Ht as [->| ->]; [now rewrite sapp_nil_r | exact Hd2].
Qed.

(** The match of a text of the shape of a directive. *)
Lemma re_match_directive (option gap0 gap1 r arg : string) :
  In option OptionRE.option_names ->
  at_most_one_space gap0 = true ->
  all_space gap1 = true -> gap1 <> EmptyString ->
  OptionRE.spaces_then_arg r = Some arg ->
  OptionRE.re_match ("#" ++ gap0 ++ "doitlive" ++ gap1 ++ option ++ ":" ++ r)
  = Some (option, arg).
Proof.
  intros Hin H0 H1 Hne Ha.
  change ("#" ++ gap0 ++ "doitlive" ++ gap1 ++ option ++ ":" ++ r)
    with (String "#" (gap0 ++ "doitlive" ++ gap1 ++ option ++ ":" ++ r)).
  rewrite re_match_hash.
  assert (Hopt : OptionRE.opt_space
                   (gap0 ++ "doitlive" ++ gap1 ++ option ++ ":" ++ r)
                 = "doitlive" ++ gap1 ++ option ++ ":" ++ r).
  { destruct gap0 as [|c [|d gap0]]; [reflexivity | | discriminate H0].
    cbn [at_most_one_space] in H0. cbn [append OptionRE.opt_space].
    now rewrite H0. }
  rewrite Hopt, literal_app.
  assert (Hsp : OptionRE.spaces1 (gap1 ++ option ++ ":" ++ r)
                = Some (option ++ ":" ++ r)).
  { destruct gap1 as [|g gap1]; [congruence|].
    cbn [all_space] in H1. apply andb_prop in H1 as [Hg H1].
    destruct (option_name_head option (":" ++ r) Hin) as (c & rest & -> & Hc).
    change (String g gap1 ++ String c rest) with (String g (gap1 ++ String c rest)).
    cbn [OptionRE.spaces1]. rewrite Hg.
    rewrite lstrip_all_space_app by assumption.
    now rewrite lstrip_head. }
  rewrite Hsp. now apply alternatives_hit.
Qed.

(** X2.  Completeness of the directive grammar [OPTION_RE]: a text of
    that shape, whose value begins with a character that is not white
    space and holds no newline, matches, and the groups of the match are
    the option name and the value. *)
Theorem option_re_match_complete (option arg gap0 gap1 gap2 tail : string) :
  In option OptionRE.option_names ->
  at_most_one_space gap0 = true ->
  all_space gap1 = true -> gap1 <> EmptyString ->
  all_space gap2 = true ->
  arg <> EmptyString -> Py.lstrip arg = arg ->
  free_of OptionRE.LF arg = true ->
  (tail = EmptyString \/ tail = NL) ->
  OptionRE.re_match
    ("#" ++ gap0 ++ "doitlive" ++ gap1 ++ option ++ ":" ++ gap2 ++ arg ++ tail)
  = Some (option, arg).
Proof.
  intros Hin H0 H1 Hne H2 Hane Hl Hf Ht.
  apply re_match_directive; try assumption.
  now apply spaces_then_arg_value.
Qed.

(** The directive that [run] reads on a line: the parts of the
    stripped line, and the value as the text after the colon,
    stripped. *)
Lemma directive_of_inv (line option arg : string) :
  directive_of line = Some (option, arg) ->
  In option OptionRE.option_names
  /\ OptionRE.spaces_then_arg (Py.lstrip arg) = Some arg
  /\ exists gap0 gap1 rest,
      Py.strip line
      = "#" ++ gap0 ++ "doitlive" ++ gap1 ++ option ++ ":" ++ rest
      /\ at_most_one_space gap0 = true
      /\ all_space gap1 = true /\ gap1 <> EmptyString
      /\ Py.rstrip rest = rest
      /\ arg = Py.lstrip rest.
Proof.
  unfold directive_of.
  destruct (Py.truthy (Py.strip line) && Py.startswith "#" (Py.strip line));
    [|discriminate].
  intros H.
  apply re_match_inv in H as (g0 & g1 & r & Hs & H0 & H1 & Hne & Hin & Ha).
  assert (Hr : Py.rstrip r = r).
  { pose proof (strip_rstrip line) as Hk. rewrite Hs in Hk.
    replace ("#" ++ g0 ++ "doitlive" ++ g1 ++ option ++ ":" ++ r)
      with (("#" ++ g0 ++ "doitlive" ++ g1 ++ option ++ ":") ++ r) in Hk
      by (now rewrite !sapp_assoc).
    now apply rstrip_suffix in Hk. }
  pose proof (spaces_then_arg_greedy r arg Hr Ha) as Harg.
  split; [exact Hin|]. split.
  - rewrite Harg, lstrip_idempotent, <- Harg.
    destruct (lstrip_split r) as (ws & Hw & _).
    pose proof (spaces_then_arg_inv r arg Ha) as (ws' & tail & Hr' & _ & Ht & Hane & Hf).
    destruct (dot_plus_end_line arg Hane Hf) as [Hd _].
    destruct arg as [|c arg']; [congruence|].
    assert (Hc : Py.is_space c = false).
    { apply (lstrip_kept_head c arg'). rewrite Harg. apply lstrip_idempotent. }
    cbn [OptionRE.spaces_then_arg]. now rewrite Hc.
  - exists g0, g1, r. repeat split; assumption.
Qed.

(** X3.  The value of a directive as [run] reads it from a line: the
    line is stripped before it is matched, so the value is the text
    after the colon with the white space at both ends taken away; it is
    not empty and holds no newline. *)
Theorem directive_value_is_trimmed (line option arg : string) :
  directive_of line = Some (option, arg) ->
  arg <> EmptyString
  /\ trimmed arg = true
  /\ free_of OptionRE.LF arg = true
  /\ exists gap0 gap1 rest,
      Py.strip line
      = "#" ++ gap0 ++ "doitlive" ++ gap1 ++ option ++ ":" ++ rest
      /\ arg = Py.strip rest.
Proof.
  intros H.
  apply directive_of_inv in H as (_ & Ha & g0 & g1 & r & Hs & _ & _ & _ & Hr & Harg).
  apply spaces_then_arg_inv in Ha as (_ & _ & _ & _ & _ & Hne & Hf).
  split; [exact Hne|]. split; [|split; [exact Hf|]].
  - apply trimmed_of.
    + rewrite Harg. apply lstrip_idempotent.
    + rewrite Harg. now apply rstrip_lstrip.
  - exists g0, g1, r. split; [exact Hs|].
    unfold Py.strip. now rewrite Hr.
Qed.

End DirectiveShape.

(** ** The session file and the commands that it plans *)

Section SessionFile.
Context {P : Platform}.

Lemma free_of_app (c : ascii) (a b : string) :
  free_of c (a ++ b) = free_of c a && free_of c b.
Proof.
  induction a as [|x a IH]; cbn [append free_of]; [reflexivity|].
  now rewrite IH, andb_assoc.
Qed.

Lemma single_line_app (a b : string) :
  single_line a = true -> single_line b = true -> single_line (a ++ b) = true.
Proof.
  unfold single_line. rewrite !free_of_app. intros Ha Hb.
  apply andb_prop in Ha as [-> ->]. apply andb_prop in Hb as [-> ->].
  reflexivity.
Qed.

Lemma single_line_cons (c : ascii) (l : string) :
  single_line (String c l) = true ->
  Ascii.eqb c OptionRE.LF = false
  /\ Ascii.eqb c (ascii_of_nat 13) = false
  /\ single_line l = true.
Proof.
  unfold single_line. cbn [free_of]. intros H.
  apply andb_prop in H as [H1 H2].
  apply andb_prop in H1 as [Ha Hb]. apply andb_prop in H2 as [Hc Hd].
  apply negb_true_iff in Ha, Hc. rewrite Hb, Hd. auto.
Qed.

Lemma clean_inv (v : string) :
  clean v = true -> v <> EmptyString /\ trimmed v = true /\ single_line v = true.
Proof.
  unfold clean. intros H. apply andb_prop in H as [H Hs].
  apply andb_prop in H as [Ht Hr]. apply truthy_true_iff in Ht. auto.
Qed.

Lemma clean_command_inv (cmd : string) :
  clean_command cmd = true ->
  clean cmd = true /\ Py.startswith "#" cmd = false.
Proof.
  unfold clean_command. intros H. apply andb_prop in H as [Hc Hs].
  apply negb_true_iff in Hs. auto.
Qed.

(** *** Reading the file *)

Lemma readlines_from_line (l : string) :
  forall acc rest,
    single_line l = true ->
    readlines_from acc (l ++ NL ++ rest)
    = (acc ++ l ++ NL) :: readlines_from EmptyString rest.
Proof.
  induction l as [|c l IH]; intros acc rest H; [reflexivity|].
  apply single_line_cons in H as (H1 & H2 & H3).
  change (String c l ++ NL ++ rest) with (String c (l ++ NL ++ rest)).
  cbn [readlines_from]. rewrite H1, H2, IH by assumption.
  now rewrite sapp_assoc.
Qed.

Lemma readlines_unlines (lines : list string) :
  Forall (fun l => single_line l = true) lines ->
  readlines (unlines lines) = map (fun l => l ++ NL) lines.
Proof.
  unfold readlines. induction 1 as [|l lines Hl _ IH]; [reflexivity|].
  cbn [unlines map]. rewrite sapp_assoc, readlines_from_line by assumption.
  now rewrite IH.
Qed.

(** *** The text that [record] writes, line by line *)

Lemma header_lines (shell prompt : string) :
  HEADER_TEMPLATE shell prompt
  = unlines ["# Recorded with the doitlive recorder";
             directive_line "shell" shell;
             directive_line "prompt" prompt].
Proof.
  unfold HEADER_TEMPLATE, directive_line. cbn [unlines].
  rewrite !sapp_assoc, sapp_nil_r. reflexivity.
Qed.

Lemma write_directives_unlines (directive : string) (args : list string) :
  write_directives directive args
  = unlines (map (directive_line directive) args).
Proof.
  induction args as [|a args IH]; [reflexivity|].
  cbn [write_directives map unlines]. rewrite IH. unfold directive_line.
  now rewrite !sapp_assoc.
Qed.

Lemma join_spaced (commands : list string) :
  Py.join (NL ++ NL) commands ++ NL = unlines (spaced commands).
Proof.
  induction commands as [|c rest IH]; [reflexivity|].
  destruct rest as [|c2 rest].
  - cbn [Py.join spaced unlines]. now rewrite sapp_nil_r.
  - change (Py.join (NL ++ NL) (c :: c2 :: rest))
      with (c ++ (NL ++ NL) ++ Py.join (NL ++ NL) (c2 :: rest)).
    change (spaced (c :: c2 :: rest))
      with (c :: EmptyString :: spaced (c2 :: rest)).
    cbn [unlines]. rewrite <- IH, !sapp_assoc. reflexivity.
Qed.

Lemma session_text_lines (shell prompt : string) (alias envvar : list string)
    (commands : list string) :
  session_text shell prompt alias envvar commands
  = unlines (session_lines shell prompt alias envvar commands).
Proof.
  unfold session_text, session_lines.
  rewrite header_lines, !write_directives_unlines, join_spaced.
  rewrite !unlines_app. reflexivity.
Qed.

Lemma single_line_directive (name v : string) :
  single_line name = true -> single_line v = true ->
  single_line (directive_line name v) = true.
Proof.
  intros Hn Hv. unfold directive_line.
  repeat (apply single_line_app; [try reflexivity; assumption|]).
  exact Hv.
Qed.

Lemma single_line_directives (name : string) (values : list string) :
  single_line name = true ->
  Forall (fun v => clean v = true) values ->
  Forall (fun l => single_line l = true) (map (directive_line name) values).
Proof.
  intros Hn. induction 1 as [|v values Hv _ IH]; cbn [map]; constructor;
    [|exact IH].
  apply single_line_directive; [exact Hn|]. now apply clean_inv in Hv.
Qed.

Lemma single_line_spaced (commands : list string) :
  Forall (fun c => clean_command c = true) commands ->
  Forall (fun l => single_line l = true) (spaced commands).
Proof.
  induction 1 as [|c rest Hc Hrest IH]; [repeat constructor|].
  apply clean_command_inv in Hc as [Hc _]. apply clean_inv in Hc as (_ & _ & Hs).
  destruct rest as [|c2 rest]; [repeat constructor; exact Hs|].
  change (spaced (c :: c2 :: rest))
    with (c :: EmptyString :: spaced (c2 :: rest)).
  repeat constructor; [exact Hs | exact IH].
Qed.

Lemma single_line_session (shell prompt : string) (alias envvar : list string)
    (commands : list string) :
  clean shell = true -> clean prompt = true ->
  Forall (fun a => clean a = true) alias ->
  Forall (fun v => clean v = true) envvar ->
  Forall (fun c => clean_command c = true) commands ->
  Forall (fun l => single_line l = true)
         (session_lines shell prompt alias envvar commands).
Proof.
  intros Hs Hp Ha He Hc. unfold session_lines.
  apply clean_inv in Hs as (_ & _ & Hs). apply clean_inv in Hp as (_ & _ & Hp).
  apply Forall_app. split.
  { repeat constructor; now apply single_line_directive. }
  apply Forall_app. split; [now apply single_line_directives|].
  apply Forall_app. split; [now apply single_line_directives|].
  apply Forall_app. split; [repeat constructor|].
  now apply single_line_spaced.
Qed.

(** *** How [run] reads the lines *)

Lemma strip_line (v : string) : trimmed v = true -> Py.strip (v ++ NL) = v.
Proof.
  intros H. apply trimmed_inv in H as [Hl Hr]. unfold Py.strip.
  rewrite rstrip_app_all_space by reflexivity. now rewrite Hr.
Qed.

Lemma directive_line_trimmed (name v : string) :
  v <> EmptyString -> trimmed v = true -> trimmed (directive_line name v) = true.
Proof.
  intros Hne H. apply trimmed_inv in H as [_ Hr]. apply trimmed_of.
  - exact (lstrip_head "#" _ eq_refl).
  - unfold directive_line.
    replace ("#doitlive " ++ name ++ ": " ++ v)
      with (("#doitlive " ++ name ++ ": ") ++ v) by (now rewrite !sapp_assoc).
    now apply rstrip_app_kept.
Qed.

Lemma spaces_then_arg_plain (gap2 arg : string) :
  all_space gap2 = true ->
  arg <> EmptyString -> Py.lstrip arg = arg ->
  free_of OptionRE.LF arg = true ->
  OptionRE.spaces_then_arg (gap2 ++ arg) = Some arg.
Proof.
  intros H2 Hne Hl Hf.
  pose proof (spaces_then_arg_value gap2 arg EmptyString H2 Hne Hl Hf
                (or_introl eq_refl)) as H.
  now rewrite sapp_nil_r in H.
Qed.

(** A directive line that [record] wrote is read back as the directive
    that it was written for. *)
Lemma directive_of_line (name v : string) :
  In name OptionRE.option_names -> clean v = true ->
  directive_of (directive_line name v ++ NL) = Some (name, v).
Proof.
  intros Hin Hv. apply clean_inv in Hv as (Hne & Ht & Hs).
  unfold directive_of.
  rewrite strip_line by (now apply directive_line_trimmed).
  assert (Hh : Py.startswith "#" (directive_line name v) = true)
    by (apply (prefix_app "#")).
  rewrite Hh.
  change (Py.truthy (directive_line name v)) with true. cbn [andb].
  change (directive_line name v)
    with ("#" ++ EmptyString ++ "doitlive" ++ " " ++ name ++ ":" ++ (" " ++ v)).
  apply re_match_directive; try assumption; try reflexivity; [discriminate|].
  apply trimmed_inv in Ht as [Hl _].
  apply spaces_then_arg_plain; try assumption; try reflexivity.
  unfold single_line in Hs. now apply andb_prop in Hs as [Hs _].
Qed.

Lemma command_line (cmd : string) :
  clean_command cmd = true ->
  is_command (cmd ++ NL) = true /\ Py.strip (cmd ++ NL) = cmd.
Proof.
  intros H. apply clean_command_inv in H as [Hc Hh].
  apply clean_inv in Hc as (Hne & Ht & _).
  pose proof (strip_line cmd Ht) as Hs.
  split; [|exact Hs]. unfold is_command. rewrite Hs, Hh.
  apply truthy_true_iff in Hne. now rewrite Hne.
Qed.

Lemma planned_cons_directive (line o a : string) (rest : list string) (c : config) :
  directive_of line = Some (o, a) ->
  planned_commands (line :: rest) c
  = planned_commands rest (apply_directive o a c).
Proof.
  intros H. cbn [planned_commands].
  now rewrite (directive_not_command _ _ H), H.
Qed.

Lemma planned_cons_ignored (line : string) (rest : list string) (c : config) :
  is_command line = false -> directive_of line = None ->
  planned_commands (line :: rest) c = planned_commands rest c.
Proof. intros H1 H2. cbn [planned_commands]. now rewrite H1, H2. Qed.

Lemma planned_cons_command (line : string) (rest : list string) (c : config) :
  is_command line = true ->
  planned_commands (line :: rest) c
  = EvRunCommand (Py.strip line) (cfg_shell c) (cfg_aliases c) (cfg_envvars c)
    :: planned_commands rest c.
Proof. intros H. cbn [planned_commands]. now rewrite H. Qed.

Lemma planned_directive_lines (name : string) (values rest : list string) :
  In name OptionRE.option_names ->
  Forall (fun v => clean v = true) values ->
  forall c,
    planned_commands
      (map (fun v => (directive_line name v ++ NL)%string) values ++ rest)%list c
    = planned_commands rest
        (fold_left (fun c v => apply_directive name v c) values c).
Proof.
  intros Hin. induction 1 as [|v values Hv _ IH]; intros c; [reflexivity|].
  cbn [map app fold_left].
  rewrite (planned_cons_directive _ name v) by (now apply directive_of_line).
  apply IH.
Qed.

Lemma fold_alias (values : list string) :
  forall c,
    fold_left (fun c v => apply_directive "alias" v c) values c
    = {| cfg_shell := cfg_shell c;
         cfg_prompt_template := cfg_prompt_template c;
         cfg_aliases := (cfg_aliases c ++ values)%list;
         cfg_envvars := cfg_envvars c;
         cfg_speed := cfg_speed c |}.
Proof.
  induction values as [|v values IH]; intros c; cbn [fold_left].
  - rewrite app_nil_r. now destruct c.
  - rewrite IH. change (apply_directive "alias" v c) with (append_alias v c).
    cbn [append_alias cfg_shell cfg_prompt_template cfg_aliases cfg_envvars
         cfg_speed].
    now rewrite <- app_assoc.
Qed.

Lemma fold_env (values : list string) :
  forall c,
    fold_left (fun c v => apply_directive "env" v c) values c
    = {| cfg_shell := cfg_shell c;
         cfg_prompt_template := cfg_prompt_template c;
         cfg_aliases := cfg_aliases c;
         cfg_envvars := (cfg_envvars c ++ values)%list;
         cfg_speed := cfg_speed c |}.
Proof.
  induction values as [|v values IH]; intros c; cbn [fold_left].
  - rewrite app_nil_r. now destruct c.
  - rewrite IH. change (apply_directive "env" v c) with (append_envvar v c).
    cbn [append_envvar cfg_shell cfg_prompt_template cfg_aliases cfg_envvars
         cfg_speed].
    now rewrite <- app_assoc.
Qed.

Lemma planned_spaced (commands : list string) (c : config) :
  Forall (fun cmd => clean_command cmd = true) commands ->
  planned_commands (map (fun l => l ++ NL) (spaced commands)) c
  = calls (cfg_shell c) (cfg_aliases c) (cfg_envvars c) commands.
Proof.
  induction 1 as [|cmd rest Hc _ IH]; [reflexivity|].
  apply command_line in Hc as [Hc Hs].
  destruct rest as [|c2 rest].
  - cbn [spaced map calls]. rewrite planned_cons_command, Hs by assumption.
    reflexivity.
  - change (spaced (cmd :: c2 :: rest))
      with (cmd :: EmptyString :: spaced (c2 :: rest)).
    cbn [map]. rewrite planned_cons_command, Hs by assumption.
    rewrite planned_cons_ignored by reflexivity.
    rewrite IH. reflexivity.
Qed.

(** The commands that a session file of [record] plans, whatever the
    configuration of the player: the commands recorded, each with the
    shell, the aliases and the variables of the recording. *)
Lemma planned_session (shell prompt : string) (alias envvar : list string)
    (commands : list string) (c : config) :
  clean shell = true -> clean prompt = true ->
  Forall (fun a => clean a = true) alias ->
  Forall (fun v => clean v = true) envvar ->
  Forall (fun cmd => clean_command cmd = true) commands ->
  planned_commands
    (map (fun l => l ++ NL) (session_lines shell prompt alias envvar commands)) c
  = calls shell (cfg_aliases c ++ alias)%list (cfg_envvars c ++ envvar)%list
          commands.
Proof.
  intros Hs Hp Ha He Hc. unfold session_lines.
  rewrite !map_app, !map_map. cbn [map app].
  rewrite planned_cons_ignored by reflexivity.
  rewrite (planned_cons_directive _ "shell" shell)
    by (apply directive_of_line; [cbn; tauto | assumption]).
  rewrite (planned_cons_directive _ "prompt" prompt)
    by (apply directive_of_line; [cbn; tauto | assumption]).
  rewrite (planned_directive_lines "alias") by (cbn; tauto || assumption).
  rewrite (planned_directive_lines "env") by (cbn; tauto || assumption).
  rewrite planned_cons_ignored by reflexivity.
  rewrite planned_spaced by assumption.
  rewrite fold_env, fold_alias. reflexivity.
Qed.

End SessionFile.

(** ** Playbacks that stop early, and recorded sessions played back *)

Section Outcomes.
Context {P : Platform}.

(** The two ways of a sequence: its first step returns a value and the
    rest follows, or its first step fails and is all there is. *)
Lemma bind_inv {A B} (m : M A) (k : A -> M B) (s s' : state) (r : result B)
    (ev : list event) :
  bind m k s = (r, s', ev) ->
  (exists a s1 ev1 ev2,
      m s = (Ret a, s1, ev1) /\ k a s1 = (r, s', ev2) /\ ev = (ev1 ++ ev2)%list)
  \/ (exists r0,
         m s = (r0, s', ev) /\ (forall a, r0 <> Ret a)
         /\ (forall b, r <> Ret b) /\ discard r0 = discard r).
Proof.
  unfold bind. destruct (m s) as [[[a|e|] s1] ev1].
  - destruct (k a s1) as [[r2 s2] ev2] eqn:Hk. intros [= <- <- <-].
    left. exists a, s1, ev1, ev2. auto.
  - intros [= <- <- <-]. right. exists (Raise e).
    repeat split; discriminate.
  - intros [= <- <- <-]. right. exists Blocked.
    repeat split; discriminate.
Qed.

(** A first step that emits no event of a kind leaves the events of
    that kind to the steps that follow. *)
Lemma filter_bind_quiet {A B} (f : event -> bool) (m : M A) (k : A -> M B)
    (s s' : state) (r : result B) (ev : list event) :
  (forall r1 s1 ev1, m s = (r1, s1, ev1) -> without f ev1) ->
  bind m k s = (r, s', ev) ->
  (exists a s1 ev2, k a s1 = (r, s', ev2) /\ filter f ev = filter f ev2)
  \/ (filter f ev = [] /\ forall b, r <> Ret b).
Proof.
  intros Hq H. apply bind_inv in H as [(a & s1 & ev1 & ev2 & Hm & Hk & ->)|H].
  - left. exists a, s1, ev2. split; [exact Hk|].
    now rewrite filter_app, (filter_without f ev1 (Hq _ _ _ Hm)).
  - destruct H as (r0 & Hm & _ & Hr & _). right.
    split; [|exact Hr]. exact (filter_without f ev (Hq _ _ _ Hm)).
Qed.

Lemma begins_nil (whole : list event) : begins [] whole.
Proof. now exists whole. Qed.

Lemma begins_refl (whole : list event) : begins whole whole.
Proof. exists []. now rewrite app_nil_r. Qed.

Lemma begins_cons (e : event) (part whole : list event) :
  begins part whole -> begins (e :: part) (e :: whole).
Proof. intros [rest ->]. now exists rest. Qed.

Lemma begins_app (a part whole : list event) :
  begins part whole -> begins (a ++ part)%list (a ++ whole)%list.
Proof. intros [rest ->]. exists rest. now rewrite app_assoc. Qed.

(** Whatever its outcome, [magictype] hands its command to the
    executor once or not at all. *)
Lemma magictype_commands (text shell template : string)
    (aliases envvars : list string) (speed : Z) (t : bool) (s : state) :
  match magictype text shell template aliases envvars speed t s with
  | (_, _, ev) =>
      filter is_run_command ev = []
      \/ filter is_run_command ev = [EvRunCommand text shell aliases envvars]
  end.
Proof.
  pose proof (magictype_events text shell template aliases envvars speed t s) as He.
  destruct (magictype text shell template aliases envvars speed t s)
    as [[r s'] ev].
  assert (Hk : forall typed i,
             filter is_run_command (keystroke_events text speed i typed) = [])
    by (intros; apply filter_without, keystroke_events_no_command).
  assert (Hw : forall waits, filter is_run_command (map EvKey waits) = [])
    by (intros; apply filter_without, key_events_no_command).
  destruct He as [[-> _]|(p & typed & _ & He)]; [now left|].
  destruct He as [[_ ->]|[[_ ->]|(waits & _ & _ & He)]].
  - left. cbn [filter is_run_command]. apply Hk.
  - left. cbn [filter is_run_command]. now rewrite filter_app, Hk.
  - destruct He as [[_ ->]|[[_ ->]|(k & tail & _ & Hn & _ & ->)]].
    + left. cbn [filter is_run_command]. now rewrite filter_app, Hk, Hw.
    + left. cbn [filter is_run_command]. now rewrite !filter_app, Hk, Hw.
    + right. rewrite filter_app. cbn [filter is_run_command].
      rewrite !filter_app, Hk, Hw, (filter_without _ tail Hn). reflexivity.
Qed.

(** The calls of the executor in a run of the loop of [run], whatever
    its outcome, are the first of those that the lines plan. *)
Lemma run_lines_commands_begin (lines : list string) :
  forall (c : config) (t : bool) (s s' : state) (r : result config)
         (ev : list event),
    run_lines lines c t s = (r, s', ev) ->
    begins (filter is_run_command ev) (planned_commands lines c).
Proof.
  induction lines as [|line rest IH]; intros c t s s' r ev H.
  - inversion H. apply begins_nil.
  - destruct (is_command line) eqn:Hc.
    + rewrite planned_cons_command by assumption.
      rewrite run_lines_command in H by assumption.
      pose proof (magictype_commands (Py.strip line) (cfg_shell c)
                    (cfg_prompt_template c) (cfg_aliases c) (cfg_envvars c)
                    (cfg_speed c) t s) as Hm.
      apply bind_inv in H as [(a & s1 & ev1 & ev2 & Hm1 & Hk & ->)|H].
      * destruct a. rewrite filter_app.
        rewrite (magictype_Ret_commands _ _ _ _ _ _ _ _ _ _ Hm1).
        apply begins_cons. eapply IH; eassumption.
      * destruct H as (r0 & Hm1 & _ & _ & _). rewrite Hm1 in Hm.
        destruct Hm as [-> | ->]; [apply begins_nil|].
        apply begins_cons, begins_nil.
    + destruct (directive_of line) as [[o a]|] eqn:Hd.
      * rewrite (planned_cons_directive _ _ _ _ _ Hd).
        rewrite (run_lines_directive _ _ _ _ _ _ Hd) in H.
        unfold apply_directive.
        repeat match goal with
               | |- context [String.eqb o ?n] => destruct (String.eqb o n)
               end; try (eapply IH; eassumption).
        destruct (Py.int a); [eapply IH; eassumption|].
        inversion H. apply begins_nil.
      * rewrite planned_cons_ignored by assumption.
        rewrite run_lines_ignored in H by assumption.
        eapply IH; eassumption.
Qed.

(** The steps of [run] that do not call the executor. *)
Ltac no_command :=
  first [ eapply secho_quiet; eassumption
        | eapply echo_quiet; eassumption
        | eapply clear_quiet; eassumption
        | eapply pause_quiet; eassumption
        | eapply prompt_quiet; eassumption
        | eapply wait_for_quiet; eassumption
        | eapply emit_quiet; [| eassumption]; reflexivity ].

(** Applies [filter_bind_quiet] at a step of [run] that does not call
    the executor. *)
Ltac quiet_or_stop H :=
  apply (filter_bind_quiet is_run_command) in H
    as [(? & ? & ? & H & ->)|[-> ?]];
  [ | try apply begins_nil | intros; no_command ].

Lemma run_commands_begin (commands : list string) (shell template : string)
    (speed : Z) (t : bool) (s s' : state) (r : result unit) (ev : list event) :
  run commands shell template speed t s = (r, s', ev) ->
  begins (filter is_run_command ev)
         (planned_commands commands
            {| cfg_shell := shell; cfg_prompt_template := template;
               cfg_aliases := []; cfg_envvars := []; cfg_speed := speed |}).
Proof.
  intros H. unfold run in H.
  do 4 quiet_or_stop H.
  apply bind_inv in H as [(c & s5 & e1 & e2 & Hl & H & ->)|H].
  - rewrite filter_app, (run_lines_Ret_commands _ _ _ _ _ _ _ Hl).
    assert (He : filter is_run_command e2 = []).
    { do 3 (apply (filter_bind_quiet is_run_command) in H
              as [(? & ? & ? & H & ->)|[-> ?]];
            [ | reflexivity | intros; no_command ]).
      apply filter_without. no_command. }
    rewrite He, app_nil_r. apply begins_refl.
  - destruct H as (r0 & Hl & _). eapply run_lines_commands_begin; eassumption.
Qed.

(** X4.  Whatever the outcome of [run], a return, an exception or a
    wait for a key that never comes, the commands handed to the executor
    are the first of those that the lines plan, in their order and each
    with the shell, the aliases and the variables that the directives
    before it have set; a playback that returns has executed all of
    them. *)
Theorem playback_executes_a_prefix_of_the_plan (commands : list string)
    (shell template : string) (speed : Z) (t : bool) (s : state) :
  match run commands shell template speed t s with
  | (r, _, ev) =>
      begins (filter is_run_command ev)
             (planned_commands commands
                {| cfg_shell := shell; cfg_prompt_template := template;
                   cfg_aliases := []; cfg_envvars := []; cfg_speed := speed |})
      /\ (r = Ret tt ->
          filter is_run_command ev
          = planned_commands commands
              {| cfg_shell := shell; cfg_prompt_template := template;
                 cfg_aliases := []; cfg_envvars := []; cfg_speed := speed |})
  end.
Proof.
  destruct (run commands shell template speed t s) as [[r s'] ev] eqn:H.
  split; [eapply run_commands_begin; eassumption|].
  intros ->. eapply run_Ret_commands; eassumption.
Qed.

(** X5.  The session file of [record] read back by [play].  When the
    shell, the prompt, the aliases and the variables are not empty, fit
    on a line and have no white space at their ends, and the commands
    moreover do not begin with a hash sign, then [readlines] gives the
    lines of the file as they were written, the file plans the recorded
    commands with the recorded shell, aliases and variables whatever the
    player is started with, every playback executes the first of them,
    and a playback that returns has executed them all. *)
Theorem recorded_session_replays (shell prompt : string)
    (alias envvar commands : list string) :
  clean shell = true -> clean prompt = true ->
  Forall (fun a => clean a = true) alias ->
  Forall (fun v => clean v = true) envvar ->
  Forall (fun cmd => clean_command cmd = true) commands ->
  readlines (session_text shell prompt alias envvar commands)
  = map (fun l => l ++ NL) (session_lines shell prompt alias envvar commands)
  /\ (forall c,
        planned_commands
          (readlines (session_text shell prompt alias envvar commands)) c
        = calls shell (cfg_aliases c ++ alias)%list (cfg_envvars c ++ envvar)%list
                commands)
  /\ forall shell0 speed prompt0 s,
      match play (session_text shell prompt alias envvar commands)
                 shell0 speed prompt0 s with
      | (r, _, ev) =>
          begins (filter is_run_command ev) (calls shell alias envvar commands)
          /\ (r = Ret tt ->
              filter is_run_command ev = calls shell alias envvar commands)
      end.
Proof.
  intros Hs Hp Ha He Hc.
  assert (Hread :
            readlines (session_text shell prompt alias envvar commands)
            = map (fun l => l ++ NL)
                  (session_lines shell prompt alias envvar commands)).
  { rewrite session_text_lines. apply readlines_unlines.
    now apply single_line_session. }
  assert (Hplan : forall c,
             planned_commands
               (readlines (session_text shell prompt alias envvar commands)) c
             = calls shell (cfg_aliases c ++ alias)%list
                     (cfg_envvars c ++ envvar)%list commands).
  { intros c. rewrite Hread. now apply planned_session. }
  split; [exact Hread|]. split; [exact Hplan|].
  intros shell0 speed prompt0 s. unfold play.
  destruct (run (readlines (session_text shell prompt alias envvar commands))
                shell0 prompt0 speed TESTING s) as [[r s'] ev] eqn:H.
  pose proof (run_commands_begin _ _ _ _ _ _ _ _ _ H) as Hb.
  rewrite Hplan in Hb. cbn [cfg_aliases cfg_envvars app] in Hb.
  split; [exact Hb|].
  intros ->. rewrite (run_Ret_commands _ _ _ _ _ _ _ _ H).
  now rewrite Hplan.
Qed.

End Outcomes.

(** ** The recorder *)

Section RecorderLoop.
Context {P : Platform}.
Variable Inv : OS -> Prop.
Variables shell prompt tpl : string.
Variables aliases envvars : list string.
Hypothesis Htheme : themes_get THEMES prompt = Some tpl.
Hypothesis Hcoop : cooperative Inv tpl.

Lemma terminal_only_filter (f : event -> bool) (ev : list event) :
  (forall e, is_terminal e = true -> f e = false) ->
  terminal_only ev -> filter f ev = [].
Proof.
  intros Hf H. apply filter_without.
  induction H as [|e ev He _ IH]; constructor; [now apply Hf | exact IH].
Qed.

Lemma terminal_no_command (ev : list event) :
  terminal_only ev -> filter is_run_command ev = [].
Proof. apply terminal_only_filter. now intros []. Qed.

Lemma terminal_no_write (ev : list event) :
  terminal_only ev -> filter is_write_file ev = [].
Proof. apply terminal_only_filter. now intros []. Qed.

Lemma terminal_only_app (a b : list event) :
  terminal_only a -> terminal_only b -> terminal_only (a ++ b)%list.
Proof. intros Ha Hb. apply Forall_app. now split. Qed.

Lemma click_prompt_line (text line : string) (rest : list string) (s : state) :
  stdin s = line :: rest -> Py.truthy line = true ->
  click_prompt text s = (Ret line, set_stdin rest s, [EvEcho text false]).
Proof.
  intros Hs Ht. unfold click_prompt. rewrite Hs. cbn [prompt_lines].
  now rewrite Ht.
Qed.

(** A command of the recorder returns on a cooperative machine. *)
Lemma run_command_returns (line : string) (s : state) :
  Inv (os s) ->
  exists v s2 tail,
    run_command (Py.strip line) shell aliases envvars TESTING s
    = (Ret v, s2, EvRunCommand (Py.strip line) shell aliases envvars :: tail)
    /\ without is_run_command tail /\ without is_write_file tail
    /\ Inv (os s2) /\ stdin s2 = stdin s /\ keys s2 = keys s.
Proof.
  intros Hi. destruct Hcoop as (_ & Hspawn & Hchdir).
  unfold run_command, bind, emit. cbv beta iota zeta.
  destruct (Py.startswith "cd " (Py.strip line)) eqn:Hcd.
  - destruct (stripped_cd_has_directory line Hcd) as (d & more & ->).
    unfold change_directory.
    destruct (os_chdir (expanduser (os s) d) (os s)) as [o'|] eqn:Hc.
    + exists None, (set_os o' s), [EvChdir (expanduser (os s) d)].
      repeat split; try (repeat constructor). exact (Hchdir _ _ _ Hi Hc).
    + exists None, s, [EvEcho ("No such file or directory: " ++ d) true].
      repeat split; try (repeat constructor). exact Hi.
  - unfold with_NamedTemporaryFile, finally, run_script. cbn [os set_tmpfiles].
    destruct (Hspawn (resolve_shell (os s) shell) (tmp_name (os s))
                (script_text (Py.strip line) (resolve_shell (os s) shell)
                   aliases envvars) (os s) Hi)
      as (st & out & o' & Hsp & Hi').
    rewrite Hsp. cbn.
    eexists _, _, _. split; [reflexivity|].
    repeat split; try (repeat constructor). exact Hi'.
Qed.

Lemma recordable_inv (line : string) :
  recordable line = true ->
  Py.truthy line = true
  /\ String.eqb (Py.strip line) STOP_COMMAND = false
  /\ String.eqb (Py.strip line) PREVIEW_COMMAND = false
  /\ String.eqb (Py.strip line) UNDO_COMMAND = false.
Proof.
  unfold recordable. intros H.
  apply andb_prop in H as [H H3]. apply andb_prop in H as [H H2].
  apply andb_prop in H as [H0 H1].
  apply negb_true_iff in H1, H2, H3. auto.
Qed.

Lemma enters_inv (name line : string) :
  enters name line = true -> Py.truthy line = true /\ Py.strip line = name.
Proof.
  unfold enters. intros H. apply andb_prop in H as [H0 H1].
  apply String.eqb_eq in H1. auto.
Qed.

(** A turn that records a command. *)
Lemma recorder_step_command (line : string) (rest : list string) (s : state) :
  Inv (os s) -> stdin s = line :: rest -> recordable line = true ->
  exists s2 ev1,
    Inv (os s2) /\ stdin s2 = rest
    /\ filter is_run_command ev1
       = [EvRunCommand (Py.strip line) shell aliases envvars]
    /\ filter is_write_file ev1 = []
    /\ forall fuel acc,
        run_recorder_loop (S fuel) shell prompt aliases envvars acc s
        = match run_recorder_loop fuel shell prompt aliases envvars (acc ++ [Py.strip line])%list s2 with
          | (r, s', ev2) => (r, s', (ev1 ++ ev2)%list)
          end.
Proof.
  intros Hi Hs Hr. apply recordable_inv in Hr as (Ht & H1 & H2 & H3).
  destruct (run_command_returns line (set_stdin rest s) Hi)
    as (v & s2 & tail & Hrun & Hq1 & Hq2 & Hi2 & Hs2 & _).
  destruct (proj1 Hcoop _ Hi) as [p Hp].
  exists s2,
    (EvEcho (rec_prefix ++ p ++ " ") false
     :: EvRunCommand (Py.strip line) shell aliases envvars :: tail).
  split; [exact Hi2|]. split; [exact Hs2|].
  split; [cbn [filter is_run_command]; now rewrite (filter_without _ _ Hq1)|].
  split; [cbn [filter is_write_file]; now rewrite (filter_without _ _ Hq2)|].
  intros fuel acc.
  cbn [run_recorder_loop]. rewrite Htheme.
  rewrite (bind_Ret _ _ _ _ _ _ Hp).
  rewrite (bind_Ret _ _ _ _ _ _ (click_prompt_line (rec_prefix ++ p ++ " ") _ _ _ Hs Ht)).
  rewrite H1, H2, H3.
  rewrite (bind_Ret _ _ _ _ _ _ Hrun).
  destruct (run_recorder_loop fuel shell prompt aliases envvars (acc ++ [Py.strip line])%list s2) as [[r s'] ev2].
  reflexivity.
Qed.

Lemma echo_returns (text : string) (s : state) :
  echo text s = (Ret tt, s, [EvEcho text true]).
Proof. reflexivity. Qed.

Lemma echo_each_returns (commands : list string) (s : state) :
  exists ev, echo_each commands s = (Ret tt, s, ev) /\ terminal_only ev.
Proof.
  induction commands as [|cmd rest (ev & He & Ht)].
  - exists []. split; [reflexivity | constructor].
  - exists (EvEcho ("  " ++ cmd) true :: ev). cbn [echo_each].
    rewrite (bind_Ret _ _ _ _ _ _ (echo_returns _ s)), He.
    split; [reflexivity | now constructor].
Qed.

Lemma echo_rec_buffer_returns (commands : list string) (s : state) :
  exists ev, echo_rec_buffer commands s = (Ret tt, s, ev) /\ terminal_only ev.
Proof.
  destruct commands as [|cmd rest].
  - exists [EvEcho "No commands in buffer." true].
    split; [reflexivity | repeat constructor].
  - destruct (echo_each_returns (cmd :: rest) s) as (ev & He & Ht).
    exists (EvEcho ("Current commands in buffer:" ++ NL) true :: ev).
    unfold echo_rec_buffer.
    rewrite (bind_Ret _ _ _ _ _ _ (echo_returns _ s)), He.
    split; [reflexivity | now constructor].
Qed.

(** A turn that previews the buffer. *)
Lemma recorder_step_preview (line : string) (rest acc : list string) (s : state) :
  Inv (os s) -> stdin s = line :: rest -> enters PREVIEW_COMMAND line = true ->
  exists ev1,
    terminal_only ev1
    /\ forall fuel,
        run_recorder_loop (S fuel) shell prompt aliases envvars acc s
        = match run_recorder_loop fuel shell prompt aliases envvars acc (set_stdin rest s) with
          | (r, s', ev2) => (r, s', (ev1 ++ ev2)%list)
          end.
Proof.
  intros Hi Hs He. apply enters_inv in He as [Ht Hc].
  destruct (proj1 Hcoop _ Hi) as [p Hp].
  destruct (echo_rec_buffer_returns acc (set_stdin rest s)) as (ev & Hb & Hev).
  exists (EvEcho (rec_prefix ++ p ++ " ") false :: ev).
  split; [now constructor|]. intros fuel.
  cbn [run_recorder_loop]. rewrite Htheme.
  rewrite (bind_Ret _ _ _ _ _ _ Hp).
  rewrite (bind_Ret _ _ _ _ _ _ (click_prompt_line (rec_prefix ++ p ++ " ") _ _ _ Hs Ht)).
  rewrite Hc.
  change (String.eqb PREVIEW_COMMAND STOP_COMMAND) with false.
  change (String.eqb PREVIEW_COMMAND PREVIEW_COMMAND) with true.
  cbv iota.
  rewrite (bind_Ret _ _ _ _ _ _ Hb).
  destruct (run_recorder_loop fuel shell prompt aliases envvars acc (set_stdin rest s)) as [[r s'] ev2].
  reflexivity.
Qed.

(** The turn that stops the recorder. *)
Lemma recorder_step_stop (line : string) (rest acc : list string) (s : state) :
  Inv (os s) -> stdin s = line :: rest -> enters STOP_COMMAND line = true ->
  exists ev1,
    terminal_only ev1
    /\ forall fuel,
        run_recorder_loop (S fuel) shell prompt aliases envvars acc s
        = (Ret acc, set_stdin rest s, ev1).
Proof.
  intros Hi Hs He. apply enters_inv in He as [Ht Hc].
  destruct (proj1 Hcoop _ Hi) as [p Hp].
  exists [EvEcho (rec_prefix ++ p ++ " ") false].
  split; [repeat constructor|]. intros fuel.
  cbn [run_recorder_loop]. rewrite Htheme.
  rewrite (bind_Ret _ _ _ _ _ _ Hp).
  rewrite (bind_Ret _ _ _ _ _ _
             (click_prompt_line (rec_prefix ++ p ++ " ") _ _ _ Hs Ht)).
  rewrite Hc.
  change (String.eqb STOP_COMMAND STOP_COMMAND) with true.
  reflexivity.
Qed.

Lemma click_confirm_answer (text answer : string) (rest : list string)
    (abort : bool) (s : state) :
  stdin s = answer :: rest ->
  (says_yes answer = true ->
   click_confirm text abort s
   = (Ret true, set_stdin rest s, [EvEcho (text ++ " [y/N]" ++ ": ") false]))
  /\ (says_no answer = true ->
      click_confirm text abort s
      = (if abort then Raise Abort else Ret false, set_stdin rest s,
         [EvEcho (text ++ " [y/N]" ++ ": ") false])).
Proof.
  intros Hs. unfold click_confirm, says_no, says_yes. rewrite Hs.
  cbn [confirm_lines].
  destruct (String.eqb (Py.strip (lower answer)) "y"
            || String.eqb (Py.strip (lower answer)) "yes") eqn:Hy.
  - split; [|discriminate]. intros _. now rewrite andb_false_r.
  - split; [discriminate|]. cbn [negb andb]. intros Hn.
    destruct (String.eqb (Py.strip (lower answer)) "n"
              || String.eqb (Py.strip (lower answer)) "no") eqn:Hn1.
    + now destruct abort.
    + cbn [orb] in Hn. rewrite Hn. now destruct abort.
Qed.

(** A turn that undoes: the answer decides. *)
Lemma recorder_step_undo (line answer : string) (rest acc : list string)
    (s : state) :
  Inv (os s) -> stdin s = line :: answer :: rest ->
  enters UNDO_COMMAND line = true -> acc <> [] ->
  (says_yes answer = true ->
   exists ev1,
     terminal_only ev1
     /\ forall fuel,
         run_recorder_loop (S fuel) shell prompt aliases envvars acc s
         = match run_recorder_loop fuel shell prompt aliases envvars (removelast acc) (set_stdin rest s) with
           | (r, s', ev2) => (r, s', (ev1 ++ ev2)%list)
           end)
  /\ (says_no answer = true ->
      exists ev1,
        terminal_only ev1
        /\ In (EvEcho "No commands in buffer. Doing nothing." true) ev1
        /\ forall fuel,
            run_recorder_loop (S fuel) shell prompt aliases envvars acc s
            = match run_recorder_loop fuel shell prompt aliases envvars acc (set_stdin rest s) with
              | (r, s', ev2) => (r, s', (ev1 ++ ev2)%list)
              end).
Proof.
  intros Hi Hs He Hne. apply enters_inv in He as [Ht Hc].
  destruct (proj1 Hcoop _ Hi) as [p Hp].
  assert (Hs1 : stdin (set_stdin (answer :: rest) s) = answer :: rest)
    by reflexivity.
  destruct (click_confirm_answer
              ("Remove command? " ++ DQ ++ last acc EmptyString ++ DQ)
              answer rest false _ Hs1) as [Hyes Hno].
  assert (Hhead : forall fuel,
             run_recorder_loop (S fuel) shell prompt aliases envvars acc s
             = match
                 bind (click_confirm
                         ("Remove command? " ++ DQ ++ last acc EmptyString ++ DQ)
                         false)
                      (fun yes : bool =>
                         if yes
                         then
                           bind (secho "Removed command." TermString.kw_bold)
                                (fun _ =>
                                   bind (echo_rec_buffer (removelast acc))
                                        (fun _ => run_recorder_loop fuel shell prompt aliases envvars (removelast acc)))
                         else
                           bind (echo "No commands in buffer. Doing nothing.")
                                (fun _ => run_recorder_loop fuel shell prompt aliases envvars acc))
                      (set_stdin (answer :: rest) s)
               with
               | (r, s', ev2) =>
                   (r, s', (EvEcho (rec_prefix ++ p ++ " ") false :: ev2)%list)
               end).
  { intros fuel. cbn [run_recorder_loop]. rewrite Htheme.
    rewrite (bind_Ret _ _ _ _ _ _ Hp).
    rewrite (bind_Ret _ _ _ _ _ _ (click_prompt_line (rec_prefix ++ p ++ " ") _ _ _ Hs Ht)).
    rewrite Hc.
    change (String.eqb UNDO_COMMAND STOP_COMMAND) with false.
    change (String.eqb UNDO_COMMAND PREVIEW_COMMAND) with false.
    change (String.eqb UNDO_COMMAND UNDO_COMMAND) with true.
    cbv iota. destruct acc as [|a acc']; [congruence|].
    match goal with
    | |- context [bind ?m ?k ?st] => destruct (bind m k st) as [[r0 s0] ev0]
    end.
    reflexivity. }
  split; intros Ha.
  - destruct (echo_rec_buffer_returns (removelast acc) (set_stdin rest s))
      as (ev & Hb & Hev).
    exists (EvEcho (rec_prefix ++ p ++ " ") false
            :: EvEcho (("Remove command? " ++ DQ ++ last acc EmptyString ++ DQ)
                       ++ " [y/N]" ++ ": ") false
            :: EvEcho (Click.style "Removed command." TermString.kw_bold) true
            :: ev).
    split; [now repeat constructor|]. intros fuel.
    rewrite Hhead, (bind_Ret _ _ _ _ _ _ (Hyes Ha)).
    assert (Hsecho : secho "Removed command." TermString.kw_bold
                           (set_stdin rest (set_stdin (answer :: rest) s))
                     = (Ret tt, set_stdin rest s,
                        [EvEcho (Click.style "Removed command." TermString.kw_bold)
                           true])) by reflexivity.
    rewrite (bind_Ret _ _ _ _ _ _ Hsecho), (bind_Ret _ _ _ _ _ _ Hb).
    destruct (run_recorder_loop fuel shell prompt aliases envvars (removelast acc) (set_stdin rest s)) as [[r s'] ev2].
    reflexivity.
  - exists [EvEcho (rec_prefix ++ p ++ " ") false;
            EvEcho (("Remove command? " ++ DQ ++ last acc EmptyString ++ DQ)
                    ++ " [y/N]" ++ ": ") false;
            EvEcho "No commands in buffer. Doing nothing." true].
    split; [repeat constructor|]. split; [cbn; tauto|]. intros fuel.
    rewrite Hhead, (bind_Ret _ _ _ _ _ _ (Hno Ha)).
    assert (Hecho : echo "No commands in buffer. Doing nothing."
                         (set_stdin rest (set_stdin (answer :: rest) s))
                    = (Ret tt, set_stdin rest s,
                       [EvEcho "No commands in buffer. Doing nothing." true]))
      by reflexivity.
    rewrite (bind_Ret _ _ _ _ _ _ Hecho).
    destruct (run_recorder_loop fuel shell prompt aliases envvars acc (set_stdin rest s)) as [[r s'] ev2].
    reflexivity.
Qed.

(** A turn that undoes while the buffer is empty: no question is
    asked. *)
Lemma recorder_step_undo_empty (line : string) (rest : list string) (s : state) :
  Inv (os s) -> stdin s = line :: rest -> enters UNDO_COMMAND line = true ->
  exists ev1,
    terminal_only ev1
    /\ forall fuel,
        run_recorder_loop (S fuel) shell prompt aliases envvars [] s
        = match run_recorder_loop fuel shell prompt aliases envvars [] (set_stdin rest s) with
          | (r, s', ev2) => (r, s', (ev1 ++ ev2)%list)
          end.
Proof.
  intros Hi Hs He. apply enters_inv in He as [Ht Hc].
  destruct (proj1 Hcoop _ Hi) as [p Hp].
  exists [EvEcho (rec_prefix ++ p ++ " ") false;
          EvEcho "No commands in buffer. Doing nothing." true].
  split; [repeat constructor|]. intros fuel.
  cbn [run_recorder_loop]. rewrite Htheme.
  rewrite (bind_Ret _ _ _ _ _ _ Hp).
  rewrite (bind_Ret _ _ _ _ _ _ (click_prompt_line (rec_prefix ++ p ++ " ") _ _ _ Hs Ht)).
  rewrite Hc.
  change (String.eqb UNDO_COMMAND STOP_COMMAND) with false.
  change (String.eqb UNDO_COMMAND PREVIEW_COMMAND) with false.
  change (String.eqb UNDO_COMMAND UNDO_COMMAND) with true.
  cbv iota.
  rewrite (bind_Ret _ _ _ _ _ _ (echo_returns _ (set_stdin rest s))).
  destruct (run_recorder_loop fuel shell prompt aliases envvars [] (set_stdin rest s)) as [[r s'] ev2].
  reflexivity.
Qed.

(** The turns of the loop over lines that are commands and previews. *)
Lemma recorder_loop_prefix (cs : list string) :
  forall (acc rest : list string) (s : state),
    Inv (os s) -> stdin s = (cs ++ rest)%list -> Forall (fun l => recordable l || enters PREVIEW_COMMAND l = true) cs ->
    exists s2 ev1,
      Inv (os s2) /\ stdin s2 = rest
      /\ filter is_run_command ev1 = calls shell aliases envvars (map Py.strip (filter recordable cs))
      /\ filter is_write_file ev1 = []
      /\ forall fuel,
          run_recorder_loop (List.length cs + fuel) shell prompt aliases envvars acc s
          = match run_recorder_loop fuel shell prompt aliases envvars (acc ++ map Py.strip (filter recordable cs))%list s2 with
            | (r, s', ev2) => (r, s', (ev1 ++ ev2)%list)
            end.
Proof.
  induction cs as [|line cs IH]; intros acc rest s Hi Hs Hp.
  - exists s, []. repeat split; try assumption. intros fuel.
    cbn [List.length Nat.add filter map]. rewrite app_nil_r.
    now destruct (run_recorder_loop fuel shell prompt aliases envvars acc s) as [[r s'] ev2].
  - inversion Hp as [|? ? Hl Hp']; subst.
    destruct (recordable line) eqn:Hr.
    + destruct (recorder_step_command line (cs ++ rest)%list s Hi Hs Hr)
        as (s2 & e1 & Hi2 & Hs2 & Hc1 & Hw1 & Hstep).
      destruct (IH (acc ++ [Py.strip line])%list rest s2 Hi2 Hs2 Hp')
        as (s3 & e2 & Hi3 & Hs3 & Hc2 & Hw2 & Hrest).
      exists s3, (e1 ++ e2)%list.
      split; [exact Hi3|]. split; [exact Hs3|].
      cbn [filter]. rewrite Hr. cbn [map calls].
      split; [now rewrite filter_app, Hc1, Hc2|].
      split; [now rewrite filter_app, Hw1, Hw2|].
      intros fuel. cbn [List.length Nat.add].
      rewrite Hstep, Hrest, <- app_assoc. cbn [app].
      destruct (run_recorder_loop fuel shell prompt aliases envvars (acc ++ Py.strip line :: map Py.strip (filter recordable cs))%list s3)
        as [[r s'] ev2].
      now rewrite app_assoc.
    + cbn [orb] in Hl.
      destruct (recorder_step_preview line (cs ++ rest)%list acc s Hi Hs Hl)
        as (e1 & Ht1 & Hstep).
      destruct (IH acc rest (set_stdin (cs ++ rest)%list s) Hi eq_refl Hp')
        as (s3 & e2 & Hi3 & Hs3 & Hc2 & Hw2 & Hrest).
      exists s3, (e1 ++ e2)%list.
      split; [exact Hi3|]. split; [exact Hs3|].
      cbn [filter]. rewrite Hr.
      split; [now rewrite filter_app, (terminal_no_command _ Ht1), Hc2|].
      split; [now rewrite filter_app, (terminal_no_write _ Ht1), Hw2|].
      intros fuel. cbn [List.length Nat.add].
      rewrite Hstep, Hrest.
      destruct (run_recorder_loop fuel shell prompt aliases envvars (acc ++ map Py.strip (filter recordable cs))%list s3) as [[r s'] ev2].
      now rewrite app_assoc.
Qed.

(** The recorder on commands and previews, then [stop]. *)
Lemma run_recorder_returns (cs more : list string) (stop : string) (s : state) :
  Inv (os s) ->
  Forall (fun l => recordable l || enters PREVIEW_COMMAND l = true) cs ->
  enters STOP_COMMAND stop = true ->
  stdin s = (cs ++ stop :: more)%list ->
  exists s' ev,
    run_recorder shell prompt aliases envvars s
    = (Ret (map Py.strip (filter recordable cs)), s', ev)
    /\ Inv (os s') /\ stdin s' = more
    /\ filter is_run_command ev
       = calls shell aliases envvars (map Py.strip (filter recordable cs))
    /\ filter is_write_file ev = [].
Proof.
  intros Hi Hp Hstop Hs.
  destruct (recorder_loop_prefix cs [] (stop :: more) s Hi Hs Hp)
    as (s2 & e1 & Hi2 & Hs2 & Hc & Hw & Hloop).
  destruct (recorder_step_stop stop more (map Py.strip (filter recordable cs)) s2
              Hi2 Hs2 Hstop) as (e2 & Ht2 & Hend).
  exists (set_stdin more s2), (e1 ++ e2)%list.
  split.
  - unfold run_recorder. rewrite Hs, length_app. cbn [List.length].
    replace (S (List.length cs + S (List.length more)))
      with (List.length cs + S (S (List.length more))) by lia.
    rewrite Hloop. cbn [app]. now rewrite Hend.
  - split; [exact Hi2|]. split; [reflexivity|].
    split; [now rewrite filter_app, Hc, (terminal_no_command _ Ht2), app_nil_r|].
    now rewrite filter_app, Hw, (terminal_no_write _ Ht2).
Qed.

Lemma recordable_plain (cs : list string) :
  Forall (fun l => recordable l = true) cs ->
  Forall (fun l => recordable l || enters PREVIEW_COMMAND l = true) cs
  /\ filter recordable cs = cs.
Proof.
  induction 1 as [|l cs Hl _ [IH1 IH2]]; [split; [constructor | reflexivity]|].
  split; [constructor; [now rewrite Hl | exact IH1]|].
  cbn [filter]. now rewrite Hl, IH2.
Qed.




End RecorderLoop.

(** ** Decorators, styles, keys and the executor at their edges *)

Section Decorators.
Variable A : Type.

Lemma fold_left_inner (rest : list (A -> A)) :
  forall (f : A -> A) (x : A),
    fold_left inner rest f x = f (fold_right (fun g y => g y) x rest).
Proof.
  induction rest as [|g rest IH]; intros f x; [reflexivity|].
  cbn [fold_left fold_right]. now rewrite IH.
Qed.

(** X9.  [_compose] of the functions [f1], ..., [fn] is the function
    that applies [fn] first and [f1] last; of no function at all it is
    the [TypeError] of [functools.reduce].  So [player_command] applies
    the prompt option, then the speed option, then the shell option. *)
Theorem compose_applies_the_last_function_first (functions : list (A -> A))
    (x : A) :
  match _compose functions with
  | Some composed => composed x = fold_right (fun g y => g y) x functions
  | None => functions = []
  end
  /\ forall shell_option speed_option prompt_option : A -> A,
      _compose [shell_option; speed_option; prompt_option]
      = Some (fun f => shell_option (speed_option (prompt_option f))).
Proof.
  split; [|reflexivity].
  destruct functions as [|f rest]; [reflexivity|].
  cbn [_compose reduce fold_right]. apply fold_left_inner.
Qed.

End Decorators.

Section Styles.
Context {P : Platform}.

Lemma params_length_code (code rest : string) :
  Click.params_length code = String.length code ->
  Click.params_length (code ++ String "m" rest) = String.length code.
Proof.
  induction code as [|c code IH]; [reflexivity|].
  cbn [append Click.params_length String.length].
  destruct (Py.is_digit c || Ascii.eqb c ";"); [|discriminate].
  intros [= H]. now rewrite IH.
Qed.

(** A style code at the head of a text is taken away by [strip_ansi]. *)
Lemma strip_ansi_sgr (code rest : string) :
  Click.params_length code = String.length code ->
  Click.strip_ansi_from 0 (Click.sgr code ++ rest)
  = Click.strip_ansi_from 0 rest.
Proof.
  intros H. apply strip_ansi_from_sequence.
  unfold Click.sgr, Click.ESC. rewrite !sapp_assoc.
  change (String (ascii_of_nat 27) EmptyString ++ "[" ++ code ++ "m" ++ rest)
    with (String (ascii_of_nat 27) (String "[" (code ++ String "m" rest))).
  rewrite match_ansi_two. cbn [Ascii.eqb Bool.eqb].
  rewrite (params_length_code code rest H).
  replace (Py.drop (String.length code) (code ++ String "m" rest))
    with (String "m" rest) by (now rewrite drop_app).
  change (Ascii.eqb (ascii_of_nat 27) (ascii_of_nat 27)) with true.
  change (Py.is_alpha "m") with true. cbv iota. f_equal.
  rewrite !slength_app. cbn [String.length]. lia.
Qed.

Lemma strip_ansi_attr (on off rest : string) (a : option bool) :
  Click.params_length on = String.length on ->
  Click.params_length off = String.length off ->
  Click.strip_ansi_from 0 (Click.attr on off a ++ rest)
  = Click.strip_ansi_from 0 rest.
Proof.
  intros Hon Hoff. destruct a as [[|]|]; cbn [Click.attr];
    [now apply strip_ansi_sgr | now apply strip_ansi_sgr | reflexivity].
Qed.

Lemma strip_ansi_style (text : string) (k : Click.style_args) :
  Click.strip_ansi (Click.style text k) = Click.strip_ansi text.
Proof.
  unfold Click.strip_ansi, Click.style.
  assert (Hfg : Click.strip_ansi_from 0
                  (match Click.fg k with
                   | Some c => Click.sgr (Click.fg_code c)
                   | None => EmptyString
                   end
                   ++ Click.attr "1" "22" (Click.bold k)
                   ++ Click.attr "2" "22" (Click.dim k)
                   ++ Click.attr "4" "24" (Click.underline k)
                   ++ Click.attr "5" "25" (Click.blink k)
                   ++ text ++ Click.sgr "0")
                = Click.strip_ansi_from 0
                    (Click.attr "1" "22" (Click.bold k)
                     ++ Click.attr "2" "22" (Click.dim k)
                     ++ Click.attr "4" "24" (Click.underline k)
                     ++ Click.attr "5" "25" (Click.blink k)
                     ++ text ++ Click.sgr "0")).
  { destruct (Click.fg k) as [c|]; [|reflexivity].
    apply strip_ansi_sgr. now destruct c. }
  rewrite Hfg.
  rewrite !strip_ansi_attr by reflexivity.
  unfold Click.sgr at 1, Click.ESC.
  change (text ++ String (ascii_of_nat 27) EmptyString ++ "[" ++ "0" ++ "m")
    with (text ++ String (ascii_of_nat 27) "[0m").
  rewrite (strip_ansi_from_app text "[0m" (ascii_of_nat 27) eq_refl 0)
    by apply Nat.le_0_l.
  change (Click.strip_ansi_from 0 (String (ascii_of_nat 27) "[0m"))
    with EmptyString.
  apply sapp_nil_r.
Qed.

(** X10.  A [Style] changes the codes around a text, never the text
    that [strip_ansi] recovers: so a styled value is bracketed or
    labelled exactly when the value itself would be, and a styled empty
    value still collapses to a backspace, however many styles are
    chained. *)
Theorem styles_keep_the_underlying_text (k k' : Click.style_args)
    (text left right : string) :
  Click.strip_ansi (TermString.Style k text) = Click.strip_ansi text
  /\ Click.strip_ansi (TermString.Style k' (TermString.Style k text))
     = Click.strip_ansi text
  /\ TermString._bracketed (TermString.Style k text) left right
     = (if Py.truthy (Click.strip_ansi text)
        then left ++ TermString.Style k text ++ right
        else TermString.BS)
  /\ TermString.git (TermString.Style k text)
     = (if Py.truthy (Click.strip_ansi text)
        then Click.style "git" (TermString.kw_fg Click.blue) ++ ":"
             ++ TermString.Style k text
        else TermString.BS).
Proof.
  unfold TermString.Style, TermString._bracketed, TermString.git.
  rewrite !strip_ansi_style. auto.
Qed.

End Styles.

(** ** Keys, speeds and commands at their edges *)

Section Edges.
Context {P : Platform}.

Lemma wait_for_keys_any (chars ks : list string) :
  match wait_for_keys chars ks with
  | (Ret k, rest, ev) =>
      exists skipped,
        ks = (skipped ++ k :: rest)%list
        /\ Forall (passed_over chars) skipped
        /\ k <> ESC /\ is_in k chars = true
        /\ ev = (map EvKey skipped ++ [EvKey k; EvEcho EmptyString true])%list
  | (Raise e, rest, ev) =>
      e = Abort
      /\ exists skipped,
          ks = (skipped ++ ESC :: rest)%list
          /\ Forall (passed_over chars) skipped
          /\ ev = (map EvKey skipped ++ [EvKey ESC; EvEcho EmptyString true])%list
  | (Blocked, rest, ev) =>
      rest = [] /\ Forall (passed_over chars) ks /\ ev = map EvKey ks
  end.
Proof.
  induction ks as [|k ks IH]; cbn [wait_for_keys].
  - repeat split; constructor.
  - destruct (String.eqb_spec k ESC) as [->|Hne].
    + split; [reflexivity|]. exists []. repeat split; constructor.
    + destruct (is_in k chars) eqn:Hin.
      * exists []. repeat split; try assumption. constructor.
      * assert (Hk : passed_over chars k) by (now split).
        destruct (wait_for_keys chars ks) as [[[k'|e|] rest] ev].
        -- destruct IH as (skipped & -> & Hs & Hk' & Hin' & ->).
           exists (k :: skipped). repeat split; try assumption.
           now constructor.
        -- destruct IH as (-> & skipped & -> & Hs & ->).
           split; [reflexivity|]. exists (k :: skipped).
           repeat split. now constructor.
        -- destruct IH as (-> & Hs & ->). repeat split. now constructor.
Qed.

(** X11.  [wait_for] reads keys up to the first one that is the
    escape key or one of the keys awaited, and no further.  The keys
    before it are read and dropped without an echo; the escape key
    aborts, even when it is among the keys awaited; a key awaited is
    returned after a newline is shown; when no such key comes, all the
    keys are read and the function still waits. *)
Theorem wait_for_stops_at_the_first_key_awaited (chars : list string)
    (s : state) :
  match wait_for chars s with
  | (r, s', ev) =>
      s' = set_keys (keys s') s
      /\ match r with
         | Ret k =>
             exists skipped,
               keys s = (skipped ++ k :: keys s')%list
               /\ Forall (passed_over chars) skipped
               /\ k <> ESC /\ is_in k chars = true
               /\ ev = (map EvKey skipped
                        ++ [EvKey k; EvEcho EmptyString true])%list
         | Raise e =>
             e = Abort
             /\ exists skipped,
                 keys s = (skipped ++ ESC :: keys s')%list
                 /\ Forall (passed_over chars) skipped
                 /\ ev = (map EvKey skipped
                          ++ [EvKey ESC; EvEcho EmptyString true])%list
         | Blocked =>
             keys s' = [] /\ Forall (passed_over chars) (keys s)
             /\ ev = map EvKey (keys s)
         end
  end.
Proof.
  unfold wait_for. pose proof (wait_for_keys_any chars (keys s)) as H.
  destruct (wait_for_keys chars (keys s)) as [[r rest] ev].
  split; [reflexivity|]. destruct r as [k|e|]; exact H.
Qed.

Lemma keystroke_events_no_exec (text : string) (speed : Z) (ks : list string) :
  forall i, filter is_exec (keystroke_events text speed i ks) = [].
Proof.
  induction ks as [|k ks IH]; intros i; [reflexivity|].
  cbn [keystroke_events filter is_exec]. apply IH.
Qed.

(** X12.  With a speed that is not positive, the index of [magictype]
    never reaches the end of a text that is not empty: the command is
    never confirmed and never executed, whatever keys are pressed; the
    call ends only by the escape key, by an error of the prompt, or
    never. *)
Theorem nonpositive_speed_never_executes (text shell template : string)
    (aliases envvars : list string) (speed : Z) (t : bool) (s : state) :
  (speed <= 0)%Z -> Py.truthy text = true ->
  match magictype text shell template aliases envvars speed t s with
  | (r, s', ev) => r <> Ret tt /\ filter is_exec ev = [] /\ os s' = os s
  end.
Proof.
  intros Hspeed Htext.
  assert (Hlen : (0 < Py.len text)%Z).
  { destruct text; [discriminate|]. unfold Py.len. cbn [String.length]. lia. }
  destruct (make_prompt_formatter_pure template s) as [rp Hp].
  assert (Hfail : forall r0 : result string,
             make_prompt_formatter template s = (r0, s, []) ->
             (forall p, r0 <> Ret p) ->
             match magictype text shell template aliases envvars speed t s with
             | (r, s', ev) =>
                 r <> Ret tt /\ filter is_exec ev = [] /\ os s' = os s
             end).
  { intros r0 H0 Hr.
    destruct (magictype_without_prompt text shell template aliases envvars
                speed t s r0 H0 Hr) as (r' & -> & Hr').
    repeat split. apply Hr'. }
  destruct rp as [prompt|e|];
    [|apply (Hfail _ Hp); discriminate | apply (Hfail _ Hp); discriminate].
  rewrite (magictype_after_prompt _ _ _ _ _ _ _ _ _ Hp).
  pose proof (typing_never_completes text speed Hspeed (keys s) 0 Hlen) as Hn.
  pose proof (typing_keys_inv text speed (keys s) 0) as Hi.
  destruct (typing_keys text speed 0 (keys s)) as [[r0 ks1] ev1].
  cbn [fst] in Hn. destruct Hi as (typed & _ & Hi).
  destruct r0 as [[]|e|]; [congruence| |].
  - destruct Hi as [[? _]|[[? _]|[_ ->]]]; try discriminate.
    split; [discriminate|]. split; [|reflexivity].
    cbn [filter is_exec]. now rewrite filter_app, keystroke_events_no_exec.
  - destruct Hi as [[? _]|[[_ ->]|[? _]]]; try discriminate.
    split; [discriminate|]. split; [|reflexivity].
    cbn [filter is_exec]. apply keystroke_events_no_exec.
Qed.

Lemma split_from_all_space (pad : string) :
  all_space pad = true -> Py.split_from EmptyString pad = [].
Proof.
  induction pad as [|c pad IH]; [reflexivity|]. cbn [all_space Py.split_from].
  intros H. apply andb_prop in H as [-> H]. now apply IH.
Qed.

(** X13.  [cd] followed by white space only has no second word:
    [run_command] raises [IndexError] before it touches the directory
    or the temporary file.  The lines that [run] and the recorder hand
    to it are stripped, and on a stripped line [run_command] never
    raises [IndexError]. *)
Theorem cd_without_directory_raises_IndexError (shell : string)
    (aliases envvars : list string) (t : bool) (s : state) :
  (forall pad,
      all_space pad = true ->
      run_command ("cd " ++ pad) shell aliases envvars t s
      = (Raise IndexError, s,
         [EvRunCommand ("cd " ++ pad) shell aliases envvars]))
  /\ forall line,
      fst (fst (run_command (Py.strip line) shell aliases envvars t s))
      <> Raise IndexError.
Proof.
  split.
  - intros pad Hpad. unfold run_command, bind, emit. cbv beta iota zeta.
    assert (Hcd : Py.startswith "cd " ("cd " ++ pad) = true)
      by (apply (prefix_app "cd ")).
    assert (Hsplit : Py.split ("cd " ++ pad)
                     = "cd" :: Py.split_from EmptyString pad) by reflexivity.
    now rewrite Hcd, Hsplit, (split_from_all_space pad Hpad).
  - intros line. unfold run_command, bind, emit. cbv beta iota zeta.
    destruct (Py.startswith "cd " (Py.strip line)) eqn:Hcd.
    + destruct (stripped_cd_has_directory line Hcd) as (d & more & ->).
      unfold change_directory.
      now destruct (os_chdir (expanduser (os s) d) (os s)).
    + unfold with_NamedTemporaryFile, finally, run_script. cbn [os set_tmpfiles].
      destruct (spawn (resolve_shell (os s) shell) (tmp_name (os s))
                  (script_text (Py.strip line) (resolve_shell (os s) shell)
                     aliases envvars) (os s)) as [[[status output]|] o'];
        [|discriminate].
      destruct t; [destruct (status =? 0)%Z|]; discriminate.
Qed.

(** A command that is not a [cd], when the child process starts. *)
Lemma run_command_spawned (cmd shell : string) (aliases envvars : list string)
    (t : bool) (s : state) (status : Z) (output : string) (o' : OS) :
  Py.startswith "cd " cmd = false ->
  spawn (resolve_shell (os s) shell) (tmp_name (os s))
        (script_text cmd (resolve_shell (os s) shell) aliases envvars) (os s)
  = (Some (status, output), o') ->
  run_command cmd shell aliases envvars t s
  = if t then
      if (status =? 0)%Z then
        (Ret None, set_os o' s,
         [EvRunCommand cmd shell aliases envvars;
          EvSpawn (resolve_shell (os s) shell) (tmp_name (os s))
            (script_text cmd (resolve_shell (os s) shell) aliases envvars);
          EvEcho output true])
      else
        (Raise CalledProcessError, set_os o' s,
         [EvRunCommand cmd shell aliases envvars;
          EvSpawn (resolve_shell (os s) shell) (tmp_name (os s))
            (script_text cmd (resolve_shell (os s) shell) aliases envvars)])
    else
      (Ret (Some status), set_os o' s,
       [EvRunCommand cmd shell aliases envvars;
        EvSpawn (resolve_shell (os s) shell) (tmp_name (os s))
          (script_text cmd (resolve_shell (os s) shell) aliases envvars)]).
Proof.
  intros Hcd Hsp. unfold run_command, bind, emit. cbv beta iota zeta.
  rewrite Hcd. unfold with_NamedTemporaryFile, finally, run_script.
  cbn [os set_tmpfiles]. rewrite Hsp.
  destruct t; [destruct (status =? 0)%Z|];
    cbn [set_tmpfiles set_os tmpfiles keys stdin os app];
    now rewrite remove_first_head.
Qed.

(** X14.  A command that exits with a status other than 0.  Outside
    the test mode the status is dropped: the playback goes on with the
    next line, in the state that the command left.  In the test mode
    [check_output] raises [CalledProcessError]: the playback ends there
    and the lines that follow are not played. *)
Theorem failing_command_stops_the_playback_in_test_mode_only
    (line : string) (rest : list string) (c : config) (s : state)
    (prompt : string) (typed waits : list string) (r : string)
    (ks : list string) (status : Z) (output : string) (o' : OS) :
  is_command line = true ->
  Py.startswith "cd " (Py.strip line) = false ->
  (1 <= cfg_speed c)%Z ->
  make_prompt_formatter (cfg_prompt_template c) s = (Ret prompt, s, []) ->
  Forall not_esc typed ->
  Z.of_nat (List.length typed) = ceil_div (Py.len (Py.strip line)) (cfg_speed c) ->
  Forall not_esc_nor_return waits ->
  is_in r RETURNS = true ->
  keys s = (typed ++ waits ++ r :: ks)%list ->
  spawn (resolve_shell (os s) (cfg_shell c)) (tmp_name (os s))
        (script_text (Py.strip line) (resolve_shell (os s) (cfg_shell c))
           (cfg_aliases c) (cfg_envvars c)) (os s)
  = (Some (status, output), o') ->
  status <> 0%Z ->
  run_lines (line :: rest) c false s
  = match run_lines rest c false (set_os o' (set_keys ks s)) with
    | (res, s', ev) =>
        (res, s',
         ((EvEcho (prompt ++ " ") false
           :: keystroke_events (Py.strip line) (cfg_speed c) 0 typed
           ++ (map EvKey waits ++ [EvKey r; EvEcho EmptyString true])
           ++ [EvRunCommand (Py.strip line) (cfg_shell c) (cfg_aliases c)
                 (cfg_envvars c);
               EvSpawn (resolve_shell (os s) (cfg_shell c)) (tmp_name (os s))
                 (script_text (Py.strip line)
                    (resolve_shell (os s) (cfg_shell c))
                    (cfg_aliases c) (cfg_envvars c))])
          ++ ev)%list)
    end
  /\ run_lines (line :: rest) c true s
     = (Raise CalledProcessError, set_os o' (set_keys ks s),
        (EvEcho (prompt ++ " ") false
         :: keystroke_events (Py.strip line) (cfg_speed c) 0 typed
         ++ (map EvKey waits ++ [EvKey r; EvEcho EmptyString true])
         ++ [EvRunCommand (Py.strip line) (cfg_shell c) (cfg_aliases c)
               (cfg_envvars c);
             EvSpawn (resolve_shell (os s) (cfg_shell c)) (tmp_name (os s))
               (script_text (Py.strip line)
                  (resolve_shell (os s) (cfg_shell c))
                  (cfg_aliases c) (cfg_envvars c))])%list).
Proof.
  intros Hc Hcd Hs Hp Hk Hn Hw Hr Hkeys Hsp Hst.
  assert (Hz : (status =? 0)%Z = false) by (now apply Z.eqb_neq).
  split.
  - rewrite run_lines_command by assumption. unfold bind at 1.
    rewrite (magictype_confirmed _ _ _ _ _ _ _ _ _ _ _ _ _ Hs Hp Hk Hn Hw Hr
               Hkeys).
    rewrite (run_command_spawned _ _ _ _ false (set_keys ks s) status output o'
               Hcd Hsp).
    cbn [discard].
    destruct (run_lines rest c false (set_os o' (set_keys ks s)))
      as [[res s'] ev].
    reflexivity.
  - rewrite run_lines_command by assumption. unfold bind at 1.
    rewrite (magictype_confirmed _ _ _ _ _ _ _ _ _ _ _ _ _ Hs Hp Hk Hn Hw Hr
               Hkeys).
    rewrite (run_command_spawned _ _ _ _ true (set_keys ks s) status output o'
               Hcd Hsp).
    rewrite Hz. reflexivity.
Qed.

Lemma format_prompt_without_HOME (tpl : string) (s : state) :
  environ (os s) "HOME" = None ->
  format_prompt tpl s = (Raise KeyError, s, []).
Proof.
  intros H. unfold format_prompt, get_prompt_state. now rewrite H.
Qed.

Lemma make_prompt_formatter_without_HOME (template : string) (s : state) :
  environ (os s) "HOME" = None ->
  make_prompt_formatter template s = (Raise KeyError, s, []).
Proof. intros H. unfold make_prompt_formatter. now apply format_prompt_without_HOME. Qed.

Lemma run_lines_without_HOME (lines : list string) :
  forall (c : config) (t : bool) (s : state),
    environ (os s) "HOME" = None ->
    exists r,
      run_lines lines c t s = (r, s, [])
      /\ (r = Raise KeyError \/ r = Raise ValueError \/ exists c1, r = Ret c1).
Proof.
  induction lines as [|line rest IH]; intros c t s H.
  - exists (Ret c). split; [reflexivity|]. right. right. now exists c.
  - destruct (is_command line) eqn:Hc.
    + rewrite run_lines_command by assumption.
      exists (Raise KeyError). split; [|now left].
      unfold magictype, bind.
      now rewrite (make_prompt_formatter_without_HOME _ s H).
    + destruct (directive_of line) as [[o a]|] eqn:Hd.
      * rewrite (run_lines_directive _ _ _ _ _ _ Hd).
        repeat match goal with
               | |- context [String.eqb o ?n] => destruct (String.eqb o n)
               end; try (now apply IH).
        destruct (Py.int a); [now apply IH|].
        exists (Raise ValueError). split; [reflexivity|]. right. now left.
      * rewrite run_lines_ignored by assumption. now apply IH.
Qed.

(** X15.  [get_prompt_state] reads [env['HOME']]: when [HOME] is not
    set, every prompt raises [KeyError].  So no playback returns and
    none executes a command: [run] ends by [KeyError] at the first
    prompt, unless it stopped before on a speed that is not a number or
    waits for the key of [click.pause]. *)
Theorem playback_needs_HOME (commands : list string) (shell template : string)
    (speed : Z) (t : bool) (s : state) :
  environ (os s) "HOME" = None ->
  match run commands shell template speed t s with
  | (r, s', ev) =>
      (r = Raise KeyError \/ r = Raise ValueError \/ r = Blocked)
      /\ filter is_exec ev = [] /\ os s' = os s
  end.
Proof.
  intros H. unfold run, secho.
  rewrite (bind_Ret _ _ _ _ _ _ (echo_returns _ s)).
  rewrite (bind_Ret _ _ _ _ _ _ (echo_returns _ s)).
  assert (Hrest : forall s1 : state,
             os s1 = os s ->
             match
               bind clear
                 (fun _ =>
                    bind (run_lines commands
                            {| cfg_shell := shell; cfg_prompt_template := template;
                               cfg_aliases := []; cfg_envvars := [];
                               cfg_speed := speed |} t)
                      (fun c =>
                         bind (make_prompt_formatter (cfg_prompt_template c))
                           (fun prompt =>
                              bind (emit (EvEcho (prompt ++ " ") false))
                                (fun _ =>
                                   bind (wait_for RETURNS)
                                     (fun _ => echo (Click.style "FINISHED SESSION"
                                                       kw_yellow_bold))))))
                 s1
             with
             | (r, s', ev) =>
                 (r = Raise KeyError \/ r = Raise ValueError)
                 /\ ev = [EvClear] /\ os s' = os s
             end).
  { intros s1 Hos. assert (H1 : environ (os s1) "HOME" = None) by (now rewrite Hos).
    assert (Hclear : clear s1 = (Ret tt, s1, [EvClear])) by reflexivity.
    rewrite (bind_Ret _ _ _ _ _ _ Hclear).
    destruct (run_lines_without_HOME commands
                {| cfg_shell := shell; cfg_prompt_template := template;
                   cfg_aliases := []; cfg_envvars := []; cfg_speed := speed |}
                t s1 H1) as (r1 & Hl & Hr1).
    unfold bind at 1. rewrite Hl.
    destruct Hr1 as [-> | [-> | [c1 ->]]].
    - repeat split; auto.
    - repeat split; auto.
    - unfold bind at 1.
      rewrite (make_prompt_formatter_without_HOME _ s1 H1).
      repeat split; auto. }
  unfold bind at 1. unfold pause.
  destruct (isatty (os s)).
  - destruct (keys s) as [|k ks] eqn:Hk.
    + repeat split. right. now right.
    + specialize (Hrest (set_keys ks s) eq_refl).
      destruct (bind clear _ (set_keys ks s)) as [[r s'] ev].
      destruct Hrest as (Hr & -> & Hos).
      repeat split; [tauto | exact Hos].
  - specialize (Hrest s eq_refl).
    destruct (bind clear _ s) as [[r s'] ev].
    destruct Hrest as (Hr & -> & Hos).
    repeat split; [tauto | exact Hos].
Qed.

(** X16.  [record] on a session file that exists asks before anything
    else.  A no, an empty answer, or no answer at all abort the command:
    nothing but the question is shown, nothing is executed and the file
    is not written. *)
Theorem record_keeps_an_existing_file_unless_confirmed
    (session_file shell prompt : string) (alias envvar : list string)
    (s : state) :
  os_path_exists session_file (os s) = true ->
  (forall answer more,
      stdin s = answer :: more -> says_no answer = true ->
      record session_file shell prompt alias envvar s
      = (Raise Abort, set_stdin more s,
         [EvEcho (("File " ++ DQ ++ session_file ++ DQ
                   ++ " already exists. Overwrite?") ++ " [y/N]" ++ ": ")
                 false]))
  /\ (stdin s = [] ->
      record session_file shell prompt alias envvar s
      = (Raise Abort, set_stdin [] s,
         [EvEcho (("File " ++ DQ ++ session_file ++ DQ
                   ++ " already exists. Overwrite?") ++ " [y/N]" ++ ": ")
                 false])).
Proof.
  intros Hex. split.
  - intros answer more Hs Hno. unfold record. unfold bind at 1.
    rewrite Hex. unfold bind at 1.
    destruct (click_confirm_answer
                ("File " ++ DQ ++ session_file ++ DQ
                 ++ " already exists. Overwrite?") answer more true s Hs)
      as [_ Hn].
    now rewrite (Hn Hno).
  - intros Hs. unfold record. unfold bind at 1. rewrite Hex.
    unfold bind at 1. unfold click_confirm. rewrite Hs. reflexivity.
Qed.

End Edges.

(** ** The command [record] as a whole *)

Section Recording.
Context {P : Platform}.
Variable Inv : OS -> Prop.
Variables shell prompt tpl : string.
Variables alias envvar : list string.
Hypothesis Htheme : themes_get THEMES prompt = Some tpl.
Hypothesis Hcoop : cooperative Inv tpl.

(** A sequence whose first part returns. *)
Lemma bind_returns {A B} (m : M A) (k : A -> M B) (s s1 s2 : state) (a : A)
    (b : result B) (ev1 ev2 : list event) :
  m s = (Ret a, s1, ev1) -> k a s1 = (b, s2, ev2) ->
  bind m k s = (b, s2, (ev1 ++ ev2)%list).
Proof. intros Hm Hk. unfold bind. now rewrite Hm, Hk. Qed.

(** [click.pause] returns when the terminal is not interactive or a
    key is there. *)
Lemma pause_returns (s : state) :
  (isatty (os s) = true -> keys s <> []) ->
  exists s1 ev,
    pause s = (Ret tt, s1, ev) /\ os s1 = os s /\ stdin s1 = stdin s
    /\ terminal_only ev.
Proof.
  intros Hk. unfold pause. destruct (isatty (os s)).
  - destruct (keys s) as [|k ks]; [now destruct (Hk eq_refl)|].
    exists (set_keys ks s). eexists. repeat split. repeat constructor.
  - exists s, []. repeat split. constructor.
Qed.


End Recording.

(** ** The theorems on a concrete machine *)

Lemma run_command_script_witness :
  exists r s' tail,
    run_command (P := Demo.platform) "ls -l" "/bin/bash" ["ll=ls -l"] ["A=1"] false
                (Demo.start [] [] None)
    = (r, s',
       [EvRunCommand "ls -l" "/bin/bash" ["ll=ls -l"] ["A=1"];
        EvSpawn "/bin/bash" "/tmp/tmpdoitlive"
          (unlines ["#!/bin/bash"; "# -*- coding: utf-8 -*-";
                    "shopt -s expand_aliases"; "export A=1";
                    "alias ll=ls -l"; "ls -l"])]
       ++ tail)%list
    /\ tmpfiles s' = [].
Proof.
  destruct (run_command_script (P := Demo.platform)
              "ls -l" "/bin/bash" ["ll=ls -l"] ["A=1"] false
              (Demo.start [] [] None) eq_refl)
    as (r & s' & tail & H & Ht & _).
  exists r, s', tail. split; [exact H | exact Ht].
Defined.

(** C9 at the failing input: on a machine without [git], [Popen] raises
    [OSError]; the lookup raises it too, and so do the prompt and the
    whole playback, before any command is executed. *)
Theorem git_missing_raises_OSError :
  get_current_git_branch (P := Demo.platform)
    {| Demo.m_cwd := "/home/demo"; Demo.m_git := None |} = Raise OSError
  /\ run (P := Demo.platform) ["ls"] "/bin/bash" "default" 1 false
         (Demo.start ["l"; "s"; CR; CR] [] None)
     = (Raise OSError, Demo.start ["l"; "s"; CR; CR] [] None,
        [EvEcho (Click.style "We'll do it live!" kw_red_bold) true;
         EvEcho (Click.style "STARTING SESSION: Press Ctrl-C at any time to exit."
                   kw_yellow_bold) true;
         EvClear]).
Proof. split; reflexivity. Qed.

Lemma run_command_cd_witness :
  run_command (P := Demo.platform) "cd /nowhere" "/bin/bash" [] [] false
              (Demo.start [] [] None)
  = (Ret None, Demo.start [] [] None,
     [EvRunCommand "cd /nowhere" "/bin/bash" [] [];
      EvEcho "No such file or directory: /nowhere" true])
  /\ run_command (P := Demo.platform) "cd ~/src" "/bin/bash" [] [] false
                 (Demo.start [] [] None)
     = (Ret None,
        Demo.start_in "/home/demo/src" [] [] None,
        [EvRunCommand "cd ~/src" "/bin/bash" [] [];
         EvChdir "/home/demo/src"]).
Proof.
  split.
  - apply (run_command_cd (P := Demo.platform) "cd /nowhere" "/bin/bash" [] []
             false (Demo.start [] [] None) "cd" "/nowhere" []);
      reflexivity.
  - apply (run_command_cd (P := Demo.platform) "cd ~/src" "/bin/bash" [] []
             false (Demo.start [] [] None) "cd" "~/src" []);
      reflexivity.
Defined.

(** C4, as the specification states it, fails: in [cd /tmp x] the rest
    of the line is [/tmp x], a path that cannot be entered; the executor
    does not warn and leave the directory as it was, it enters [/tmp]. *)
Lemma cd_takes_second_word_only :
  Py.drop 3 "cd /tmp x" = "/tmp x"
  /\ os_chdir (Platform := Demo.platform) "/tmp x"
       {| Demo.m_cwd := "/home/demo"; Demo.m_git := None |} = None
  /\ run_command (P := Demo.platform) "cd /tmp x" "/bin/bash" [] [] false
                 (Demo.start [] [] None)
     = (Ret None,
        Demo.start_in "/tmp" [] [] None,
        [EvRunCommand "cd /tmp x" "/bin/bash" [] []; EvChdir "/tmp"]).
Proof. repeat split. Qed.

Lemma typing_takes_ceil_keystrokes_witness :
  ceil_div (Py.len "ls -l") 2 = 3%Z
  /\ typing_keys "ls -l" 2 0 (["a"; "b"; "c"] ++ [CR])%list
     = (Ret tt, [CR], keystroke_events "ls -l" 2 0 ["a"; "b"; "c"])
  /\ echoed (keystroke_events "ls -l" 2 0 ["a"; "b"; "c"]) = "ls -l"
  /\ magictype (P := Demo.platform) "ls -l" "/bin/bash" "default" [] [] 2 false
               (Demo.start ["a"; "b"; "c"; "x"; CR; "z"] [] (Some "master"))
     = (Ret tt, Demo.start ["z"] [] (Some "master"),
        [EvEcho "{user.cyan.bold}@{hostname.blue}:{dir.green} $ " false;
         EvKey "a"; EvEcho "ls" false;
         EvKey "b"; EvEcho " -" false;
         EvKey "c"; EvEcho "l" false;
         EvKey "x"; EvKey CR; EvEcho EmptyString true;
         EvRunCommand "ls -l" "/bin/bash" [] [];
         EvSpawn "/bin/bash" "/tmp/tmpdoitlive"
           (unlines ["#!/bin/bash"; "# -*- coding: utf-8 -*-";
                     "shopt -s expand_aliases"; "ls -l"])]).
Proof.
  split; [reflexivity|].
  destruct (typing_takes_ceil_keystrokes (P := Demo.platform) "ls -l" 2
              ltac:(lia)) as (_ & Hfull & Hmagic).
  assert (Hk : Forall not_esc ["a"; "b"; "c"])
    by (repeat constructor; discriminate).
  assert (Hw : Forall not_esc_nor_return ["x"])
    by (repeat constructor; discriminate).
  destruct (Hfull ["a"; "b"; "c"] [CR] Hk eq_refl) as [H1 H2].
  split; [exact H1|]. split; [exact H2|].
  destruct (Hmagic "/bin/bash" "default" [] [] false
                   (Demo.start ["a"; "b"; "c"; "x"; CR; "z"] [] (Some "master"))
                   "{user.cyan.bold}@{hostname.blue}:{dir.green} $"
                   ["a"; "b"; "c"] ["x"] eq_refl Hk eq_refl Hw) as [_ Hc].
  rewrite (Hc CR ["z"] eq_refl eq_refl). reflexivity.
Defined.

Lemma playback_confirms_then_executes_witness :
  exists s' ev,
    run (P := Demo.platform) ["ls"; "pwd"] "/bin/bash" "default" 1 false
        (Demo.start ["l"; "s"; CR; "p"; ESC; "x"] [] (Some "master"))
    = (Raise Abort, s', ev)
    /\ filter is_run_command ev = [EvRunCommand "ls" "/bin/bash" [] []].
Proof.
  pose (out := run (P := Demo.platform) ["ls"; "pwd"] "/bin/bash" "default" 1 false
                   (Demo.start ["l"; "s"; CR; "p"; ESC; "x"] [] (Some "master"))).
  assert (H : run (P := Demo.platform) ["ls"; "pwd"] "/bin/bash" "default" 1 false
                  (Demo.start ["l"; "s"; CR; "p"; ESC; "x"] [] (Some "master"))
              = (fst (fst out), snd (fst out), snd out))
    by (vm_compute; reflexivity).
  destruct (playback_confirms_then_executes _ _ _ _ _ _ _ _ _ H) as [_ Hesc].
  destruct (Hesc (firstn 15 (snd out)) (skipn 16 (snd out))
                 ltac:(vm_compute; reflexivity)) as (Hr & _).
  exists (snd (fst out)), (snd out).
  split; [|vm_compute; reflexivity].
  rewrite H. now rewrite Hr.
Defined.

Lemma directives_apply_left_to_right_witness :
  cfg_aliases
    {| cfg_shell := "/bin/zsh"; cfg_prompt_template := "osx";
       cfg_aliases := ["ll=ls -l"; "ll=ls -l"]; cfg_envvars := [];
       cfg_speed := 2 |}
  = (cfg_aliases Demo.defaults
     ++ directive_args "alias"
          ["#doitlive alias: ll=ls -l"; "  #doitlive alias: ll=ls -l";
           "#doitlive speed: 2"; "# doitlive prompt: sorin";
           "#doitlive prompt:   osx"; "#doitlive shell: /bin/zsh"])%list.
Proof.
  destruct (directives_apply_left_to_right (P := Demo.platform)
              ["#doitlive alias: ll=ls -l"; "  #doitlive alias: ll=ls -l";
               "#doitlive speed: 2"; "# doitlive prompt: sorin";
               "#doitlive prompt:   osx"; "#doitlive shell: /bin/zsh"]
              ["ls"] Demo.defaults
              {| cfg_shell := "/bin/zsh"; cfg_prompt_template := "osx";
                 cfg_aliases := ["ll=ls -l"; "ll=ls -l"]; cfg_envvars := [];
                 cfg_speed := 2 |}
              false (Demo.start ["a"; CR] [] (Some "m"))
              (Demo.start ["a"; CR] [] (Some "m")) [] eq_refl)
    as ((Ha & _) & _).
  exact Ha.
Defined.

Lemma speed_directive_sets_integer_witness :
  run_lines (P := Demo.platform) ["#doitlive speed: 7"] Demo.defaults false
            (Demo.start [] [] None)
  = (Ret (set_speed 7 Demo.defaults), Demo.start [] [] None, []).
Proof.
  destruct (speed_directive_sets_integer (P := Demo.platform)
              "#doitlive speed: 7" "7" Demo.defaults false
              (Demo.start [] [] None) eq_refl) as [H _].
  exact (proj1 (H 7%Z eq_refl)).
Defined.

(** C7, as the specification states it, fails: a script sets the speed
    to zero, and another to a negative value; neither directive fails. *)
Lemma speed_directive_accepts_zero_and_negative :
  run_lines (P := Demo.platform) ["#doitlive speed: 0"] Demo.defaults false
            (Demo.start [] [] None)
  = (Ret (set_speed 0 Demo.defaults), Demo.start [] [] None, [])
  /\ run_lines (P := Demo.platform) ["#doitlive speed: -3"] Demo.defaults false
               (Demo.start [] [] None)
     = (Ret (set_speed (-3) Demo.defaults), Demo.start [] [] None, [])
  /\ ~ (1 <= cfg_speed (set_speed 0 Demo.defaults))%Z
  /\ ~ (1 <= cfg_speed (set_speed (-3) Demo.defaults))%Z.
Proof.
  repeat split; cbn; lia.
Qed.

Lemma record_then_play_ls_pwd_witness :
  In (EvWriteFile "session.sh"
        (session_text "/bin/bash" "default" [] [] ["ls"; "pwd"]))
     (snd (record (P := Demo.platform) "session.sh" "/bin/bash" "default" [] []
                  (Demo.start [] ["ls"; "pwd"; "stop"] (Some "master"))))
  /\ filter is_run_command
       (snd (play (P := Demo.platform)
               (session_text "/bin/bash" "default" [] [] ["ls"; "pwd"])
               "/bin/sh" 3 "sorin"
               (Demo.start ["a"; CR; "b"; NL; CR] [] (Some "m"))))
     = [ EvRunCommand "ls" "/bin/bash" [] [];
         EvRunCommand "pwd" "/bin/bash" [] [] ].
Proof.
  pose (rec := record (P := Demo.platform) "session.sh" "/bin/bash" "default" [] []
                      (Demo.start [] ["ls"; "pwd"; "stop"] (Some "master"))).
  assert (Hrec : record (P := Demo.platform) "session.sh" "/bin/bash" "default"
                        [] [] (Demo.start [] ["ls"; "pwd"; "stop"] (Some "master"))
                 = (Ret tt, snd (fst rec), snd rec))
    by (vm_compute; reflexivity).
  destruct (record_then_play_ls_pwd (P := Demo.platform) "session.sh" []
              (Demo.start [] ["ls"; "pwd"; "stop"] (Some "master"))
              (snd (fst rec)) (snd rec) eq_refl eq_refl Hrec)
    as (Hin & _ & Hplay).
  split; [exact Hin|].
  pose (pl := play (P := Demo.platform)
                   (session_text "/bin/bash" "default" [] [] ["ls"; "pwd"])
                   "/bin/sh" 3 "sorin"
                   (Demo.start ["a"; CR; "b"; NL; CR] [] (Some "m"))).
  apply (Hplay "/bin/sh" 3%Z "sorin"
               (Demo.start ["a"; CR; "b"; NL; CR] [] (Some "m"))
               (snd (fst pl))).
  vm_compute; reflexivity.
Defined.

Lemma directive_without_value_is_comment_witness :
  OptionRE.re_match (Py.strip "  # doitlive   speed:  ") = None
  /\ run_lines (P := Demo.platform) ["  # doitlive   speed:  "; "ls"]
               Demo.defaults false
     = run_lines (P := Demo.platform) ["ls"] Demo.defaults false.
Proof.
  assert (Hin : In "speed" OptionRE.option_names) by (cbn; auto 10).
  assert (Hgap : " " = EmptyString
                 \/ exists c, Py.is_space c = true /\ " " = String c EmptyString)
    by (right; exists " "%char; split; reflexivity).
  assert (Hne : "   " <> EmptyString) by discriminate.
  exact (directive_without_value_is_comment (P := Demo.platform)
           "speed" "  " " " "   " "  " ["ls"] Demo.defaults false
           Hin eq_refl eq_refl Hgap eq_refl Hne).
Defined.

(** *** Directives, sessions and the recorder on a concrete machine *)

Lemma option_re_match_shape_witness :
  In "speed" OptionRE.option_names
  /\ free_of OptionRE.LF "7" = true
  /\ exists gap0 gap1 gap2 tail,
      "# doitlive  speed:   7"
      = "#" ++ gap0 ++ "doitlive" ++ gap1 ++ "speed" ++ ":" ++ gap2 ++ "7" ++ tail
      /\ at_most_one_space gap0 = true.
Proof.
  destruct (option_re_match_shape "# doitlive  speed:   7" "speed" "7" eq_refl)
    as (H1 & _ & H3 & g0 & g1 & g2 & tail & H4 & H5 & _).
  split; [exact H1|]. split; [exact H3|].
  exists g0, g1, g2, tail. split; assumption.
Defined.

Lemma option_re_match_complete_witness :
  OptionRE.re_match ("# doitlive  alias: ll=ls -l" ++ NL)
  = Some ("alias", "ll=ls -l").
Proof.
  refine (option_re_match_complete "alias" "ll=ls -l" " " "  " " " NL
            _ eq_refl eq_refl _ eq_refl _ eq_refl eq_refl (or_intror eq_refl)).
  - simpl. tauto.
  - discriminate.
  - discriminate.
Defined.

Lemma directive_value_is_trimmed_witness :
  trimmed "ll=ls -l" = true
  /\ exists gap0 gap1 rest,
      Py.strip ("  # doitlive alias:   ll=ls -l   " ++ NL)
      = "#" ++ gap0 ++ "doitlive" ++ gap1 ++ "alias" ++ ":" ++ rest
      /\ "ll=ls -l" = Py.strip rest.
Proof.
  destruct (directive_value_is_trimmed
              ("  # doitlive alias:   ll=ls -l   " ++ NL) "alias" "ll=ls -l"
              eq_refl) as (_ & Ht & _ & Hs).
  split; assumption.
Defined.

Lemma recorded_session_replays_witness :
  planned_commands
    (readlines
       (session_text "/bin/zsh" "sorin" ["ll=ls -l"] ["A=1"]
          ["ls"; "cd /tmp"; "pwd"]))
    Demo.defaults
  = [ EvRunCommand "ls" "/bin/zsh" ["ll=ls -l"] ["A=1"];
      EvRunCommand "cd /tmp" "/bin/zsh" ["ll=ls -l"] ["A=1"];
      EvRunCommand "pwd" "/bin/zsh" ["ll=ls -l"] ["A=1"] ].
Proof.
  assert (H1 : Forall (fun a => clean a = true) ["ll=ls -l"])
    by (repeat constructor).
  assert (H2 : Forall (fun v => clean v = true) ["A=1"])
    by (repeat constructor).
  assert (H3 : Forall (fun cmd => clean_command cmd = true)
                      ["ls"; "cd /tmp"; "pwd"])
    by (repeat constructor).
  destruct (recorded_session_replays (P := Demo.platform)
              "/bin/zsh" "sorin" ["ll=ls -l"] ["A=1"] ["ls"; "cd /tmp"; "pwd"]
              eq_refl eq_refl H1 H2 H3)
    as (_ & H & _).
  exact (H Demo.defaults).
Defined.

(** The machines of [Demo] with a [git] that answers are cooperative. *)
Lemma demo_cooperative :
  cooperative (P := Demo.platform) on_master default_theme.
Proof.
  split; [|split].
  - intros [ks input [cwd git] tmp] H. unfold on_master in H. simpl in H.
    subst git. now exists default_theme.
  - intros sh name script o H. exists 0%Z, EmptyString, o. now split.
  - intros path o o' H Hc. simpl in Hc. unfold Demo.chdir in Hc.
    destruct (existsb (String.eqb path) Demo.directories); [|discriminate].
    injection Hc as <-. exact H.
Qed.




(** *** Styles, keys and failures on a concrete machine *)

Lemma nonpositive_speed_never_executes_witness :
  match magictype (P := Demo.platform) "ls" "/bin/bash" "default" [] [] 0 false
          (Demo.start ["l"; "s"; CR] [] (Some "master")) with
  | (r, s', ev) =>
      r <> Ret tt /\ filter is_exec ev = []
      /\ os s' = os (Demo.start ["l"; "s"; CR] [] (Some "master"))
  end.
Proof.
  apply (nonpositive_speed_never_executes (P := Demo.platform)
           "ls" "/bin/bash" "default" [] [] 0 false
           (Demo.start ["l"; "s"; CR] [] (Some "master"))).
  - lia.
  - reflexivity.
Defined.

Lemma failing_command_stops_the_playback_in_test_mode_only_witness :
  fst (fst (run_lines (P := Lab.platform) ["ls"; "pwd"] Lab.dollar true
              (Lab.start Lab.failing ["l"; "s"; CR; "p"] [])))
  = Raise CalledProcessError
  /\ fst (fst (run_lines (P := Lab.platform) ["ls"; "pwd"] Lab.dollar false
                 (Lab.start Lab.failing ["l"; "s"; CR; "p"] [])))
     = Blocked.
Proof.
  assert (Ht : Forall not_esc ["l"; "s"])
    by (repeat constructor; discriminate).
  assert (Hw : Forall not_esc_nor_return []) by constructor.
  assert (Hspeed : (1 <= cfg_speed Lab.dollar)%Z) by (cbn; lia).
  destruct (failing_command_stops_the_playback_in_test_mode_only
              (P := Lab.platform) "ls" ["pwd"] Lab.dollar
              (Lab.start Lab.failing ["l"; "s"; CR; "p"] [])
              "$" ["l"; "s"] [] CR ["p"] 2 "output" Lab.failing
              eq_refl eq_refl Hspeed eq_refl Ht eq_refl Hw eq_refl eq_refl
              eq_refl ltac:(discriminate)) as [Hplay Htest].
  split.
  - now rewrite Htest.
  - rewrite Hplay. vm_compute. reflexivity.
Defined.

Lemma playback_needs_HOME_witness :
  match run (P := Lab.platform) ["ls"] "/bin/bash" "default" 1 false
          (Lab.start Lab.homeless ["x"; "l"; "s"; CR] []) with
  | (r, s', ev) =>
      (r = Raise KeyError \/ r = Raise ValueError \/ r = Blocked)
      /\ filter is_exec ev = [] /\ os s' = Lab.homeless
  end.
Proof.
  apply (playback_needs_HOME (P := Lab.platform) ["ls"] "/bin/bash" "default"
           1 false (Lab.start Lab.homeless ["x"; "l"; "s"; CR] [])).
  reflexivity.
Defined.

Lemma record_keeps_an_existing_file_unless_confirmed_witness :
  fst (fst (record (P := Lab.platform) "session.sh" "/bin/bash" "default" [] []
              (Lab.start Lab.recorded [] ["n"; "ls"])))
  = Raise Abort.
Proof.
  destruct (record_keeps_an_existing_file_unless_confirmed (P := Lab.platform)
              "session.sh" "/bin/bash" "default" [] []
              (Lab.start Lab.recorded [] ["n"; "ls"]) eq_refl) as [Hno _].
  now rewrite (Hno "n" ["ls"] eq_refl eq_refl).
Defined.

